(** * vscode-cmantic: symbol ranges, text transforms and insertion positions

    A shallow embedding of [src/ProposedPosition.ts] (which holds the code of
    ProposedPosition, CSymbol, the accessors and SourceSymbol),
    [src/SourceDocument.ts] and [src/commands/updateSignature.ts].

    JavaScript strings are [string]s, string indices are [Z] (so that the
    [-1] of [indexOf] is kept), editor positions are pairs of naturals. *)

From Stdlib Require Import String Ascii List ZArith Lia Bool Arith PeanoNat.
Import ListNotations.

Open Scope string_scope.
Open Scope list_scope.
Open Scope nat_scope.

(** String concatenation (the [+] of JavaScript on strings). *)
Infix "+++" := String.append (right associativity, at level 60).

(* ===================================================================== *)
(** ** JavaScript strings *)
(* ===================================================================== *)

Module JS.

(** White space of [String.prototype.trim] and of the regex class [\s],
    restricted to the code units below 256. *)
Definition isSpace (c : ascii) : bool :=
  let n := nat_of_ascii c in
  ((9 <=? n) && (n <=? 13)) || (n =? 32) || (n =? 160).

(** Line terminators: the characters the regex [.] does not match. *)
Definition isLineTerminator (c : ascii) : bool :=
  let n := nat_of_ascii c in (n =? 10) || (n =? 13).

(** The regex class [\w] (which already holds the digits and [_]). *)
Definition isWord (c : ascii) : bool :=
  let n := nat_of_ascii c in
  ((48 <=? n) && (n <=? 57)) || ((65 <=? n) && (n <=? 90))
  || ((97 <=? n) && (n <=? 122)) || (n =? 95).

(** The double-quote character, by its code. *)
Definition doubleQuote : ascii := ascii_of_nat 34.

Definition lineFeed : ascii := ascii_of_nat 10.

Definition carriageReturn : ascii := ascii_of_nat 13.

Definition length (s : string) : Z := Z.of_nat (String.length s).

(** [s.substring(a, b)]: negative arguments count as 0, arguments past the
    end as the length, and the two are swapped when [a > b]. *)
Definition substring (s : string) (a b : Z) : string :=
  let a' := Z.to_nat (Z.max 0 a) in
  let b' := Z.to_nat (Z.max 0 b) in
  String.substring (Nat.min a' b') (Nat.max a' b' - Nat.min a' b') s.

(** [s.substring(a)] *)
Definition substringFrom (s : string) (a : Z) : string :=
  substring s a (length s).

Fixpoint startsWith (needle s : string) : bool :=
  match needle, s with
  | EmptyString, _ => true
  | String _ _, EmptyString => false
  | String a needle', String b s' => Ascii.eqb a b && startsWith needle' s'
  end.

(** First index [>= 0] at which [needle] occurs in [s], counted from
    [pos]. *)
Fixpoint indexOfNat (needle s : string) (pos : nat) : option nat :=
  if startsWith needle s then Some pos
  else match s with
       | EmptyString => None
       | String _ s' => indexOfNat needle s' (S pos)
       end.

Fixpoint skipn (n : nat) (s : string) : string :=
  match n, s with
  | O, _ => s
  | S _, EmptyString => EmptyString
  | S n', String _ s' => skipn n' s'
  end.

(** [s.indexOf(needle, from)]; [-1] when there is no occurrence. *)
Definition indexOfFrom (s needle : string) (from : Z) : Z :=
  let f := Nat.min (Z.to_nat (Z.max 0 from)) (String.length s) in
  match indexOfNat needle (skipn f s) f with
  | Some i => Z.of_nat i
  | None => (-1)%Z
  end.

Definition indexOf (s needle : string) : Z := indexOfFrom s needle 0.

Definition includes (s needle : string) : bool :=
  negb (indexOf s needle =? -1)%Z.

Fixpoint rev_acc (s acc : string) : string :=
  match s with
  | EmptyString => acc
  | String c s' => rev_acc s' (String c acc)
  end.

Definition rev (s : string) : string := rev_acc s EmptyString.

Fixpoint trimStart (s : string) : string :=
  match s with
  | String c s' => if isSpace c then trimStart s' else s
  | EmptyString => EmptyString
  end.

(** [trimEnd]: drops the white space at the end, by one pass that keeps a
    run of white space only when something follows it. *)
Fixpoint trimEnd (s : string) : string :=
  match s with
  | EmptyString => EmptyString
  | String c s' =>
      match trimEnd s' with
      | EmptyString => if isSpace c then EmptyString else String c EmptyString
      | t => String c t
      end
  end.

Definition trim (s : string) : string := trimEnd (trimStart s).

Definition endsWith (s suffix : string) : bool :=
  startsWith (rev suffix) (rev s).

Fixpoint repeat (c : ascii) (n : nat) : string :=
  match n with
  | O => EmptyString
  | S n' => String c (repeat c n')
  end.

(** [s.split(sep)] for a separator of one character. *)
Fixpoint split (sep : ascii) (s : string) : list string :=
  match s with
  | EmptyString => [EmptyString]
  | String c s' =>
      if Ascii.eqb c sep then EmptyString :: split sep s'
      else match split sep s' with
           | piece :: rest => String c piece :: rest
           | [] => [String c EmptyString]
           end
  end.

(** [lines.join(sep)] *)
Fixpoint join (sep : string) (l : list string) : string :=
  match l with
  | [] => EmptyString
  | [x] => x
  | x :: rest => x +++ sep +++ join sep rest
  end.


(** [s.lastIndexOf(needle)] for a needle that is not empty: the last index
    at which [needle] occurs in [s], counted from [pos]. *)
Fixpoint lastIndexOfNat (needle s : string) (pos : nat) : option nat :=
  match s with
  | EmptyString => None
  | String _ s' =>
      match lastIndexOfNat needle s' (S pos) with
      | Some i => Some i
      | None => if startsWith needle s then Some pos else None
      end
  end.

End JS.

(* ===================================================================== *)
(** ** The editor's document abstraction (vscode.Position, Range,
       TextDocument), as far as the code uses it *)
(* ===================================================================== *)

Record Position := mkPosition { line : nat; character : nat }.

Module Position.

Definition isBefore (a b : Position) : bool :=
  (line a <? line b) || ((line a =? line b) && (character a <? character b)).

Definition isEqual (a b : Position) : bool :=
  (line a =? line b) && (character a =? character b).

Definition isBeforeOrEqual (a b : Position) : bool :=
  isBefore a b || isEqual a b.

Definition isAfterOrEqual (a b : Position) : bool := isBeforeOrEqual b a.

Definition translate (p : Position) (lineDelta characterDelta : nat) : Position :=
  mkPosition (line p + lineDelta) (character p + characterDelta).

Definition lt (a b : Position) : Prop :=
  line a < line b \/ (line a = line b /\ character a < character b).

Definition le (a b : Position) : Prop := lt a b \/ a = b.

End Position.

Record Range := mkRange { start : Position; end_ : Position }.

Module Range.

(** [new vscode.Range(a, b)] orders its two ends. *)
Definition new (a b : Position) : Range :=
  if Position.isBefore b a then mkRange b a else mkRange a b.

Definition isEqual (r s : Range) : bool :=
  Position.isEqual (start r) (start s) && Position.isEqual (end_ r) (end_ s).

Definition contains (r s : Range) : bool :=
  Position.isBeforeOrEqual (start r) (start s)
  && Position.isBeforeOrEqual (end_ s) (end_ r).

(** [r.with(a, b)] *)
Definition with_ (r : Range) (a b : Position) : Range := new a b.

End Range.

(** A text document: its lines (without their terminators) and the
    end-of-line setting that says what joins them.  A document with no line at all
    reads as one empty line. *)
Module TextDocument.

(** [vscode.EndOfLine] *)
Inductive EndOfLine := LF | CRLF.

Record t := mk {
  uri : string;
  lines : list string;
  eol : EndOfLine
}.

(** The end-of-line sequence as a string. *)
Definition endOfLine (d : t) : string :=
  match eol d with
  | LF => String JS.lineFeed ""
  | CRLF => String JS.carriageReturn (String JS.lineFeed "")
  end.

Definition lineCount (d : t) : nat := Nat.max 1 (List.length (lines d)).

Definition lineText (d : t) (i : nat) : string := nth i (lines d) "".

Definition getFullText (d : t) : string := JS.join (endOfLine d) (lines d).

(** [validatePosition]: a line past the last one becomes the end of the
    last line, a character past the end of its line the end of that line. *)
Definition validatePosition (d : t) (p : Position) : Position :=
  if lineCount d <=? line p
  then mkPosition (lineCount d - 1) (String.length (lineText d (lineCount d - 1)))
  else mkPosition (line p) (Nat.min (character p) (String.length (lineText d (line p)))).

(** Offset of the first character of line [i]. *)
Fixpoint lineStartIn (eol : nat) (ls : list string) (i : nat) {struct i} : nat :=
  match i, ls with
  | O, _ => 0
  | S _, [] => 0
  | S i', l :: ls' => String.length l + eol + lineStartIn eol ls' i'
  end.

Definition lineStart (d : t) (i : nat) : nat :=
  lineStartIn (String.length (endOfLine d)) (lines d) i.

Definition offsetAt (d : t) (p : Position) : nat :=
  let p' := validatePosition d p in lineStart d (line p') + character p'.

(** [positionAt]: an offset inside a line terminator is the end of its
    line, an offset past the text the end of the last line. *)
Fixpoint positionAtIn (eol : nat) (ls : list string) (ln : nat) (off : nat) : Position :=
  match ls with
  | [] => mkPosition ln 0
  | [l] => mkPosition ln (Nat.min off (String.length l))
  | l :: ls' =>
      if off <? String.length l + eol
      then mkPosition ln (Nat.min off (String.length l))
      else positionAtIn eol ls' (S ln) (off - (String.length l + eol))
  end.

Definition positionAt (d : t) (off : nat) : Position :=
  positionAtIn (String.length (endOfLine d)) (lines d) 0 off.

(** [getText(range)]: the text between the two validated ends. *)
Definition getText (d : t) (r : Range) : string :=
  let a := offsetAt d (start r) in
  let b := offsetAt d (end_ r) in
  String.substring a (b - a) (getFullText d).

(** The fields of a [TextLine] that the code reads. *)
Definition firstNonWhitespaceCharacterIndex (text : string) : nat :=
  String.length text - String.length (JS.trimStart text).

Definition isEmptyOrWhitespace (text : string) : bool :=
  String.length (JS.trimStart text) =? 0.

Definition lineRangeStart (i : nat) : Position := mkPosition i 0.

Definition lineRangeEnd (d : t) (i : nat) : Position :=
  mkPosition i (String.length (lineText d i)).

End TextDocument.
Abbreviation TextDocument := TextDocument.t.

(* ===================================================================== *)
(** ** SourceDocument.getEndOfStatement *)
(* ===================================================================== *)

(** The [while] loop of [getEndOfStatement]; [fuel] bounds the number of
    iterations. *)
Fixpoint getEndOfStatement_loop (fuel : nat) (d : TextDocument) (position : Position)
  : Position :=
  match fuel with
  | O => position
  | S fuel' =>
      let nextPosition := Position.translate position 0 1 in
      if String.eqb (TextDocument.getText d (Range.new position nextPosition)) ";"
      then getEndOfStatement_loop fuel' d nextPosition
      else position
  end.

(** DocumentSymbol ranges don't always include the final semi-colon.  The
    loop stays on the line of [position], so the length of that line bounds
    its iterations. *)
Definition getEndOfStatement (d : TextDocument) (position : Position) : Position :=
  getEndOfStatement_loop
    (S (String.length (TextDocument.lineText d (line (TextDocument.validatePosition d position)))))
    d position.

(* ===================================================================== *)
(** ** Lexical masking utilities ([util.mask...]) *)
(* ===================================================================== *)

Module util.

(** [masker]: a match is replaced by as many spaces. *)
Definition masker (match_ : string) : string := JS.repeat " " (String.length match_).

(** One pass over [s] that keeps or blanks each character.  Outside a
    span, [spanAt] looks at the text from the current character on and
    answers [(k, m)]: a span starts here, its first [k] characters are kept
    and its next [m] characters blanked; [(0, 0)] when no span starts
    here.  [keep] and [mask] count what is left of the current span. *)
Fixpoint maskWith (spanAt : string -> nat * nat) (keep mask : nat) (s : string) : string :=
  match s with
  | EmptyString => EmptyString
  | String c s' =>
      match keep, mask with
      | S k, _ => String c (maskWith spanAt k mask s')
      | O, S m => String " " (maskWith spanAt 0 m s')
      | O, O =>
          match spanAt s with
          | (S k, m) => String c (maskWith spanAt k m s')
          | (O, S m) => String " " (maskWith spanAt 0 m s')
          | (O, O) => String c (maskWith spanAt 0 0 s')
          end
      end
  end.

(** A span of [inner] characters between an opening and a closing
    delimiter of [open] and [close] characters. *)
Definition span (keepEnclosingChars : bool) (open inner close : nat) : nat * nat :=
  if keepEnclosingChars then (open, inner) else (0, open + inner + close).

Fixpoint countUntilLineTerminator (s : string) : nat :=
  match s with
  | EmptyString => 0
  | String c s' => if JS.isLineTerminator c then 0 else S (countUntilLineTerminator s')
  end.

Definition blockCommentAt (keepEnclosingChars : bool) (s : string) : nat * nat :=
  if JS.startsWith "/*" s
  then match JS.indexOfNat "*/" (JS.skipn 2 s) 0 with
       | Some inner => span keepEnclosingChars 2 inner 2
       | None => (0, 0)
       end
  else (0, 0).

Definition lineCommentAt (keepEnclosingChars : bool) (s : string) : nat * nat :=
  if JS.startsWith "//" s
  then span keepEnclosingChars 2 (countUntilLineTerminator (JS.skipn 2 s)) 0
  else (0, 0).

(** Modelled from the spec: [util.maskComments] is not among the sources.
    Section 4.1: the contents of block comments and of line comments are
    replaced by equal-length white space, the comment delimiters staying
    visible for the caller that asks for it.  Block comments first, then
    line comments, as [findPositionForNewHeaderGuard] masks them. *)
Definition maskComments (text : string) (keepEnclosingChars : bool) : string :=
  maskWith (lineCommentAt keepEnclosingChars) 0 0
    (maskWith (blockCommentAt keepEnclosingChars) 0 0 text).

(** Number of characters before the closing quote [q], a backslash
    escaping the character after it. *)
Fixpoint findQuoteEnd (q : ascii) (escaped : bool) (s : string) : option nat :=
  match s with
  | EmptyString => None
  | String c s' =>
      if escaped then option_map S (findQuoteEnd q false s')
      else if Ascii.eqb c "\" then option_map S (findQuoteEnd q true s')
      else if Ascii.eqb c q then Some 0
      else option_map S (findQuoteEnd q false s')
  end.

Definition quoteAt (keepEnclosingChars : bool) (s : string) : nat * nat :=
  match s with
  | String c s' =>
      if Ascii.eqb c "'" || Ascii.eqb c JS.doubleQuote
      then match findQuoteEnd c false s' with
           | Some inner => span keepEnclosingChars 1 inner 1
           | None => (0, 0)
           end
      else (0, 0)
  | EmptyString => (0, 0)
  end.

(** Modelled from the spec: [util.maskQuotes] is not among the sources.
    Section 4.1: single- and double-quoted literals, with escape awareness,
    are replaced by equal-length white space. *)
Definition maskQuotes (text : string) (keepEnclosingChars : bool) : string :=
  maskWith (quoteAt keepEnclosingChars) 0 0 text.

(** Number of characters before the [right] that closes a group opened at
    nesting depth [depth]. *)
Fixpoint findClose (left right : ascii) (depth : nat) (s : string) : option nat :=
  match s with
  | EmptyString => None
  | String c s' =>
      if Ascii.eqb c right
      then match depth with
           | O => Some 0
           | S d => option_map S (findClose left right d s')
           end
      else if Ascii.eqb c left then option_map S (findClose left right (S depth) s')
      else option_map S (findClose left right depth s')
  end.

Definition groupAt (left right : ascii) (keepEnclosingChars : bool) (s : string) : nat * nat :=
  match s with
  | String c s' =>
      if Ascii.eqb c left
      then match findClose left right 0 s' with
           | Some inner => span keepEnclosingChars 1 inner 1
           | None => (0, 0)
           end
      else (0, 0)
  | EmptyString => (0, 0)
  end.

(** Modelled from the spec: the masks of balanced groups are not among the
    sources.  Section 4.1 and Section 8: a bracket-depth scan; the content
    of each outermost group, nested groups included, is replaced by
    equal-length white space; the text outside the groups is unchanged. *)
Definition maskBalanced (text : string) (left right : ascii) (keepEnclosingChars : bool) : string :=
  maskWith (groupAt left right keepEnclosingChars) 0 0 text.

Definition maskParentheses (text : string) (keepEnclosingChars : bool) : string :=
  maskBalanced text "(" ")" keepEnclosingChars.

Definition maskAngleBrackets (text : string) (keepEnclosingChars : bool) : string :=
  maskBalanced text "<" ">" keepEnclosingChars.

Definition maskBraces (text : string) (keepEnclosingChars : bool) : string :=
  maskBalanced text "{" "}" keepEnclosingChars.

Definition maskBrackets (text : string) (keepEnclosingChars : bool) : string :=
  maskBalanced text "[" "]" keepEnclosingChars.

Definition comparisonOperatorAt (s : string) : nat * nat :=
  if JS.startsWith "==" s || JS.startsWith "!=" s
     || JS.startsWith "<=" s || JS.startsWith ">=" s
  then (0, 2) else (0, 0).

(** Modelled from the spec: [util.maskComparisonOperators] is not among
    the sources.  Section 4.1: comparison operators are replaced by
    equal-length white space; [stripDefaultValues] masks them because they
    hold an equals sign. *)
Definition maskComparisonOperators (text : string) : string :=
  maskWith comparisonOperatorAt 0 0 text.

(** Modelled from the spec: [util.getEndOfStatement], which the constructor
    of CSymbol calls, is not among the sources.  Section 4.4, statement-end
    adjustment: the end position is extended past any immediately-following
    semicolons.  The private method [getEndOfStatement] of SourceDocument,
    which is among the sources, does this and stands for it. *)
Definition getEndOfStatement (document : TextDocument) (position : Position) : Position :=
  getEndOfStatement document position.

End util.

(* ===================================================================== *)
(** ** The symbol tree: vscode.DocumentSymbol and SourceSymbol *)
(* ===================================================================== *)

Inductive SymbolKind :=
| File | Module_ | Namespace | Package | Class | Method | Property | Field
| Constructor | Enum | Interface | Function | Variable_ | Constant | String_
| Number | Boolean | Array | Object | Key | Null | EnumMember | Struct
| Event | Operator | TypeParameter.

Module SymbolKind.
Definition eqb (a b : SymbolKind) : bool :=
  match a, b with
  | File, File | Module_, Module_ | Namespace, Namespace | Package, Package
  | Class, Class | Method, Method | Property, Property | Field, Field
  | Constructor, Constructor | Enum, Enum | Interface, Interface
  | Function, Function | Variable_, Variable_ | Constant, Constant
  | String_, String_ | Number, Number | Boolean, Boolean | Array, Array
  | Object, Object | Key, Key | Null, Null | EnumMember, EnumMember
  | Struct, Struct | Event, Event | Operator, Operator
  | TypeParameter, TypeParameter => true
  | _, _ => false
  end.
End SymbolKind.

(** The raw output of the document-symbol provider. *)
Module DocumentSymbol.
#[warnings="-register-all"] Inductive t := mk {
  name : string;
  detail : string;
  kind : SymbolKind;
  range : Range;
  selectionRange : Range;
  children : list t
}.
End DocumentSymbol.
Abbreviation DocumentSymbol := DocumentSymbol.t.

(** [Array.prototype.sort(compareFn)]: a stable sort; an element goes before
    the first element it does not compare greater than. *)
Module JSArray.
Section Sort.
Context {A : Type} (compareFn : A -> A -> Z).

Fixpoint insert (x : A) (l : list A) : list A :=
  match l with
  | [] => [x]
  | y :: l' => if (compareFn x y <=? 0)%Z then x :: l else y :: insert x l'
  end.

Definition sort (l : list A) : list A := fold_right insert [] l.
End Sort.

(** [l.slice(a, b)] for indices within [0 .. length]. *)
Definition slice {A : Type} (l : list A) (a b : nat) : list A :=
  firstn (b - a) (skipn a l).
End JSArray.

Module SourceSymbol.

(** [parent] is the back-reference; a symbol built by [new] holds its
    parent as it is when the child is built, that is before the parent's
    [children] are assigned. *)
#[warnings="-register-all"] Inductive t := mk {
  name : string;
  detail : string;
  kind : SymbolKind;
  range : Range;
  selectionRange : Range;
  uri : string;
  signature : string;
  parent : option t;
  children : list t
}.

Definition isClassOrStruct (this : t) : bool :=
  SymbolKind.eqb (kind this) Class || SymbolKind.eqb (kind this) Struct.

Definition isFunction (this : t) : bool :=
  match kind this with
  | Operator | Method | Constructor | Function => true
  | _ => false
  end.

Definition isMemberVariable (this : t) : bool :=
  match parent this with
  | Some p => isClassOrStruct p
              && (SymbolKind.eqb (kind this) Field || SymbolKind.eqb (kind this) Property)
  | None => false
  end.

Definition isVariable (this : t) : bool :=
  SymbolKind.eqb (kind this) Variable_ || isMemberVariable this.

Definition mightBeTypedefOrTypeAlias (this : t) : bool :=
  SymbolKind.eqb (kind this) Interface || SymbolKind.eqb (kind this) Class
  || SymbolKind.eqb (kind this) Property.

(** The longest prefix of [s] made of word characters, when it is a match
    of [[\w_][\w\d_]*], that is when it is not empty. *)
Fixpoint identifierPrefix (s : string) : string :=
  match s with
  | String c s' => if JS.isWord c then String c (identifierPrefix s') else EmptyString
  | EmptyString => EmptyString
  end.

(** The test of [signature] against the regex that asks, at the start of
    the text, for an identifier (the named group), then [::], then [mid],
    then the same identifier again; [mid] is empty for constructors.  The
    group is greedy, and a shorter identifier is followed by a word
    character, not by [::], so only the longest identifier prefix can
    match. *)
Definition scopedSelfName (mid signature : string) : bool :=
  let name := identifierPrefix signature in
  negb (String.length name =? 0)
  && JS.startsWith ("::" +++ mid +++ name) (JS.skipn (String.length name) signature).

Definition isConstructor (this : t) : bool :=
  match kind this with
  | Constructor | Method | Function =>
      match parent this with
      | Some p => String.eqb (name this) (name p)
      | None => false
      end
      || scopedSelfName "" (signature this)
  | _ => false
  end.

Definition matches (this other : t) : bool :=
  String.eqb (name this) (name other)
  && (SymbolKind.eqb (kind this) (kind other) || (isFunction this && isFunction other)).

(** ['~' + this.parent?.name] reads [~undefined] for a symbol without
    parent. *)
Definition isDestructor (this : t) : bool :=
  match kind this with
  | Constructor | Method | Function =>
      String.eqb (name this)
        ("~" +++ match parent this with
                 | Some p => name p
                 | None => "undefined"
                 end)
      || scopedSelfName "~" (signature this)
  | _ => false
  end.

Fixpoint dropLeadingUnderscores (s : string) : string :=
  match s with
  | String c s' => if Ascii.eqb c "_" then dropLeadingUnderscores s' else s
  | EmptyString => EmptyString
  end.

Fixpoint dropTrailingUnderscores (s : string) : string :=
  match s with
  | EmptyString => EmptyString
  | String c s' =>
      match dropTrailingUnderscores s' with
      | EmptyString => if Ascii.eqb c "_" then EmptyString else String c EmptyString
      | t => String c t
      end
  end.

Fixpoint allWord (s : string) : bool :=
  match s with
  | EmptyString => true
  | String c s' => JS.isWord c && allWord s'
  end.

(** The test of [name] against the regex: start of the text, [prefix] (two
    characters), one or more word characters, end of the text. *)
Definition hasPrefix (prefix name : string) : bool :=
  let rest := JS.skipn 2 name in
  JS.startsWith prefix name && negb (String.length rest =? 0) && allWord rest.

(** Checks for common naming schemes of private members and returns the
    base name.  The first regex matches a name that starts or ends with an
    underscore; its global replacement removes the underscores at the
    start and those at the end. *)
Definition baseName (this : t) : string :=
  if JS.startsWith "_" (name this) || JS.endsWith (name this) "_"
  then dropTrailingUnderscores (dropLeadingUnderscores (name this))
  else if hasPrefix "m_" (name this) then JS.skipn 2 (name this)
  else if hasPrefix "s_" (name this) then JS.skipn 2 (name this)
  else name this.

Definition memberVariables (this : t) : list t :=
  if negb (isClassOrStruct this) then [] else filter isMemberVariable (children this).

Definition constructors (this : t) : list t :=
  if negb (isClassOrStruct this) then [] else filter isConstructor (children this).

(** The chain of parents, innermost first: [scopes().reverse()]. *)
Fixpoint ancestors (this : t) : list t :=
  match parent this with
  | Some p => p :: ancestors p
  | None => []
  end.

(** Starts with the top-most ancestor and ends with [this.parent]. *)
Definition scopes (this : t) : list t := List.rev (ancestors this).

Section New.
(** [parse.getNormalizedSymbolName] and [util.sortByRange] are not among
    the sources: they are parameters of the constructor. *)
Variable getNormalizedSymbolName : string -> string.
Variable sortByRange : Range -> Range -> Z.

(** The fields the constructor sets before it builds the children. *)
Definition header (symbol : DocumentSymbol) (uri : string) (parent : option t) : t :=
  let ccls := JS.includes (DocumentSymbol.detail symbol) (DocumentSymbol.name symbol +++ "(") in
  mk (getNormalizedSymbolName (DocumentSymbol.name symbol))
     (DocumentSymbol.detail symbol)
     (if ccls && SymbolKind.eqb (DocumentSymbol.kind symbol) Property
      then Method else DocumentSymbol.kind symbol)
     (DocumentSymbol.range symbol)
     (DocumentSymbol.selectionRange symbol)
     uri
     (if ccls then DocumentSymbol.detail symbol
      else match parent with
           | Some p => if isClassOrStruct p
                       then name p +++ "::" +++ DocumentSymbol.name symbol
                       else DocumentSymbol.name symbol
           | None => DocumentSymbol.name symbol
           end)
     parent
     [].

Definition withChildren (this : t) (cs : list t) : t :=
  mk (name this) (detail this) (kind this) (range this) (selectionRange this)
     (uri this) (signature this) (parent this) cs.

(** [new SourceSymbol(symbol, uri, parent)] for a raw [DocumentSymbol].
    The source sorts [symbol.children] and then wraps each child; the
    recursion here wraps the children and sorts the wrapped ones, which
    is the same list since wrapping keeps the ranges ([new_unfold]
    below states the constructor in the order of the source).

    In the source a child holds its parent as a reference to the object
    itself, whose [children] array is filled once the children are built.
    A value of an inductive type cannot hold that cycle: the [parent] of a
    child built here is the parent as it is before its children are
    assigned ([header]), with the name, kind, ranges, uri, signature and
    parent of the parent, and without children.  So [parent.children] of a
    symbol of a tree built by [new] is not what the code reads; the
    properties below that read the children of a parent are stated for
    every symbol, whatever its parent holds, and those about trees built
    by [new] read the name, the kind and the range of a parent only. *)
Fixpoint new (symbol : DocumentSymbol) (uri : string) (parent : option t) : t :=
  let this := header symbol uri parent in
  withChildren this
    (JSArray.sort (fun a b => sortByRange (range a) (range b))
       (map (fun child => new child uri (Some this)) (DocumentSymbol.children symbol))).
End New.

End SourceSymbol.
Abbreviation SourceSymbol := SourceSymbol.t.

(* ===================================================================== *)
(** ** The regular expressions of the sources, as scanners *)
(* ===================================================================== *)

Module Re.

(** Index of the first suffix of [s] that [p] accepts: the [index] of
    [s.match(re)] for a regex without the [g] flag, [p] saying whether the
    regex matches at the start of a suffix. *)
Fixpoint search (p : string -> bool) (s : string) (pos : nat) : option nat :=
  if p s then Some pos
  else match s with
       | EmptyString => None
       | String _ s' => search p s' (S pos)
       end.

(** White space, then an opening brace. *)
Definition spacesThenBrace (s : string) : bool := JS.startsWith "{" (JS.trimStart s).

(** White space, then a colon that no colon follows. *)
Definition spacesThenColon (s : string) : bool :=
  let t := JS.trimStart s in JS.startsWith ":" t && negb (JS.startsWith "::" t).

(** Removal of one final semicolon: [text.replace(re, '')] for the regex
    made of [;] and the end anchor. *)
Definition dropFinalSemicolon (s : string) : string :=
  if JS.endsWith s ";" then String.substring 0 (String.length s - 1) s else s.

(** Index of the last occurrence of [c0] before the end of the line,
    counted from [pos]. *)
Fixpoint lastIndexInLine (c0 : ascii) (s : string) (pos : nat) (best : option nat) : option nat :=
  match s with
  | EmptyString => best
  | String c s' =>
      if JS.isLineTerminator c then best
      else lastIndexInLine c0 s' (S pos) (if Ascii.eqb c c0 then Some pos else best)
  end.

(** Length of the match, at the start of [s], of the regex: word boundary,
    [template], white space, [<], one or more characters of the line
    (greedy), [>].  [prevWord] says whether a word character comes before. *)
Definition templateAt (prevWord : bool) (s : string) : option nat :=
  if negb prevWord && JS.startsWith "template" s then
    let rest := JS.skipn 8 s in
    let t := JS.trimStart rest in
    match t with
    | String "<" (String c seg) =>
        if JS.isLineTerminator c then None
        else match lastIndexInLine ">" seg 1 None with
             | Some k => Some (8 + (String.length rest - String.length t) + 1 + k + 1)
             | None => None
             end
    | _ => None
    end
  else None.

(** The index of the last match of [text.matchAll(re)] for the template
    regex: the matches are found from left to right, each search starting
    where the match before ended ([skip] counts what is left of it). *)
Fixpoint lastTemplateMatchFrom
  (s : string) (pos : nat) (prevWord : bool) (skip : nat) (last : option nat) : option nat :=
  match s with
  | EmptyString => last
  | String c s' =>
      match skip with
      | S k => lastTemplateMatchFrom s' (S pos) (JS.isWord c) k last
      | O =>
          match templateAt prevWord s with
          | Some len => lastTemplateMatchFrom s' (S pos) (JS.isWord c) (len - 1) (Some pos)
          | None => lastTemplateMatchFrom s' (S pos) (JS.isWord c) 0 last
          end
      end
  end.

Definition lastTemplateMatch (s : string) : option nat :=
  lastTemplateMatchFrom s 0 false 0 None.

(** Does one of [words] start [s], with no word character after it?
    Answers the length of the word. *)
Fixpoint keywordAt (words : list string) (s : string) : option nat :=
  match words with
  | [] => None
  | w :: words' =>
      if JS.startsWith w s
         && match JS.skipn (String.length w) s with
            | String c _ => negb (JS.isWord c)
            | EmptyString => true
            end
      then Some (String.length w)
      else keywordAt words' s
  end.

Definition countSpaces (s : string) : nat := String.length s - String.length (JS.trimStart s).

(** [text.replace(re, '')] for the global regex: word boundary, one of
    [words], word boundary, white space. *)
Fixpoint removeKeywordsFrom (words : list string) (prevWord : bool) (skip : nat) (s : string) : string :=
  match s with
  | EmptyString => EmptyString
  | String c s' =>
      match skip with
      | S k => removeKeywordsFrom words (JS.isWord c) k s'
      | O =>
          match (if prevWord then None else keywordAt words s) with
          | Some len =>
              removeKeywordsFrom words (JS.isWord c)
                (len + countSpaces (JS.skipn len s) - 1) s'
          | None => String c (removeKeywordsFrom words (JS.isWord c) 0 s')
          end
      end
  end.

Definition removeKeywords (words : list string) (s : string) : string :=
  removeKeywordsFrom words false 0 s.

(** [text.replace(re, '')] for the global regex: white space, word
    boundary, one of [words], word boundary. *)
Fixpoint removeSpacedKeywordsFrom (words : list string) (prevWord : bool) (skip : nat) (s : string) : string :=
  match s with
  | EmptyString => EmptyString
  | String c s' =>
      match skip with
      | S k => removeSpacedKeywordsFrom words (JS.isWord c) k s'
      | O =>
          let spaces := countSpaces s in
          match (if (spaces =? 0) && prevWord then None
                 else keywordAt words (JS.trimStart s)) with
          | Some len => removeSpacedKeywordsFrom words (JS.isWord c) (spaces + len - 1) s'
          | None => String c (removeSpacedKeywordsFrom words (JS.isWord c) 0 s')
          end
      end
  end.

Definition removeSpacedKeywords (words : list string) (s : string) : string :=
  removeSpacedKeywordsFrom words false 0 s.

(** [text.replace(re, '')] for the global multi-line regex: start of a
    line, one or more white-space characters.  [canDrop] holds at the start
    of a line and inside a run that is being removed. *)
Fixpoint removeLeadingSpacesFrom (canDrop : bool) (s : string) : string :=
  match s with
  | EmptyString => EmptyString
  | String c s' =>
      if canDrop && JS.isSpace c then removeLeadingSpacesFrom true s'
      else String c (removeLeadingSpacesFrom (JS.isLineTerminator c) s')
  end.

Definition removeLeadingSpaces (s : string) : string := removeLeadingSpacesFrom true s.

(** [text.replace(re, ' '.repeat(m))] for the global multi-line regex: start
    of a line, [n] spaces. *)
Fixpoint realignFrom (n m : nat) (lineStart : bool) (skip : nat) (s : string) : string :=
  match s with
  | EmptyString =>
      if lineStart && (n =? 0) then JS.repeat " " m else EmptyString
  | String c s' =>
      match skip with
      | S k => realignFrom n m false k s'
      | O =>
          if lineStart && JS.startsWith (JS.repeat " " n) s
          then match n with
               | O => JS.repeat " " m +++ String c (realignFrom n m (JS.isLineTerminator c) 0 s')
               | S k => JS.repeat " " m +++ realignFrom n m false k s'
               end
          else String c (realignFrom n m (JS.isLineTerminator c) 0 s')
      end
  end.

Definition realign (n m : nat) (s : string) : string := realignFrom n m true 0 s.

(** The text after the last occurrence of [sep] in [s] (the whole of [s]
    when there is none): the last piece of [s.split(sep)], for a separator
    that is not empty.  [piece] is the text since the last separator. *)
Fixpoint lastPieceFrom (sep : string) (skip : nat) (piece : string) (s : string) : string :=
  match s with
  | EmptyString => JS.rev piece
  | String c s' =>
      match skip with
      | S k => lastPieceFrom sep k piece s'
      | O =>
          if JS.startsWith sep s
          then lastPieceFrom sep (String.length sep - 1) EmptyString s'
          else lastPieceFrom sep 0 (String c piece) s'
      end
  end.

Definition lastPiece (sep s : string) : string := lastPieceFrom sep 0 EmptyString s.

(** Index of the last match of [text.matchAll(re)] for the regex of the
    beginning of a scope string: an identifier that is neither preceded by a
    word character nor by [::] and white space, and that white space and
    [::] follow.  [afterScope] says whether the text read so far ends with
    [::] and white space. *)
Fixpoint lastScopeStartFrom
  (s : string) (pos : nat) (prevWord prevColon afterScope : bool) (last : option nat)
  : option nat :=
  match s with
  | EmptyString => last
  | String c s' =>
      let here :=
        JS.isWord c && negb prevWord && negb afterScope
        && JS.startsWith "::"
             (JS.trimStart (JS.skipn (String.length (SourceSymbol.identifierPrefix s)) s)) in
      let colon := Ascii.eqb c ":" in
      lastScopeStartFrom s' (S pos) (JS.isWord c) colon
        ((colon && prevColon) || (JS.isSpace c && afterScope))
        (if here then Some pos else last)
  end.

Definition lastScopeStart (s : string) : option nat :=
  lastScopeStartFrom s 0 false false false None.

(** [text.replace(re_blockComments, '')]: the block comments are removed. *)
Fixpoint removeBlockCommentsFrom (skip : nat) (s : string) : string :=
  match s with
  | EmptyString => EmptyString
  | String c s' =>
      match skip with
      | S k => removeBlockCommentsFrom k s'
      | O =>
          match util.blockCommentAt false s with
          | (_, S m) => removeBlockCommentsFrom m s'
          | (_, O) => String c (removeBlockCommentsFrom 0 s')
          end
      end
  end.

Definition removeBlockComments (s : string) : string := removeBlockCommentsFrom 0 s.

(** [text.replace(re_blockComments, util.masker)] *)
Definition maskBlockComments (s : string) : string :=
  util.maskWith (util.blockCommentAt false) 0 0 s.

(** Does the regex made of a word boundary, one of [words] and a word
    boundary match somewhere in [s]? *)
Fixpoint containsKeywordFrom (words : list string) (prevWord : bool) (s : string) : bool :=
  match (if prevWord then None else keywordAt words s) with
  | Some _ => true
  | None =>
      match s with
      | EmptyString => false
      | String c s' => containsKeywordFrom words (JS.isWord c) s'
      end
  end.

Definition containsKeyword (words : list string) (s : string) : bool :=
  containsKeywordFrom words false s.

(** [text.replace(re, util.masker)] for the global regex: word boundary,
    one of [words], word boundary. *)
Fixpoint maskKeywordsFrom (words : list string) (prevWord : bool) (mask : nat) (s : string) : string :=
  match s with
  | EmptyString => EmptyString
  | String c s' =>
      match mask with
      | S k => String " " (maskKeywordsFrom words (JS.isWord c) k s')
      | O =>
          match (if prevWord then None else keywordAt words s) with
          | Some len => String " " (maskKeywordsFrom words (JS.isWord c) (len - 1) s')
          | None => String c (maskKeywordsFrom words (JS.isWord c) 0 s')
          end
      end
  end.

Definition maskKeywords (words : list string) (s : string) : string :=
  maskKeywordsFrom words false 0 s.

(** Does an identifier that no white space and [::] follow start [s]?  The
    predicate of [re_scopeResolvedIdentifier]. *)
Definition scopeResolvedIdentifierAt (s : string) : bool :=
  let id := SourceSymbol.identifierPrefix s in
  negb (String.length id =? 0)
  && negb (JS.startsWith "::" (JS.trimStart (JS.skipn (String.length id) s))).

Fixpoint containsChar (p : ascii -> bool) (s : string) : bool :=
  match s with
  | EmptyString => false
  | String c s' => p c || containsChar p s'
  end.

(** The text up to the [>] that ends the third alternative of the regex of
    [struct], [class] and an angle-bracket group: characters other than [>],
    or a [>] that another [>] follows; the group is greedy, so the match
    ends at a [>] that a word character follows as late as possible; any
    such [>] that can be reached will do for a test. *)
Fixpoint angleGroupThenWord (s : string) : bool :=
  match s with
  | EmptyString => false
  | String c s' =>
      if Ascii.eqb c ">"
      then match s' with
           | String c' _ => JS.isWord c' || (Ascii.eqb c' ">" && angleGroupThenWord s')
           | EmptyString => false
           end
      else angleGroupThenWord s'
  end.

(** Does the regex of [struct], [class] or an angle-bracket group between
    word boundaries match somewhere in [s]? *)
Fixpoint containsStructClassOrTemplateFrom (prevWord : bool) (s : string) : bool :=
  match (if prevWord then None else keywordAt ["struct"; "class"] s) with
  | Some _ => true
  | None =>
      match s with
      | EmptyString => false
      | String c s' =>
          (prevWord && Ascii.eqb c "<" && angleGroupThenWord s')
          || containsStructClassOrTemplateFrom (JS.isWord c) s'
      end
  end.

(** Index of the first match of the regex: word boundary, [public], white
    space, [:]. *)
Fixpoint publicSpecifierFrom (prevWord : bool) (s : string) (pos : nat) : option nat :=
  if negb prevWord && JS.startsWith "public" s
     && JS.startsWith ":" (JS.trimStart (JS.skipn 6 s))
  then Some pos
  else match s with
       | EmptyString => None
       | String c s' => publicSpecifierFrom (JS.isWord c) s' (S pos)
       end.

Definition publicSpecifier (s : string) : option nat := publicSpecifierFrom false s 0.

(** Length of the match, at the start of [s], of the regex: a word
    character, word characters, white space, [:] that no [:] follows.  The
    word characters are taken greedily, and a shorter run is followed by a
    word character, so only the longest run can match. *)
Definition labelAt (s : string) : option nat :=
  let id := SourceSymbol.identifierPrefix s in
  let rest := JS.skipn (String.length id) s in
  let t := JS.trimStart rest in
  if negb (String.length id =? 0) && JS.startsWith ":" t && negb (JS.startsWith "::" t)
  then Some (String.length id + (String.length rest - String.length t) + 1)
  else None.

(** The indices of the matches of [text.matchAll(re)] for the regex of
    [labelAt], from left to right; [skip] counts what is left of the match
    before. *)
Fixpoint labelMatchesFrom (s : string) (pos skip : nat) : list nat :=
  match s with
  | EmptyString => []
  | String c s' =>
      match skip with
      | S k => labelMatchesFrom s' (S pos) k
      | O =>
          match labelAt s with
          | Some len => pos :: labelMatchesFrom s' (S pos) (len - 1)
          | None => labelMatchesFrom s' (S pos) 0
          end
      end
  end.

Definition labelMatches (s : string) : list nat := labelMatchesFrom s 0 0.

(** The block comments as the regex of [findPositionForNewHeaderGuard]
    reads them: after the opening, a run of characters each of which is
    not a star, or is a star that a slash follows; then a star and a
    slash.  The run is greedy, so the match ends at the last star of the
    longest run; [lastStarInRun] is the index of that star. *)
Fixpoint lastStarInRun (s : string) (pos : nat) (last : option nat) : option nat :=
  match s with
  | EmptyString => last
  | String c s' =>
      if Ascii.eqb c "*"
      then if JS.startsWith "/" s' then lastStarInRun s' (S pos) (Some pos) else last
      else lastStarInRun s' (S pos) last
  end.

Definition headerBlockCommentAt (s : string) : nat * nat :=
  if JS.startsWith "/*" s
  then match lastStarInRun (JS.skipn 2 s) 0 None with
       | Some inner => (0, 2 + inner + 2)
       | None => (0, 0)
       end
  else (0, 0).

(** The predicate of the regex of one character that is not white space. *)
Definition nonSpaceAt (s : string) : bool :=
  match s with
  | String c _ => negb (JS.isSpace c)
  | EmptyString => false
  end.

(** The test of the regex: start of the text, white space, [#pragma],
    one or more white-space characters, [once], word boundary. *)
Definition pragmaOnceAt (text : string) : bool :=
  let t := JS.trimStart text in
  let rest := JS.skipn 7 t in
  let u := JS.trimStart rest in
  JS.startsWith "#pragma" t
  && (String.length u <? String.length rest)
  && JS.startsWith "once" u
  && match JS.skipn 4 u with
     | String c _ => negb (JS.isWord c)
     | EmptyString => true
     end.

End Re.

(* ===================================================================== *)
(** ** CSymbol: a SourceSymbol bound to a document *)
(* ===================================================================== *)

(** What a call gives back: a value, or an exception. *)
Inductive outcome (A : Type) :=
| Returns (result : A)
| Throws.
Arguments Returns {A} result.
Arguments Throws {A}.

(** The class [ProposedPosition] of ProposedPosition.ts: a position and its
    options; an option that is left out reads as [false]. *)
Module Proposed.

Record PositionOptions := mkOptions {
  relativeTo : option Range;
  before : bool;
  after : bool;
  nextTo : bool;       (* Signals to not put a blank line between. *)
  indent : bool        (* Signals that text should be indented relative to the positions line. *)
}.

(** [new ProposedPosition(position, options)] *)
Record ProposedPosition := new {
  position : Position;
  options : PositionOptions
}.

End Proposed.

Module CSymbol.

#[warnings="-register-all"] Inductive t := mk {
  name : string;
  detail : string;
  kind : SymbolKind;
  range : Range;
  selectionRange : Range;
  uri : string;
  signature : string;
  parent : option t;
  children : list SourceSymbol;
  document : TextDocument
}.

(** A CSymbol seen as the SourceSymbol it extends. *)
Fixpoint toSourceSymbol (this : t) : SourceSymbol :=
  SourceSymbol.mk (name this) (detail this) (kind this) (range this) (selectionRange this)
    (uri this) (signature this)
    (match parent this with
     | Some p => Some (toSourceSymbol p)
     | None => None
     end)
    (children this).

(** The body of the constructor once [this.parent] is known: the fields of
    [symbol] are taken over, [uri] is the document's, and the range is
    extended by [util.getEndOfStatement]. *)
Definition build (symbol : SourceSymbol) (document : TextDocument) (parent : option t) : t :=
  mk (SourceSymbol.name symbol) (SourceSymbol.detail symbol) (SourceSymbol.kind symbol)
     (Range.with_ (SourceSymbol.range symbol)
        (start (SourceSymbol.range symbol))
        (util.getEndOfStatement document (end_ (SourceSymbol.range symbol))))
     (SourceSymbol.selectionRange symbol)
     (TextDocument.uri document)
     (SourceSymbol.signature symbol)
     parent
     (SourceSymbol.children symbol)
     document.

(** [new CSymbol(symbol, document)]: the parent is built from
    [symbol.parent]. *)
Fixpoint ofSourceSymbol (document : TextDocument) (symbol : SourceSymbol) : t :=
  build symbol document
    (match SourceSymbol.parent symbol with
     | Some p => Some (ofSourceSymbol document p)
     | None => None
     end).

(** [new CSymbol(symbol, document, parent)] for a SourceSymbol. *)
Definition new (symbol : SourceSymbol) (document : TextDocument) (parent : option t) : t :=
  match SourceSymbol.parent symbol, parent with
  | Some p, None => build symbol document (Some (ofSourceSymbol document p))
  | _, _ => build symbol document parent
  end.

(** [new CSymbol(symbol, document, parent)] for a raw DocumentSymbol: the
    SourceSymbol constructor normalizes it first. *)
Definition newFromDocumentSymbol
  (getNormalizedSymbolName : string -> string) (sortByRange : Range -> Range -> Z)
  (symbol : DocumentSymbol) (document : TextDocument) (parent : option t) : t :=
  build
    (SourceSymbol.new getNormalizedSymbolName sortByRange symbol (TextDocument.uri document)
       (option_map toSourceSymbol parent))
    document parent.

Definition text (this : t) : string := TextDocument.getText (document this) (range this).

Definition parsableText (this : t) : string := util.maskComments (text this) false.

Definition leadingText (this : t) : string :=
  TextDocument.getText (document this)
    (Range.new (start (range this)) (start (selectionRange this))).

Definition startOffset (this : t) : nat := TextDocument.offsetAt (document this) (start (range this)).

Definition isFunction (this : t) : bool := SourceSymbol.isFunction (toSourceSymbol this).

Definition isConstructor (this : t) : bool := SourceSymbol.isConstructor (toSourceSymbol this).

Definition isFunctionDeclaration (this : t) : bool :=
  isFunction this
  && (String.eqb (detail this) "declaration" || negb (JS.endsWith (parsableText this) "}")).

Definition isFunctionDefinition (this : t) : bool :=
  isFunction this && negb (isFunctionDeclaration this).

(** The text before the symbol as [getTrueStart] masks it. *)
Definition maskedTextBefore (this : t) : string :=
  let before := Range.new (mkPosition 0 0) (start (range this)) in
  let maskedText := util.maskComments (TextDocument.getText (document this) before) false in
  let maskedText := util.maskQuotes maskedText false in
  JS.trimEnd (util.maskAngleBrackets maskedText true).

(** clangd and ccls don't include template statements in provided
    DocumentSymbols.  (The cache [trueStart] holds the value computed
    here.) *)
Definition getTrueStart (this : t) : Position :=
  let maskedText := maskedTextBefore this in
  if negb (JS.endsWith maskedText ">") then start (range this)
  else match Re.lastTemplateMatch maskedText with
       | None => start (range this)
       | Some O => start (range this)
       | Some index => TextDocument.positionAt (document this) index
       end.

Definition getFullRange (this : t) : Range := Range.new (getTrueStart this) (end_ (range this)).

Definition getFullText (this : t) : string :=
  TextDocument.getText (document this) (getFullRange this).

(** Less of the body start, and more of the end of the declaration part of
    the definition. *)
Definition bodyStart (this : t) (declaration : option t) : Position :=
  let maskedText := util.maskQuotes (parsableText this) true in
  let maskedText := util.maskParentheses maskedText true in
  let startOffset := TextDocument.offsetAt (document this) (start (range this)) in
  let nameEndIndex :=
    (Z.of_nat (TextDocument.offsetAt (document this) (end_ (selectionRange this)))
     - Z.of_nat startOffset)%Z in
  match Re.search Re.spacesThenBrace (JS.substringFrom maskedText nameEndIndex) 0 with
  | None => end_ (range this)
  | Some O => end_ (range this)
  | Some bodyStartIndex =>
      let at_ (i : nat) :=
        TextDocument.positionAt (document this)
          (Z.to_nat (Z.of_nat startOffset + nameEndIndex + Z.of_nat i)) in
      if negb (isConstructor this)
         && negb (match declaration with Some d => isConstructor d | None => false end)
      then at_ bodyStartIndex
      else
        match Re.search Re.spacesThenColon
                (JS.substring maskedText nameEndIndex (Z.of_nat bodyStartIndex + nameEndIndex)) 0 with
        | None => at_ bodyStartIndex
        | Some O => at_ bodyStartIndex
        | Some initializerIndex => at_ initializerIndex
        end
  end.

(** The loop of [stripDefaultValues] over the pieces of the masked
    parameters; [charPos] is where the current piece starts in
    [parameters]. *)
Fixpoint stripDefaultValues_loop
  (parameters : string) (splitParameters : list string) (charPos : Z) (strippedParameters : string)
  : string :=
  match splitParameters with
  | [] => strippedParameters
  | parameter :: rest =>
      let strippedParameters :=
        if JS.includes parameter "="
        then strippedParameters
             +++ JS.trimEnd (JS.substring parameters charPos (charPos + JS.indexOf parameter "="))
             +++ ","
        else strippedParameters
             +++ JS.substring parameters charPos (charPos + JS.length parameter)
             +++ "," in
      stripDefaultValues_loop parameters rest (charPos + JS.length parameter + 1) strippedParameters
  end.

(** Mask anything that might contain commas or equals-signs. *)
Definition maskedParametersOf (parameters : string) : string :=
  let maskedParameters := util.maskComments parameters true in
  let maskedParameters := util.maskQuotes maskedParameters true in
  let maskedParameters := util.maskParentheses maskedParameters true in
  let maskedParameters := util.maskAngleBrackets maskedParameters true in
  let maskedParameters := util.maskBraces maskedParameters true in
  let maskedParameters := util.maskBrackets maskedParameters true in
  util.maskComparisonOperators maskedParameters.

Definition stripDefaultValues (parameters : string) : string :=
  let maskedParameters := maskedParametersOf parameters in
  let splitParameters := JS.split "," maskedParameters in
  let strippedParameters := stripDefaultValues_loop parameters splitParameters 0 "" in
  JS.substring strippedParameters 0 (JS.length strippedParameters - 1).

Definition scopeStringStart (this : t) : Position :=
  let maskedLeadingText := JS.trimEnd (util.maskComments (leadingText this) true) in
  if negb (JS.endsWith maskedLeadingText "::") then start (selectionRange this)
  else match Re.lastScopeStart maskedLeadingText with
       | None => start (selectionRange this)
       | Some index => TextDocument.positionAt (document this) (startOffset this + index)
       end.

(** The first steps of [formatDeclarationForNewDefinition]: the text of the
    declaration without its final semicolon, that text masked, and the index
    in it of the end of the name. *)
Definition declarationText (this : t) : string :=
  let declarationRange := Range.new (getTrueStart this) (bodyStart this None) in
  Re.dropFinalSemicolon (TextDocument.getText (document this) declarationRange).

Definition maskedDeclarationText (this : t) : string :=
  let maskedDeclaration := util.maskComments (declarationText this) false in
  let maskedDeclaration := util.maskQuotes maskedDeclaration true in
  util.maskParentheses maskedDeclaration true.

Definition nameEndIndexOf (this : t) : Z :=
  (Z.of_nat (TextDocument.offsetAt (document this) (end_ (selectionRange this)))
   - Z.of_nat (TextDocument.offsetAt (document this) (getTrueStart this)))%Z.

(** [formatDeclarationForNewDefinition(targetDoc, position)].  The scope
    string is computed by [scopeString], which consults the navigation
    oracle and is not among the sources: [scopeString] is the string its
    promise resolves to.  [document.lineAt] throws for a line that the
    document does not have. *)
Definition formatDeclarationForNewDefinition
  (this : t) (targetDoc : TextDocument) (scopeString : string) : outcome string :=
  let declaration := declarationText this in
  let maskedDeclaration := maskedDeclarationText this in
  let nameEndIndex := nameEndIndexOf this in
  let paramStartIndex := (JS.indexOfFrom maskedDeclaration "(" nameEndIndex + 1)%Z in
  let paramEndIndex := JS.indexOf maskedDeclaration ")" in
  if (paramStartIndex =? -1)%Z || (paramEndIndex =? -1)%Z then Returns ""
  else
    let parameters := stripDefaultValues (JS.substring declaration paramStartIndex paramEndIndex) in
    (* Intelligently align the definition in the case of a multi-line declaration. *)
    let leadingText :=
      TextDocument.getText (document this) (Range.new (getTrueStart this) (scopeStringStart this)) in
    if TextDocument.lineCount (document this) <=? line (start (range this)) then Throws
    else
      let lineText := TextDocument.lineText (document this) (line (start (range this))) in
      let leadingIndent := TextDocument.firstNonWhitespaceCharacterIndex lineText in
      let alignLength := String.length (Re.lastPiece (TextDocument.endOfLine targetDoc) leadingText) in
      let leadingText := Re.removeKeywords ["virtual"; "static"; "explicit"; "friend"] leadingText in
      let leadingText := Re.removeLeadingSpaces leadingText in
      let definition :=
        name this +++ "(" +++ parameters +++ ")"
        +++ JS.substringFrom declaration (paramEndIndex + 1) in
      let definition :=
        Re.realign (leadingIndent + alignLength) (alignLength + String.length scopeString) definition in
      let definition := leadingText +++ scopeString +++ definition in
      Returns (Re.removeSpacedKeywords ["override"; "final"] definition).

Definition newFunctionDeclaration (this : t) : string :=
  if negb (isFunctionDefinition this) then ""
  else JS.trimEnd
         (TextDocument.getText (document this) (Range.new (getTrueStart this) (bodyStart this None)))
       +++ ";".

Definition isPointer (this : t) : bool :=
  JS.includes (util.maskAngleBrackets (Re.removeBlockComments (leadingText this)) true) "*".

Definition isVariable (this : t) : bool := SourceSymbol.isVariable (toSourceSymbol this).

Definition isTypedef (this : t) : bool :=
  SourceSymbol.mightBeTypedefOrTypeAlias (toSourceSymbol this)
  && Re.containsKeyword ["typedef"] (parsableText this).

Definition isTypeAlias (this : t) : bool :=
  if SourceSymbol.mightBeTypedefOrTypeAlias (toSourceSymbol this)
  then Re.containsKeyword ["using"] (parsableText this) && JS.includes (parsableText this) "="
  else false.

Definition primitiveTypes : list string :=
  ["void"; "bool"; "char"; "wchar_t"; "char8_t"; "char16_t"; "char32_t"; "int"; "short";
   "long"; "signed"; "unsigned"; "float"; "double"].

Definition matchesPrimitiveType (text : string) : bool :=
  Re.containsKeyword primitiveTypes text
  && negb (Re.containsChar (fun c => Ascii.eqb c "<" || Ascii.eqb c ">") text).

(** [isPrimitive()].  [resolveTypes] is the setting [cfg.resolveTypes()];
    [resolveThisType offset] is what the promise of
    [this.resolveThisType(offset)] resolves to: that method asks the
    navigation oracle for the definition of the type at [offset] and judges
    the symbol found there, in another file. *)
Definition isPrimitive (resolveTypes : bool) (resolveThisType : nat -> bool) (this : t) : bool :=
  let resolve (type : string) (base : nat) :=
    match Re.search Re.scopeResolvedIdentifierAt type 0 with
    | Some index => resolveThisType (startOffset this + base + index)
    | None => false
    end in
  if isVariable this then
    let leadingText := Re.maskBlockComments (leadingText this) in
    if matchesPrimitiveType leadingText then true
    else if negb resolveTypes then false
    else resolve (Re.maskKeywords ["static"; "const"; "constexpr"; "inline"; "mutable"] leadingText) 0
  else if isTypedef this then
    if matchesPrimitiveType (parsableText this) then true
    else if Re.containsStructClassOrTemplateFrom false (parsableText this) then false
    else if negb resolveTypes then false
    else resolve (Re.maskKeywords ["typedef"; "const"] (parsableText this)) 0
  else if isTypeAlias this then
    if matchesPrimitiveType (parsableText this) then true
    else if Re.containsStructClassOrTemplateFrom false (parsableText this) then false
    else if negb resolveTypes then false
    else
      let indexOfEquals := JS.indexOf (parsableText this) "=" in
      if (indexOfEquals =? -1)%Z then false
      else resolve (JS.substringFrom (parsableText this) (indexOfEquals + 1)) 0
  else false.

(** The text before the true start as [getLeadingCommentStart] masks it:
    the comments are blanked, their delimiters kept. *)
Definition maskedTextBeforeTrueStart (this : t) : string :=
  let before := Range.new (mkPosition 0 0) (getTrueStart this) in
  JS.trimEnd (util.maskComments (TextDocument.getText (document this) before) true).

(** The [for] loop of [getLeadingCommentStart] over the lines [n - 1] down
    to 0.  [document.lineAt] throws for a line that the document does not
    have. *)
Fixpoint getLeadingCommentStart_loop (d : TextDocument) (n : nat) (trueStart : Position)
  : outcome Position :=
  match n with
  | O => Returns trueStart
  | S i =>
      if TextDocument.lineCount d <=? i then Throws
      else if negb (JS.startsWith "//" (JS.trimStart (TextDocument.lineText d i))) then
        if TextDocument.lineCount d <=? S i then Throws
        else match JS.indexOfNat "//" (TextDocument.lineText d (S i)) 0 with
             | None => Returns trueStart  (* This shouldn't happen, but just in-case. *)
             | Some indexOfComment => Returns (mkPosition (S i) indexOfComment)
             end
      else getLeadingCommentStart_loop d i trueStart
  end.

(** [getLeadingCommentStart()].  (The cache [headerCommentStart] holds the
    value computed here.) *)
Definition getLeadingCommentStart (this : t) : outcome Position :=
  let maskedText := maskedTextBeforeTrueStart this in
  if negb (JS.endsWith maskedText "//") && negb (JS.endsWith maskedText "*/")
  then Returns (getTrueStart this)
  else if JS.endsWith maskedText "*/" then
    match JS.lastIndexOfNat "/*" maskedText 0 with
    | Some commentStartOffset =>
        Returns (TextDocument.positionAt (document this) commentStartOffset)
    | None => Returns (getTrueStart this)
    end
  else getLeadingCommentStart_loop (document this) (line (getTrueStart this)) (getTrueStart this).

Definition hasLeadingComment (this : t) : outcome bool :=
  match getLeadingCommentStart this with
  | Returns commentStart => Returns (negb (Position.isEqual commentStart (getTrueStart this)))
  | Throws => Throws
  end.

Definition endOffset (this : t) : nat := TextDocument.offsetAt (document this) (end_ (range this)).

Definition isBefore (this : t) (offset : nat) : bool := endOffset this <? offset.

Definition isAfter (this : t) (offset : nat) : bool := offset <? startOffset this.

Definition isClassOrStruct (this : t) : bool := SourceSymbol.isClassOrStruct (toSourceSymbol this).

Definition isChildFunctionBetween (this child : t) (afterOffset beforeOffset : nat) : bool :=
  isFunction child && isAfter child afterOffset && isBefore child beforeOffset.

Definition positionAfterLastChildOrUndefined (this : t) : option Proposed.ProposedPosition :=
  match List.rev (children this) with
  | [] => None
  | last :: _ =>
      let lastChild := new last (document this) None in
      Some (Proposed.new (end_ (range lastChild))
              (Proposed.mkOptions (Some (SourceSymbol.range last)) false true false false))
  end.

(** What is left of [l] from its first element that satisfies [p] on. *)
Fixpoint dropUntil {A : Type} (p : A -> bool) (l : list A) : list A :=
  match l with
  | [] => []
  | x :: rest => if p x then l else dropUntil p rest
  end.

(** Finds a position for a new public member function within this class or
    struct.  [SourceSymbol.setterName] is not among the sources: it is a
    parameter.  The two loops run over the children from the last one to
    the first one; [candidates] is that list from [fallbackIndex] on. *)
Definition findPositionForNewMemberFunction
  (setterName : SourceSymbol -> string)
  (this : t) (relativeName : option string) (memberVariable : option SourceSymbol)
  : outcome (option Proposed.ProposedPosition) :=
  if negb (isClassOrStruct this) then Returns (positionAfterLastChildOrUndefined this)
  else
    let startOffset := startOffset this in
    match Re.publicSpecifier (parsableText this) with
    | None | Some O => Returns (positionAfterLastChildOrUndefined this)
    | Some publicSpecifierOffset =>
        let publicSpecifierOffset := publicSpecifierOffset + startOffset in
        let nextAccessSpecifierOffset :=
          match find (fun index => negb (index =? 0) && (publicSpecifierOffset <? index))
                  (Re.labelMatches (parsableText this)) with
          | None => endOffset this
          | Some index => index + startOffset
          end in
        let between (symbol : t) :=
          isChildFunctionBetween this symbol publicSpecifierOffset nextAccessSpecifierOffset in
        let candidates :=
          dropUntil between
            (map (fun child => new child (document this) (Some this))
               (List.rev (children this))) in
        match candidates with
        | [] => Returns (positionAfterLastChildOrUndefined this)
        | fallback :: _ =>
            let fallbackPosition :=
              Proposed.new (end_ (range fallback))
                (Proposed.mkOptions (Some (range fallback)) false true false false) in
            match relativeName with
            | None => Returns (Some fallbackPosition)
            | Some relativeName =>
                if String.length relativeName =? 0 then Returns (Some fallbackPosition)
                else
                  (* If relativeName is a setterName, then ProposedPosition
                     should be before, since the new member function is a
                     getter. *)
                  let isGetter :=
                    match memberVariable with
                    | Some memberVariable => String.eqb relativeName (setterName memberVariable)
                    | None => false
                    end in
                  match find (fun symbol => between symbol
                                            && String.eqb (name symbol) relativeName)
                          candidates with
                  | Some symbol =>
                      if isGetter then
                        match getLeadingCommentStart symbol with
                        | Returns commentStart =>
                            Returns (Some (Proposed.new commentStart
                                             (Proposed.mkOptions (Some (range symbol))
                                                true false true false)))
                        | Throws => Throws
                        end
                      else
                        Returns (Some (Proposed.new (end_ (range symbol))
                                         (Proposed.mkOptions (Some (range symbol))
                                            false true true false)))
                  | None => Returns (Some fallbackPosition)
                  end
            end
        end
    end.

End CSymbol.
Abbreviation CSymbol := CSymbol.t.

(* ===================================================================== *)
(** ** SourceDocument: positions for new text *)
(* ===================================================================== *)

Record Location := mkLocation { loc_uri : string; loc_range : Range }.

(** A proposed position as [SourceDocument] builds it: a position and the
    placement flags that were set. *)
Record ProposedPosition := mkProposedPosition {
  value : Position;
  before : bool;
  after : bool;
  nextTo : bool;
  emptyScope : bool
}.

(** The requests the code sends to its collaborators, in the order in which
    it awaits them. *)
Inductive Request :=
| ExecuteSourceSymbolProvider (uri : string)
| FindDefinition (symbol : SourceSymbol)
| GetSymbol (uri : string) (position : Position)
| FindMatchingSymbol (uri : string) (target : SourceSymbol).

(** A computation that awaits collaborators: its value and the requests it
    made. *)
Definition Async (A : Type) : Type := A * list Request.

Definition ret {A : Type} (a : A) : Async A := (a, []).

Definition bind {A B : Type} (m : Async A) (k : A -> Async B) : Async B :=
  let '(a, log1) := m in
  let '(b, log2) := k a in
  (b, log1 ++ log2).

Definition await {A : Type} (request : Request) (answer : A) : Async A := (answer, [request]).

Notation "x <- m ;; k" := (bind m (fun x => k))
  (at level 61, m at next level, right associativity).

Module SourceDocument.

Record t := mk {
  document : TextDocument;
  symbols : option (list SourceSymbol)
}.

Definition uri (this : t) : string := TextDocument.uri (document this).

(** [uri], [detail], [signature] and the like do not matter to it:
    [a.range.isEqual(b.range)]. *)
Fixpoint findIndexByRange (r : Range) (siblingSymbols : list SourceSymbol) : nat :=
  match siblingSymbols with
  | [] => 0
  | symbol :: rest =>
      if Range.isEqual (SourceSymbol.range symbol) r then 0 else S (findIndexByRange r rest)
  end.

(** The last non-empty line, searched from line [i - 1] down to line 0. *)
Fixpoint lastNonEmptyLineBelow (d : TextDocument) (i : nat) : option nat :=
  match i with
  | O => None
  | S i' =>
      if negb (TextDocument.isEmptyOrWhitespace (TextDocument.lineText d i'))
      then Some i'
      else lastNonEmptyLineBelow d i'
  end.

Section Collaborators.

(** The document-symbol provider, per file. *)
Variable executeSourceSymbolProvider : string -> list SourceSymbol.
(** The navigation oracle: [symbol.findDefinition()]. *)
Variable findDefinition : SourceSymbol -> option Location.
(** [SourceFile.getSymbol(position)] of the file [uri]. *)
Variable getSourceSymbol : string -> Position -> option SourceSymbol.
(** [SourceFile.findMatchingSymbol(target)] of the file [uri]. *)
Variable findMatchingSourceSymbol : string -> SourceSymbol -> option SourceSymbol.

Definition getSymbol (this : t) (position : Position) : Async (option CSymbol) :=
  sourceSymbol <- await (GetSymbol (uri this) position) (getSourceSymbol (uri this) position) ;;
  match sourceSymbol with
  | None => ret None
  | Some sourceSymbol => ret (Some (CSymbol.new sourceSymbol (document this) None))
  end.

Definition findMatchingSymbol (this : t) (target : SourceSymbol) : Async (option CSymbol) :=
  sourceSymbol <- await (FindMatchingSymbol (uri this) target)
                    (findMatchingSourceSymbol (uri this) target) ;;
  match sourceSymbol with
  | None => ret None
  | Some sourceSymbol => ret (Some (CSymbol.new sourceSymbol (document this) None))
  end.

(** The first loop: the siblings before the declaration, nearest first. *)
Fixpoint searchBefore (targetDoc : t) (symbols : list SourceSymbol)
  : Async (option ProposedPosition) :=
  match symbols with
  | [] => ret None
  | symbol :: rest =>
      definitionLocation <- await (FindDefinition symbol) (findDefinition symbol) ;;
      match definitionLocation with
      | None => searchBefore targetDoc rest
      | Some definitionLocation =>
          if negb (String.eqb (loc_uri definitionLocation) (uri targetDoc))
          then searchBefore targetDoc rest
          else
            definition <- getSymbol targetDoc (start (loc_range definitionLocation)) ;;
            match definition with
            | Some definition =>
                ret (Some (mkProposedPosition
                             (getEndOfStatement (document targetDoc) (end_ (CSymbol.range definition)))
                             false true false false))
            | None => searchBefore targetDoc rest
            end
      end
  end.

(** The second loop: the siblings after the declaration. *)
Fixpoint searchAfter (targetDoc : t) (symbols : list SourceSymbol)
  : Async (option ProposedPosition) :=
  match symbols with
  | [] => ret None
  | symbol :: rest =>
      definitionLocation <- await (FindDefinition symbol) (findDefinition symbol) ;;
      match definitionLocation with
      | None => searchAfter targetDoc rest
      | Some definitionLocation =>
          if negb (String.eqb (loc_uri definitionLocation) (uri targetDoc))
          then searchAfter targetDoc rest
          else
            definition <- getSymbol targetDoc (start (loc_range definitionLocation)) ;;
            match definition with
            | Some definition =>
                ret (Some (mkProposedPosition (start (CSymbol.range definition))
                             true false false false))
            | None => searchAfter targetDoc rest
            end
      end
  end.

(** The third loop: the enclosing scopes, innermost first. *)
Fixpoint searchNamespaces (targetDoc : t) (scopes : list SourceSymbol)
  : Async (option ProposedPosition) :=
  match scopes with
  | [] => ret None
  | scope :: rest =>
      if SymbolKind.eqb (SourceSymbol.kind scope) Namespace then
        targetNamespace <- findMatchingSymbol targetDoc scope ;;
        match targetNamespace with
        | None => searchNamespaces targetDoc rest
        | Some targetNamespace =>
            match List.rev (CSymbol.children targetNamespace) with
            | [] =>
                let bodyStart :=
                  (Z.of_nat (TextDocument.offsetAt (document targetDoc)
                               (start (CSymbol.range targetNamespace)))
                   + JS.indexOf (CSymbol.text targetNamespace) "{" + 1)%Z in
                ret (Some (mkProposedPosition
                             (TextDocument.positionAt (document targetDoc) (Z.to_nat bodyStart))
                             false true true true))
            | lastChild :: _ =>
                ret (Some (mkProposedPosition
                             (getEndOfStatement (document targetDoc)
                                (end_ (SourceSymbol.range lastChild)))
                             false true false false))
            end
        end
      else searchNamespaces targetDoc rest
  end.

(** The siblings the search looks at: up to 5 before the declaration,
    nearest first, and up to 5 after it. *)
Definition siblingsOf (thisSymbols : list SourceSymbol) (declaration : SourceSymbol)
  : list SourceSymbol :=
  match SourceSymbol.parent declaration with
  | Some p => SourceSymbol.children p
  | None => thisSymbols
  end.

Definition siblingsBefore (siblingSymbols : list SourceSymbol) (declaration : SourceSymbol)
  : list SourceSymbol :=
  let relativeSymbolIndex := findIndexByRange (SourceSymbol.range declaration) siblingSymbols in
  let start := Nat.max (relativeSymbolIndex - 5) 0 in
  List.rev (JSArray.slice siblingSymbols start relativeSymbolIndex).

Definition siblingsAfter (siblingSymbols : list SourceSymbol) (declaration : SourceSymbol)
  : list SourceSymbol :=
  let relativeSymbolIndex := findIndexByRange (SourceSymbol.range declaration) siblingSymbols in
  let end_ := Nat.min (relativeSymbolIndex + 6) (List.length siblingSymbols) in
  JSArray.slice siblingSymbols (relativeSymbolIndex + 1) end_.

(** The part of [findPositionForFunctionDefinition] that follows its early
    returns: the three searches and the last resort. *)
Definition searchForPosition
  (targetDoc : t) (targetSymbols thisSymbols : list SourceSymbol) (declaration : SourceSymbol)
  : Async (outcome ProposedPosition) :=
  (* Get the first 5 symbols that come before and after declaration. *)
  let siblingSymbols := siblingsOf thisSymbols declaration in
  (* Find a definition of a sibling symbol in targetDoc. *)
  found <- searchBefore targetDoc (siblingsBefore siblingSymbols declaration) ;;
  match found with
  | Some p => ret (Returns p)
  | None =>
      found <- searchAfter targetDoc (siblingsAfter siblingSymbols declaration) ;;
      match found with
      | Some p => ret (Returns p)
      | None =>
          (* If a sibling definition couldn't be found in targetDoc, look for
             a cooresponding namespace block. *)
          found <- searchNamespaces targetDoc (SourceSymbol.ancestors declaration) ;;
          match found with
          | Some p => ret (Returns p)
          | None =>
              (* If all else fails then return a position after the last
                 symbol in the document. *)
              match List.rev targetSymbols with
              | lastSymbol :: _ =>
                  ret (Returns
                         (mkProposedPosition
                            (getEndOfStatement (document targetDoc)
                               (end_ (SourceSymbol.range lastSymbol)))
                            false true false false))
              | [] => ret Throws
              end
          end
      end
  end.

(** Returns the best position to place the definition for declaration.
    [targetDoc = None] stands for this document itself (the argument left
    out, or this very object passed). *)
Definition findPositionForFunctionDefinition
  (this : t) (declaration : SourceSymbol) (targetDoc : option t)
  : Async (outcome ProposedPosition) :=
  thisSymbols <- match symbols this with
                 | Some l => ret l
                 | None => await (ExecuteSourceSymbolProvider (uri this))
                             (executeSourceSymbolProvider (uri this))
                 end ;;
  if negb (String.eqb (SourceSymbol.uri declaration) (uri this))
     || (match SourceSymbol.parent declaration with Some _ => false | None => true end
         && (List.length thisSymbols =? 0))
  then ret (Returns (mkProposedPosition (mkPosition 0 0) false false false false))
  else
    let targetDoc := match targetDoc with
                     | Some d => d
                     | None => mk (document this) (Some thisSymbols)
                     end in
    match symbols targetDoc with
    | Some targetSymbols => searchForPosition targetDoc targetSymbols thisSymbols declaration
    | None =>
        targetSymbols <- await (ExecuteSourceSymbolProvider (uri targetDoc))
                           (executeSourceSymbolProvider (uri targetDoc)) ;;
        if List.length targetSymbols =? 0 then
          (* If the targetDoc has no symbols then place the new definiton
             after the last non-empty line. *)
          match lastNonEmptyLineBelow (document targetDoc)
                  (TextDocument.lineCount (document targetDoc)) with
          | Some i =>
              ret (Returns
                     (mkProposedPosition (TextDocument.lineRangeEnd (document targetDoc) i)
                        false true false false))
          | None =>
              ret (Returns (mkProposedPosition (mkPosition 0 0) false false false false))
          end
        else searchForPosition targetDoc targetSymbols thisSymbols declaration
    end.

End Collaborators.

(** *** findPositionForNewInclude *)

(** The test of the trimmed line against the include regex.  Its
    alternation is at the top level: either the text starts with
    [#include], white space and an angle-bracket group, or it ends with a
    quoted group. *)
Definition angleGroupAt (s : string) : bool :=
  match s with
  | String "<" (String c seg) =>
      negb (JS.isLineTerminator c)
      && match Re.lastIndexInLine ">" seg 1 None with Some _ => true | None => false end
  | _ => false
  end.

Definition quoteGroupAt (s : string) : bool :=
  match s with
  | String q (String c seg) =>
      Ascii.eqb q JS.doubleQuote && negb (JS.isLineTerminator c)
      && match Re.lastIndexInLine JS.doubleQuote seg 1 None with Some _ => true | None => false end
  | _ => false
  end.

(** A quoted group that ends where the text ends. *)
Fixpoint quoteGroupToEnd (s : string) : bool :=
  match s with
  | EmptyString => false
  | String q s' =>
      (Ascii.eqb q JS.doubleQuote
       && (3 <=? String.length s)
       && JS.endsWith s (String JS.doubleQuote "")
       && negb (Re.containsChar JS.isLineTerminator s))
      || quoteGroupToEnd s'
  end.

Definition isIncludeLine (trimmed : string) : bool :=
  (JS.startsWith "#include" trimmed && angleGroupAt (JS.trimStart (JS.skipn 8 trimmed)))
  || quoteGroupToEnd trimmed.

Definition hasAngleGroup (text : string) : bool :=
  match Re.search angleGroupAt text 0 with Some _ => true | None => false end.

Definition hasQuoteGroup (text : string) : bool :=
  match Re.search quoteGroupAt text 0 with Some _ => true | None => false end.

(** [r > largest] for two [Range] objects.  The relational operator of
    JavaScript compares the primitive values of its operands; a
    [vscode.Range] has no [valueOf] and no [toString] of its own, so both
    operands become the same string and the comparison is false. *)
Definition rangeGreaterThan (r largest : Range) : bool := false.

Definition largestBlock (lineStart : Position) (start : Position) (largest : option Range) : Range :=
  let r := Range.new start lineStart in
  match largest with
  | None => r
  | Some largest => if rangeGreaterThan r largest then r else largest
  end.

(** The variables of the scan over the lines. *)
Record IncludeScan := mkIncludeScan {
  systemIncludeStart : option Position;
  projectIncludeStart : option Position;
  largestSystemIncludeBlock : option Range;
  largestProjectIncludeBlock : option Range
}.

(** One turn of the loop, for line [i] of text [text]. *)
Definition scanLine (i : nat) (text : string) (st : IncludeScan) : IncludeScan :=
  let lineStart := TextDocument.lineRangeStart i in
  if negb (isIncludeLine (JS.trim text)) then
    match systemIncludeStart st, projectIncludeStart st with
    | Some s, _ =>
        mkIncludeScan None (projectIncludeStart st)
          (Some (largestBlock lineStart s (largestSystemIncludeBlock st)))
          (largestProjectIncludeBlock st)
    | None, Some p =>
        mkIncludeScan None None (largestSystemIncludeBlock st)
          (Some (largestBlock lineStart p (largestProjectIncludeBlock st)))
    | None, None => st
    end
  else if hasAngleGroup text then
    let systemStart := match systemIncludeStart st with
                       | None => Some lineStart
                       | Some s => Some s
                       end in
    match projectIncludeStart st with
    | Some p =>
        mkIncludeScan systemStart None (largestSystemIncludeBlock st)
          (Some (largestBlock lineStart p (largestProjectIncludeBlock st)))
    | None =>
        mkIncludeScan systemStart None (largestSystemIncludeBlock st) (largestProjectIncludeBlock st)
    end
  else if hasQuoteGroup text then
    let projectStart := match projectIncludeStart st with
                        | None => Some lineStart
                        | Some p => Some p
                        end in
    match systemIncludeStart st with
    | Some s =>
        mkIncludeScan None projectStart
          (Some (largestBlock lineStart s (largestSystemIncludeBlock st)))
          (largestProjectIncludeBlock st)
    | None =>
        mkIncludeScan None projectStart (largestSystemIncludeBlock st) (largestProjectIncludeBlock st)
    end
  else st.

Fixpoint scanLines (i : nat) (lines : list string) (st : IncludeScan) : IncludeScan :=
  match lines with
  | [] => st
  | text :: rest => scanLines (S i) rest (scanLine i text st)
  end.

(** The lines of the document as the loop reads them: [lineCount] of them. *)
Definition linesOf (d : TextDocument) : list string :=
  match TextDocument.lines d with
  | [] => [""]
  | l => l
  end.

Record IncludePositions := mkIncludePositions { system : Position; project : Position }.

(** Returns the best positions to place new includes (system and project
    includes). *)
Definition findPositionForNewInclude
  (executeSourceSymbolProvider : string -> list SourceSymbol) (this : t)
  : Async (outcome IncludePositions) :=
  let st := scanLines 0 (linesOf (document this)) (mkIncludeScan None None None None) in
  let systemIncludePos :=
    match largestSystemIncludeBlock st, largestProjectIncludeBlock st with
    | Some s, _ => Some (end_ s)
    | None, Some p => Some (end_ p)
    | None, None => None
    end in
  let projectIncludePos :=
    match largestProjectIncludeBlock st, largestSystemIncludeBlock st with
    | Some p, _ => Some (end_ p)
    | None, Some s => Some (end_ s)
    | None, None => None
    end in
  match systemIncludePos, projectIncludePos with
  | Some s, Some p => ret (Returns (mkIncludePositions s p))
  | _, _ =>
      thisSymbols <- match symbols this with
                     | Some l => ret l
                     | None => await (ExecuteSourceSymbolProvider (uri this))
                                 (executeSourceSymbolProvider (uri this))
                     end ;;
      let startLineNum :=
        match thisSymbols with
        | [] => TextDocument.lineCount (document this) - 1
        | first :: _ => line (start (SourceSymbol.range first))
        end in
      if TextDocument.lineCount (document this) <=? startLineNum then ret Throws
      else
        match lastNonEmptyLineBelow (document this) (S startLineNum) with
        | Some i =>
            ret (Returns (mkIncludePositions (TextDocument.lineRangeEnd (document this) i)
                            (TextDocument.lineRangeEnd (document this) i)))
        | None => ret (Returns (mkIncludePositions (mkPosition 0 0) (mkPosition 0 0)))
        end
  end.

Definition text (this : t) : string := TextDocument.getFullText (document this).

(** [hasHeaderGuard()].  [cfg.headerGuardDefine] and [util.fileName] are
    not among the sources: [headerGuardDefine] is the name they give for
    the file. *)
Definition hasHeaderGuard
  (executeSourceSymbolProvider : string -> list SourceSymbol) (headerGuardDefine : string)
  (this : t) : Async bool :=
  if Re.pragmaOnceAt (text this) then ret true
  else
    thisSymbols <- match symbols this with
                   | Some l => ret l
                   | None => await (ExecuteSourceSymbolProvider (uri this))
                               (executeSourceSymbolProvider (uri this))
                   end ;;
    ret (existsb (fun symbol => SymbolKind.eqb (SourceSymbol.kind symbol) Constant
                                && String.eqb (SourceSymbol.name symbol) headerGuardDefine)
           thisSymbols).

(** The text as [findPositionForNewHeaderGuard] masks it: the block
    comments, then the line comments, each replaced by as many spaces. *)
Definition headerGuardMaskedText (this : t) : string :=
  util.maskWith (util.lineCommentAt false) 0 0
    (util.maskWith Re.headerBlockCommentAt 0 0 (text this)).

(** Finds a position for a header guard by skipping over any comments that
    appear at the top of the file. *)
Definition findPositionForNewHeaderGuard (this : t) : ProposedPosition :=
  let maskedText := headerGuardMaskedText this in
  match Re.search Re.nonSpaceAt maskedText 0 with
  | Some index =>
      mkProposedPosition (TextDocument.positionAt (document this) index)
        true false false false
  | None =>
      let endTrimmedTextLength := String.length (JS.trimEnd (text this)) in
      mkProposedPosition (TextDocument.positionAt (document this) endTrimmedTextLength)
        false (negb (endTrimmedTextLength =? 0)) false false
  end.

End SourceDocument.
Abbreviation SourceDocument := SourceDocument.t.

(* ===================================================================== *)
(** ** Accessors: Setter *)
(* ===================================================================== *)

Module Setter.

Record t := mk {
  memberVariable : CSymbol;
  name : string;
  isStatic : bool;
  returnType : string;
  parameter : string;
  body : string
}.

Section Create.

(** [SourceSymbol.setterName] is not among the sources. *)
Variable setterName : CSymbol -> string.
(** The setting [cfg.resolveTypes()] and the outcome of the cross-file
    resolution of [CSymbol.resolveThisType]. *)
Variable resolveTypes : bool.
Variable resolveThisType : nat -> bool.

(** The private constructor. *)
Definition new (memberVariable : CSymbol) : t :=
  mk memberVariable (setterName memberVariable) false "void " ""
     (CSymbol.name memberVariable +++ " = value;").

(** This builder method is necessary since CSymbol.isPrimitive() is
    asynchronous. *)
Definition create (memberVariable : CSymbol) : t :=
  let setter := new memberVariable in
  let leadingText := CSymbol.leadingText memberVariable in
  let type := Re.removeKeywords ["static"; "mutable"] leadingText in
  mk (Setter.memberVariable setter) (name setter)
     (Re.containsKeyword ["static"] leadingText)
     (returnType setter)
     ((if negb (CSymbol.isPrimitive resolveTypes resolveThisType memberVariable)
          && negb (CSymbol.isPointer memberVariable)
       then "const " +++ type +++ "&"
       else type) +++ "value")
     (body setter).

Definition declaration (this : t) : string :=
  (if isStatic this then "static " else "") +++ "void " +++ name this
  +++ "(" +++ parameter this +++ ")".

End Create.

End Setter.

(* ===================================================================== *)
(** ** commands/updateSignature *)
(* ===================================================================== *)

Module Command.

Record TextEdit := mkTextEdit { edit_uri : string; edit_range : Range; newText : string }.

(** What the command does to the outside, in order. *)
Inductive Effect :=
| OpenDocument (uri : string)
| GetSymbol (uri : string) (position : Position)
| AlertError (message : string)
| ApplyEdit (workspaceEdit : list TextEdit).

Section UpdateSignature.

(** [vscode.workspace.openTextDocument] *)
Variable openTextDocument : string -> TextDocument.
(** [SourceFile.getSymbol(position)] of the file [uri]. *)
Variable getSourceSymbol : string -> Position -> option SourceSymbol.
(** The class [FunctionSignature] is not among the sources: these are the
    three properties of it that the command reads. *)
Variable normalizedReturnType : CSymbol -> string.
Variable returnTypeRange : CSymbol -> Range.
Variable returnType : CSymbol -> string.
(** [vscode.workspace.applyEdit] *)
Variable applyEdit : list TextEdit -> bool.

(** The document the linked location lies in. *)
Definition linkedDocOf (sourceDoc : SourceDocument) (linkedLocation : Location) : TextDocument :=
  if String.eqb (loc_uri linkedLocation) (SourceDocument.uri sourceDoc)
  then SourceDocument.document sourceDoc
  else openTextDocument (loc_uri linkedLocation).

(** [linkedDoc.getSymbol(linkedLocation.range.start)] *)
Definition linkedFunctionOf (sourceDoc : SourceDocument) (linkedLocation : Location)
  : option CSymbol :=
  match getSourceSymbol (TextDocument.uri (linkedDocOf sourceDoc linkedLocation))
          (start (loc_range linkedLocation)) with
  | Some sourceSymbol => Some (CSymbol.new sourceSymbol (linkedDocOf sourceDoc linkedLocation) None)
  | None => None
  end.

(** The command: what it returns ([None] for [undefined]) and what it did. *)
Definition updateSignature
  (currentFunction : CSymbol) (sourceDoc : SourceDocument) (linkedLocation : Location)
  : option bool * list Effect :=
  let opened :=
    if String.eqb (loc_uri linkedLocation) (SourceDocument.uri sourceDoc)
    then [] else [OpenDocument (loc_uri linkedLocation)] in
  let linkedDoc := linkedDocOf sourceDoc linkedLocation in
  let asked := opened ++ [GetSymbol (TextDocument.uri linkedDoc) (start (loc_range linkedLocation))] in
  let linkedFunction := linkedFunctionOf sourceDoc linkedLocation in
  let proceed (linkedFunction : CSymbol) :=
    let workspaceEdit :=
      if negb (String.eqb (normalizedReturnType currentFunction) (normalizedReturnType linkedFunction))
      then [mkTextEdit (TextDocument.uri linkedDoc) (returnTypeRange linkedFunction)
              (returnType currentFunction)]
      else [] in
    (Some (applyEdit workspaceEdit), asked ++ [ApplyEdit workspaceEdit]) in
  if CSymbol.isFunctionDeclaration currentFunction then
    match linkedFunction with
    | Some linked =>
        if negb (CSymbol.isFunctionDefinition linked)
           || negb (String.eqb (CSymbol.name linked) (CSymbol.name currentFunction))
        then (None, asked ++ [AlertError "The linked definition could not be found."])
        else proceed linked
    | None => (None, asked ++ [AlertError "The linked definition could not be found."])
    end
  else
    match linkedFunction with
    | Some linked =>
        if negb (CSymbol.isFunctionDeclaration linked)
           || negb (String.eqb (CSymbol.name linked) (CSymbol.name currentFunction))
        then (None, asked ++ [AlertError "The linked declaration could not be found."])
        else proceed linked
    | None => (None, asked ++ [AlertError "The linked declaration could not be found."])
    end.

End UpdateSignature.

End Command.

(* ===================================================================== *)
(** ** Notions used to state the properties *)
(* ===================================================================== *)

(** Number of semicolons at the start of [s]. *)
Fixpoint countSemicolons (s : string) : nat :=
  match s with
  | String c s' => if Ascii.eqb c ";" then S (countSemicolons s') else 0
  | EmptyString => 0
  end.

(** Number of semicolons that follow position [p] at once, on its line. *)
Definition trailingSemicolons (d : TextDocument) (p : Position) : nat :=
  if line p <? TextDocument.lineCount d
  then countSemicolons (JS.skipn (character p) (TextDocument.lineText d (line p)))
  else 0.

(** A range as [vscode.Range] keeps it: its start is not after its end. *)
Definition wellFormedRange (r : Range) : Prop := Position.le (start r) (end_ r).

(** Does [s] consist of the keyword [template], white space and one
    angle-bracket group that ends where [s] ends? *)
Definition isTemplateClause (s : string) : bool :=
  JS.startsWith "template" s
  && match JS.trimStart (JS.skipn 8 s) with
     | String c group =>
         Ascii.eqb c "<"
         && match util.findClose "<" ">" 0 group with
            | Some inner => S inner =? String.length group
            | None => false
            end
     | EmptyString => false
     end.

Fixpoint endsWithTemplateClauseFrom (prevWord : bool) (s : string) : bool :=
  (negb prevWord && isTemplateClause s)
  || match s with
     | String c s' => endsWithTemplateClauseFrom (JS.isWord c) s'
     | EmptyString => false
     end.

(** The notion of the specification: a template clause immediately precedes
    the symbol, modulo comments, quotes and white space.  The text before
    the symbol, its comments and quotes masked and the white space at its
    end dropped, ends with a template clause. *)
Definition templateClausePrecedes (this : CSymbol) : bool :=
  let before := Range.new (mkPosition 0 0) (start (CSymbol.range this)) in
  let text := util.maskComments (TextDocument.getText (CSymbol.document this) before) false in
  endsWithTemplateClauseFrom false (JS.trimEnd (util.maskQuotes text false)).

(** Is a list of symbols in non-decreasing order of range start? *)
Fixpoint sortedByStart (l : list SourceSymbol) : bool :=
  match l with
  | a :: (b :: _) as rest =>
      Position.isBeforeOrEqual (start (SourceSymbol.range a)) (start (SourceSymbol.range b))
      && sortedByStart rest
  | _ => true
  end.

(** Does [P] hold of every node of the tree? *)
Fixpoint everyNode (P : SourceSymbol -> bool) (s : SourceSymbol) : bool :=
  P s && forallb (everyNode P) (SourceSymbol.children s).

Fixpoint everyRawNode (P : DocumentSymbol -> bool) (s : DocumentSymbol) : bool :=
  P s && forallb (everyRawNode P) (DocumentSymbol.children s).

Definition childrenSorted (s : SourceSymbol) : bool := sortedByStart (SourceSymbol.children s).

(** Is the range of every child contained in the range of the node? *)
Definition childrenContained (s : SourceSymbol) : bool :=
  forallb (fun child => Range.contains (SourceSymbol.range s) (SourceSymbol.range child))
    (SourceSymbol.children s).

Definition rawChildrenContained (s : DocumentSymbol) : bool :=
  forallb (fun child => Range.contains (DocumentSymbol.range s) (DocumentSymbol.range child))
    (DocumentSymbol.children s).

(** Modelled from the spec: [util.sortByRange] is not among the sources.
    Section 3 and Section 8: children are sorted by ascending range, in
    non-decreasing start-position order.  The comparator is negative,
    positive or zero as the first range starts before, after or where the
    second one starts. *)
Definition sortByRange (a b : Range) : Z :=
  if Position.isBefore (start a) (start b) then (-1)%Z
  else if Position.isBefore (start b) (start a) then 1%Z
  else 0%Z.

(** The symbols whose definition was asked of the navigation oracle, in the
    order of the requests. *)
Fixpoint probed (log : list Request) : list SourceSymbol :=
  match log with
  | [] => []
  | FindDefinition symbol :: rest => symbol :: probed rest
  | _ :: rest => probed rest
  end.

Module SiblingSearch.
Section Notions.

Variable findDefinition : SourceSymbol -> option Location.
Variable getSourceSymbol : string -> Position -> option SourceSymbol.

(** The notion of the claim: the navigation oracle locates the definition
    of [symbol] in [targetDoc]. *)
Definition locatedIn (targetDoc : SourceDocument) (symbol : SourceSymbol) : bool :=
  match findDefinition symbol with
  | Some location => String.eqb (loc_uri location) (SourceDocument.uri targetDoc)
  | None => false
  end.

(** The definition of [symbol] that [targetDoc] holds: the navigation oracle
    gives a location in [targetDoc], and [targetDoc] has a symbol at the
    start of it. *)
Definition definitionIn (targetDoc : SourceDocument) (symbol : SourceSymbol) : option CSymbol :=
  match findDefinition symbol with
  | Some location =>
      if String.eqb (loc_uri location) (SourceDocument.uri targetDoc)
      then match getSourceSymbol (SourceDocument.uri targetDoc) (start (loc_range location)) with
           | Some sourceSymbol =>
               Some (CSymbol.new sourceSymbol (SourceDocument.document targetDoc) None)
           | None => None
           end
      else None
  | None => None
  end.

(** The definition of the first symbol of [l] that has one in [targetDoc]. *)
Fixpoint firstHit (targetDoc : SourceDocument) (l : list SourceSymbol) : option CSymbol :=
  match l with
  | [] => None
  | symbol :: rest =>
      match definitionIn targetDoc symbol with
      | Some definition => Some definition
      | None => firstHit targetDoc rest
      end
  end.

(** The symbols of [l] up to the first one that has a definition in
    [targetDoc], that one included; all of [l] when there is none. *)
Fixpoint upToHit (targetDoc : SourceDocument) (l : list SourceSymbol) : list SourceSymbol :=
  match l with
  | [] => []
  | symbol :: rest =>
      symbol :: match definitionIn targetDoc symbol with
                | Some _ => []
                | None => upToHit targetDoc rest
                end
  end.

End Notions.
End SiblingSearch.

(** The position after the end of [definition], past the semicolons that
    follow it, marked [after]. *)
Definition positionAfter (targetDoc : SourceDocument) (definition : CSymbol) : ProposedPosition :=
  mkProposedPosition
    (getEndOfStatement (SourceDocument.document targetDoc) (end_ (CSymbol.range definition)))
    false true false false.

(** The position of the start of [definition], marked [before]. *)
Definition positionBefore (definition : CSymbol) : ProposedPosition :=
  mkProposedPosition (start (CSymbol.range definition)) true false false false.

(** The end of the last line of [targetDoc] that is not blank, marked
    [after]; the start of the file, without a mark, when every line is
    blank. *)
Definition positionAfterLastLine (targetDoc : SourceDocument) : ProposedPosition :=
  match SourceDocument.lastNonEmptyLineBelow (SourceDocument.document targetDoc)
          (TextDocument.lineCount (SourceDocument.document targetDoc)) with
  | Some i =>
      mkProposedPosition (TextDocument.lineRangeEnd (SourceDocument.document targetDoc) i)
        false true false false
  | None => mkProposedPosition (mkPosition 0 0) false false false false
  end.

(** The text between the parentheses of a declaration: from its first
    opening parenthesis to its first closing one. *)
Definition parameterList (declaration : string) : string :=
  JS.substring declaration (JS.indexOf declaration "(" + 1) (JS.indexOf declaration ")").

(** The notion of the claim: the text of the declaration, from its true
    start to its body start, its comments and quotes masked, holds an opening
    parenthesis after the name with a closing parenthesis that matches
    it. *)
Definition hasParameterSpan (this : CSymbol) : bool :=
  let masked := util.maskQuotes (util.maskComments (CSymbol.declarationText this) false) true in
  let nameEnd := Z.to_nat (CSymbol.nameEndIndexOf this) in
  match JS.indexOfNat "(" (JS.skipn nameEnd masked) 0 with
  | Some i =>
      match util.findClose "(" ")" 0 (JS.skipn (nameEnd + i + 1) masked) with
      | Some _ => true
      | None => false
      end
  | None => false
  end.

(** The notions of the claim on updateSignature: the role that complements
    the role of the current function, and the mismatch of the linked
    symbol. *)
Definition complementaryRole (currentFunction linked : CSymbol) : bool :=
  if CSymbol.isFunctionDeclaration currentFunction
  then CSymbol.isFunctionDefinition linked
  else CSymbol.isFunctionDeclaration linked.

Definition mismatch (currentFunction : CSymbol) (linkedFunction : option CSymbol) : bool :=
  match linkedFunction with
  | None => true
  | Some linked =>
      negb (complementaryRole currentFunction linked)
      || negb (String.eqb (CSymbol.name linked) (CSymbol.name currentFunction))
  end.

Definition isAlert (effect : Command.Effect) : bool :=
  match effect with
  | Command.AlertError _ => true
  | _ => false
  end.

Definition isApplyEdit (effect : Command.Effect) : bool :=
  match effect with
  | Command.ApplyEdit _ => true
  | _ => false
  end.

(* ===================================================================== *)
(** ** Concrete documents and symbols *)
(* ===================================================================== *)

Module Examples.

Definition range (l1 c1 l2 c2 : nat) : Range := mkRange (mkPosition l1 c1) (mkPosition l2 c2).

(** A header with a template class, an include, and a function. *)
Definition templateDoc : TextDocument :=
  TextDocument.mk "t.h"
    ["int a;"; "template <class T> class A {};"; "#include <b>"; "void g();"]
    TextDocument.LF.

Definition gSymbol : SourceSymbol :=
  SourceSymbol.mk "g" "" Function (range 3 0 3 8) (range 3 5 3 6) "t.h" "g" None [].

Definition g : CSymbol := CSymbol.new gSymbol templateDoc None.

(** A function template after a variable. *)
Definition functionTemplateDoc : TextDocument :=
  TextDocument.mk "u.h" ["int a;"; "template <class T>"; "void h(T t);"] TextDocument.LF.

Definition hSymbol : SourceSymbol :=
  SourceSymbol.mk "h" "" Function (range 2 0 2 11) (range 2 5 2 6) "u.h" "h" None [].

Definition h : CSymbol := CSymbol.new hSymbol functionTemplateDoc None.

End Examples.

Module FooExample.

(** A declaration whose reported range stops before its semicolon. *)
Definition declarationDoc : TextDocument :=
  TextDocument.mk "foo.h" ["void foo(int x = 5);"] TextDocument.LF.

Definition fooDeclarationSymbol : SourceSymbol :=
  SourceSymbol.mk "foo" "" Function (Examples.range 0 0 0 19) (Examples.range 0 5 0 8)
    "foo.h" "foo" None [].

Definition fooDeclaration : CSymbol := CSymbol.new fooDeclarationSymbol declarationDoc None.

End FooExample.

Module TreeExamples.

(** A class whose provider reports the members out of order. *)
Definition rawClass : DocumentSymbol :=
  DocumentSymbol.mk "A" "" Class (Examples.range 0 0 3 2) (Examples.range 0 6 0 7)
    [ DocumentSymbol.mk "g" "" Method (Examples.range 2 2 2 11) (Examples.range 2 7 2 8) [];
      DocumentSymbol.mk "f" "" Method (Examples.range 1 2 1 11) (Examples.range 1 7 1 8) [] ].

(** A namespace whose provider reports a child that lies after it. *)
Definition rawStray : DocumentSymbol :=
  DocumentSymbol.mk "N" "" Namespace (Examples.range 0 0 1 1) (Examples.range 0 10 0 11)
    [ DocumentSymbol.mk "f" "" Function (Examples.range 5 0 5 9) (Examples.range 5 5 5 6) [] ].

End TreeExamples.

Module SiblingExamples.

(** A header with three declarations and the source file that defines the
    first two. *)
Definition header : TextDocument :=
  TextDocument.mk "a.h" ["void a();"; "void b();"; "void c();"] TextDocument.LF.

Definition source : TextDocument :=
  TextDocument.mk "a.cpp" ["void a() {}"; "void b() {}"] TextDocument.LF.

Definition declarationOf (name : string) (l : nat) : SourceSymbol :=
  SourceSymbol.mk name "" Function (Examples.range l 0 l 8) (Examples.range l 5 l 6)
    "a.h" name None [].

Definition definitionOf (name : string) (l : nat) : SourceSymbol :=
  SourceSymbol.mk name "" Function (Examples.range l 0 l 11) (Examples.range l 5 l 6)
    "a.cpp" name None [].

Definition a : SourceSymbol := declarationOf "a" 0.
Definition b : SourceSymbol := declarationOf "b" 1.
Definition c : SourceSymbol := declarationOf "c" 2.

Definition headerDoc : SourceDocument := SourceDocument.mk header (Some [a; b; c]).

Definition sourceDoc : SourceDocument :=
  SourceDocument.mk source (Some [definitionOf "a" 0; definitionOf "b" 1]).

(** The source file before its symbols are loaded, with a provider that
    reports no symbol for it. *)
Definition unloadedSourceDoc : SourceDocument := SourceDocument.mk source None.

Definition provider (uri : string) : list SourceSymbol := [].

(** The navigation oracle knows where [a] and [b] are defined. *)
Definition findDefinition (symbol : SourceSymbol) : option Location :=
  if String.eqb (SourceSymbol.name symbol) "a"
  then Some (mkLocation "a.cpp" (Examples.range 0 5 0 6))
  else if String.eqb (SourceSymbol.name symbol) "b"
  then Some (mkLocation "a.cpp" (Examples.range 1 5 1 6))
  else None.

(** The symbols of the source file, by line. *)
Definition getSourceSymbol (uri : string) (position : Position) : option SourceSymbol :=
  if String.eqb uri "a.cpp"
  then match line position with
       | 0 => Some (definitionOf "a" 0)
       | 1 => Some (definitionOf "b" 1)
       | _ => None
       end
  else None.

(** A source file whose symbols do not hold the definition of [b]. *)
Definition getSourceSymbolWithoutB (uri : string) (position : Position) : option SourceSymbol :=
  if String.eqb uri "a.cpp"
  then match line position with
       | 0 => Some (definitionOf "a" 0)
       | _ => None
       end
  else None.

Definition findMatchingSourceSymbol (uri : string) (target : SourceSymbol) : option SourceSymbol :=
  None.

End SiblingExamples.

Module TextExamples.

(** The definition that is made of the text of a new definition and an
    empty body, the brace on the line of the signature or on a line of its
    own. *)
Definition definitionDoc (definition : string) (newLineCurlyBrace : bool) : TextDocument :=
  TextDocument.mk "foo.cpp"
    (if newLineCurlyBrace then [definition; "{"; "}"] else [definition +++ " {"; "}"])
    TextDocument.LF.

Definition fooDefinitionSymbol (newLineCurlyBrace : bool) : SourceSymbol :=
  SourceSymbol.mk "foo" "" Function
    (if newLineCurlyBrace then Examples.range 0 0 2 1 else Examples.range 0 0 1 1)
    (Examples.range 0 5 0 8) "foo.cpp" "foo" None [].

Definition fooDefinition (definition : string) (newLineCurlyBrace : bool) : CSymbol :=
  CSymbol.new (fooDefinitionSymbol newLineCurlyBrace)
    (definitionDoc definition newLineCurlyBrace) None.

(** A function declared through the type of another function: no
    parameter list follows its name. *)
Definition decltypeDoc : TextDocument :=
  TextDocument.mk "bad.h" ["decltype(bar) foo;"] TextDocument.LF.

Definition decltypeSymbol : SourceSymbol :=
  SourceSymbol.mk "foo" "" Function (Examples.range 0 0 0 17) (Examples.range 0 14 0 17)
    "bad.h" "foo" None [].

Definition decltypeFoo : CSymbol := CSymbol.new decltypeSymbol decltypeDoc None.

(** Two blocks of system includes: one line, a blank line, two lines. *)
Definition includesDoc : TextDocument :=
  TextDocument.mk "i.cpp"
    ["#include <a>"; ""; "#include <b>"; "#include <c>"; "int x;"] TextDocument.LF.

(** A class with a member of primitive type, a member of class type and a
    pointer member. *)
Definition classDoc : TextDocument :=
  TextDocument.mk "c.h"
    ["class A {"; "  int count;"; "  std::string name;"; "  static Foo* link;"; "};"]
    TextDocument.LF.

Definition classSymbol : SourceSymbol :=
  SourceSymbol.mk "A" "" Class (Examples.range 0 0 4 1) (Examples.range 0 6 0 7)
    "c.h" "A" None [].

Definition member (name : string) (l c1 c2 c3 : nat) : CSymbol :=
  CSymbol.new
    (SourceSymbol.mk name "" Field (Examples.range l c1 l c3) (Examples.range l c2 l c3)
       "c.h" ("A::" +++ name) (Some classSymbol) [])
    classDoc None.

Definition count : CSymbol := member "count" 1 2 6 11.
Definition name : CSymbol := member "name" 2 2 14 18.
Definition link : CSymbol := member "link" 3 2 14 18.

Definition setterName (memberVariable : CSymbol) : string :=
  "set_" +++ CSymbol.name memberVariable.

(** The collaborators of updateSignature when the linked file holds no
    symbol at the linked location. *)
Definition openTextDocument (uri : string) : TextDocument :=
  TextDocument.mk uri [""] TextDocument.LF.

Definition noSymbol (uri : string) (position : Position) : option SourceSymbol := None.

Definition signatureText (symbol : CSymbol) : string := "void".

Definition signatureRange (symbol : CSymbol) : Range := Examples.range 0 0 0 4.

Definition applyEdit (workspaceEdit : list Command.TextEdit) : bool := true.

Definition fooHeader : SourceDocument :=
  SourceDocument.mk FooExample.declarationDoc None.

Definition linkedLocation : Location := mkLocation "foo.cpp" (Examples.range 0 5 0 8).

End TextExamples.

(* ===================================================================== *)
(** ** Notions used to state the further properties *)
(* ===================================================================== *)

(** The variables of the include scan before the first line. *)
Definition emptyScan : SourceDocument.IncludeScan :=
  SourceDocument.mkIncludeScan None None None None.

(** A line that is an include line with an angle-bracket group: the scan
    takes it for a system include. *)
Definition isSystemIncludeLine (text : string) : bool :=
  SourceDocument.isIncludeLine (JS.trim text) && SourceDocument.hasAngleGroup text.

(** What holds of the variables of the include scan before line [i]: a
    block that is open started at the start of an earlier line, and a block
    that is closed runs from the start of a line to the start of a later
    line, before line [i]. *)
Definition openBefore (i : nat) (start : option Position) : Prop :=
  match start with
  | Some p => character p = 0 /\ line p < i
  | None => True
  end.

Definition closedBefore (i : nat) (block : option Range) : Prop :=
  match block with
  | Some r =>
      character (start r) = 0 /\ character (end_ r) = 0
      /\ line (start r) < line (end_ r) /\ line (end_ r) < i
  | None => True
  end.

Definition scanInvariant (i : nat) (st : SourceDocument.IncludeScan) : Prop :=
  openBefore i (SourceDocument.systemIncludeStart st)
  /\ openBefore i (SourceDocument.projectIncludeStart st)
  /\ closedBefore i (SourceDocument.largestSystemIncludeBlock st)
  /\ closedBefore i (SourceDocument.largestProjectIncludeBlock st).

(** Is [m] the text [p] with some of its characters replaced by spaces? *)
Fixpoint isMaskOf (p m : string) : bool :=
  match p, m with
  | EmptyString, EmptyString => true
  | String c p', String c' m' => (Ascii.eqb c' c || Ascii.eqb c' " ") && isMaskOf p' m'
  | _, _ => false
  end.

Definition isEquals (c : ascii) : bool := Ascii.eqb c "=".

Definition isStar (c : ascii) : bool := Ascii.eqb c "*".

(** Is [s] made of underscores only? *)
Fixpoint onlyUnderscores (s : string) : bool :=
  match s with
  | EmptyString => true
  | String c s' => Ascii.eqb c "_" && onlyUnderscores s'
  end.

(** What identifies a scope: its name, its kind and its range. *)
Definition scopeOf (s : SourceSymbol) : string * SymbolKind * Range :=
  (SourceSymbol.name s, SourceSymbol.kind s, SourceSymbol.range s).

(* ===================================================================== *)
(** ** Further documents and symbols *)
(* ===================================================================== *)

Module IncludeExamples.

(** A file that holds two system includes and nothing else. *)
Definition onlyIncludesDoc : TextDocument :=
  TextDocument.mk "only.h" ["#include <a>"; "#include <b>"] TextDocument.LF.

End IncludeExamples.

Module ThrowExamples.

(** The source file handed over with a symbol list that is loaded and
    empty, and a navigation oracle that knows no definition. *)
Definition emptyLoadedSourceDoc : SourceDocument :=
  SourceDocument.mk SiblingExamples.source (Some []).

Definition findNoDefinition (symbol : SourceSymbol) : option Location := None.

End ThrowExamples.

Module CommentExamples.

(** A declaration under a line comment that starts on the first line of
    the file. *)
Definition commentedDoc : TextDocument :=
  TextDocument.mk "doc.h" ["// Does foo."; "// Twice."; "void foo();"] TextDocument.LF.

Definition fooSymbol : SourceSymbol :=
  SourceSymbol.mk "foo" "" Function (Examples.range 2 0 2 11) (Examples.range 2 5 2 8)
    "doc.h" "foo" None [].

Definition foo : CSymbol := CSymbol.new fooSymbol commentedDoc None.

(** The same declaration under a block comment. *)
Definition blockCommentedDoc : TextDocument :=
  TextDocument.mk "doc.h" ["int a;"; "/* Does foo. */"; "void foo();"] TextDocument.LF.

Definition blockFoo : CSymbol := CSymbol.new fooSymbol blockCommentedDoc None.

End CommentExamples.

Module MemberExamples.

(** A class with a public and a private part. *)
Definition accountDoc : TextDocument :=
  TextDocument.mk "account.h"
    ["class Account {"; "public:"; "  int balance();"; "  void setBalance(int value);";
     "private:"; "  int balance_;"; "};"]
    TextDocument.LF.

Definition accountHeader : SourceSymbol :=
  SourceSymbol.mk "Account" "" Class (Examples.range 0 0 6 1) (Examples.range 0 6 0 13)
    "account.h" "Account" None [].

Definition memberOf (name : string) (kind : SymbolKind) (r s : Range) : SourceSymbol :=
  SourceSymbol.mk name "" kind r s "account.h" ("Account::" +++ name) (Some accountHeader) [].

Definition balance : SourceSymbol :=
  memberOf "balance" Method (Examples.range 2 2 2 15) (Examples.range 2 6 2 13).

Definition setBalance : SourceSymbol :=
  memberOf "setBalance" Method (Examples.range 3 2 3 28) (Examples.range 3 7 3 17).

Definition balanceField : SourceSymbol :=
  memberOf "balance_" Field (Examples.range 5 2 5 14) (Examples.range 5 6 5 14).

Definition accountSymbol : SourceSymbol :=
  SourceSymbol.withChildren accountHeader [balance; setBalance; balanceField].

Definition account : CSymbol := CSymbol.new accountSymbol accountDoc None.

Definition setterName (memberVariable : SourceSymbol) : string := "setBalance".

End MemberExamples.

Module HeaderGuardExamples.

(** A header that starts with a license comment whose lines start with a
    star. *)
Definition licensedDoc : SourceDocument :=
  SourceDocument.mk
    (TextDocument.mk "lib.h" ["/*"; " * Copyright"; " */"; "int x;"] TextDocument.LF)
    (Some []).

(** A header that starts with a plain comment. *)
Definition commentedDoc : SourceDocument :=
  SourceDocument.mk
    (TextDocument.mk "lib.h" ["/* Copyright */"; "// All rights reserved"; "int x;"]
       TextDocument.LF)
    (Some []).

End HeaderGuardExamples.

Module SignatureExamples.

(** The collaborators of updateSignature when the linked file holds the
    definition of [foo]. *)
Definition openTextDocument (uri : string) : TextDocument :=
  TextExamples.definitionDoc "void foo(int x)" false.

Definition getSourceSymbol (uri : string) (position : Position) : option SourceSymbol :=
  Some (TextExamples.fooDefinitionSymbol false).

(** The return type as the declaration and the definition spell it. *)
Definition normalizedReturnType (symbol : CSymbol) : string :=
  if CSymbol.isFunctionDeclaration symbol then "int" else "void".

End SignatureExamples.

Module PragmaExamples.

(** A header whose [#pragma once] comes after a comment. *)
Definition pragmaAfterCommentDoc : SourceDocument :=
  SourceDocument.mk
    (TextDocument.mk "lib.h" ["// Copyright"; "#pragma once"; "int x;"] TextDocument.LF)
    (Some []).

End PragmaExamples.

Module UrlExample.

(** A variable whose initializer is a string literal that holds [//]; its
    reported range stops before the semicolon. *)
Definition urlDoc : TextDocument :=
  TextDocument.mk "url.h"
    ["const char* u = " +++ String JS.doubleQuote "http://x" +++ String JS.doubleQuote ";"]
    TextDocument.LF.

Definition urlSymbol : SourceSymbol :=
  SourceSymbol.mk "u" "" Variable_ (Examples.range 0 0 0 26) (Examples.range 0 12 0 13)
    "url.h" "u" None [].

Definition u : CSymbol := CSymbol.new urlSymbol urlDoc None.

End UrlExample.

Module SiblingCounterexamples.

(** The declaration of [a] as the CSymbol that a caller hands over: the
    constructor has moved the end of its range past the semicolon. *)
Definition aAsCSymbol : SourceSymbol :=
  CSymbol.toSourceSymbol (CSymbol.new SiblingExamples.a SiblingExamples.header None).

(** The source file when its symbols do not hold the definition of [b]
    (they agree with [SiblingExamples.getSourceSymbolWithoutB]), while the
    navigation oracle still locates [b] in it. *)
Definition sourceDocWithoutB : SourceDocument :=
  SourceDocument.mk SiblingExamples.source (Some [SiblingExamples.definitionOf "a" 0]).

(** A source file with a third line, before its symbols are loaded; the
    provider reports no symbol for it, and it has no symbol at any
    position. *)
Definition unloadedSourceDoc : SourceDocument :=
  SourceDocument.mk
    (TextDocument.mk "a.cpp" ["void a() {}"; "void b() {}"; "int z;"] TextDocument.LF)
    None.

Definition noSymbol (uri : string) (position : Position) : option SourceSymbol := None.

End SiblingCounterexamples.

Module NamespaceExamples.

(** A namespace, which is not a class or a struct, with one function. *)
Definition namespaceDoc : TextDocument :=
  TextDocument.mk "n.h" ["namespace N {"; "void f();"; "}"] TextDocument.LF.

Definition namespaceHeader : SourceSymbol :=
  SourceSymbol.mk "N" "" Namespace (Examples.range 0 0 2 1) (Examples.range 0 10 0 11)
    "n.h" "N" None [].

Definition f : SourceSymbol :=
  SourceSymbol.mk "f" "" Function (Examples.range 1 0 1 8) (Examples.range 1 5 1 6)
    "n.h" "f" (Some namespaceHeader) [].

Definition namespaceN : CSymbol :=
  CSymbol.new (SourceSymbol.withChildren namespaceHeader [f]) namespaceDoc None.

End NamespaceExamples.

(* ====================================================================== *)
(** * Properties *)
(* ====================================================================== *)

(** ** Strings *)

Section StringFacts.

Lemma length_append (s t : string) :
  String.length (s +++ t) = String.length s + String.length t.
Proof. induction s as [|c s IH]; simpl; [reflexivity | now rewrite IH]. Qed.

Lemma substring_zero_length (a : nat) (s : string) : String.substring a 0 s = "".
Proof.
  revert a; induction s as [|c s IH]; intros [|a]; simpl; auto.
Qed.

Lemma substring_past_end (a n : nat) (s : string) :
  String.length s <= a -> String.substring a n s = "".
Proof.
  revert a n; induction s as [|c s IH]; intros a n H.
  - destruct a, n; reflexivity.
  - destruct a as [|a]; simpl in *; [lia|]. apply IH; lia.
Qed.

Lemma length_substring (a n : nat) (s : string) :
  String.length (String.substring a n s) = Nat.min n (String.length s - a).
Proof.
  revert a n; induction s as [|c s IH]; intros a n.
  - destruct a, n; simpl; auto.
  - destruct a as [|a]; simpl.
    + destruct n as [|n]; simpl; [reflexivity|]. rewrite IH. rewrite Nat.sub_0_r. reflexivity.
    + apply IH.
Qed.

Lemma substring_split (a n k : nat) (s : string) :
  String.substring a (n + k) s = String.substring a n s +++ String.substring (a + n) k s.
Proof.
  revert a n; induction s as [|c s IH]; intros a n.
  - destruct a, n, k; reflexivity.
  - destruct a as [|a]; simpl.
    + destruct n as [|n]; simpl.
      * destruct k; reflexivity.
      * f_equal. apply (IH 0 n).
    + apply IH.
Qed.

Lemma substring_append_left (a n : nat) (s t : string) :
  a + n <= String.length s -> String.substring a n (s +++ t) = String.substring a n s.
Proof.
  revert a n; induction s as [|c s IH]; intros a n H; simpl in *.
  - assert (a = 0) by lia. assert (n = 0) by lia. subst. apply substring_zero_length.
  - destruct a as [|a].
    + destruct n as [|n]; [reflexivity|]. simpl. f_equal. apply (IH 0 n). lia.
    + simpl. apply IH. lia.
Qed.

Lemma substring_append_right (a n : nat) (s t : string) :
  String.substring (String.length s + a) n (s +++ t) = String.substring a n t.
Proof. induction s as [|c s IH]; simpl; auto. Qed.

Lemma substring_one_skipn (a : nat) (s : string) :
  String.substring a 1 s =
  match JS.skipn a s with
  | String c _ => String c ""
  | EmptyString => ""
  end.
Proof.
  revert a; induction s as [|c s IH]; intros [|a]; simpl; auto.
  now rewrite substring_zero_length.
Qed.

Lemma skipn_skipn (a b : nat) (s : string) : JS.skipn b (JS.skipn a s) = JS.skipn (a + b) s.
Proof.
  revert a; induction s as [|c s IH]; intros [|a]; simpl; auto.
  destruct b; reflexivity.
Qed.

Lemma length_skipn (a : nat) (s : string) :
  String.length (JS.skipn a s) = String.length s - a.
Proof. revert a; induction s as [|c s IH]; intros [|a]; simpl; auto. Qed.

Lemma length_trimEnd (s : string) : String.length (JS.trimEnd s) <= String.length s.
Proof.
  induction s as [|c s IH]; simpl; [lia|].
  destruct (JS.trimEnd s); [destruct (JS.isSpace c)|]; simpl in *; lia.
Qed.

Lemma length_maskWith (spanAt : string -> nat * nat) (keep mask : nat) (s : string) :
  String.length (util.maskWith spanAt keep mask s) = String.length s.
Proof.
  revert keep mask; induction s as [|c s IH]; intros keep mask; simpl; [reflexivity|].
  destruct keep; [destruct mask; [destruct (spanAt (String c s)) as [[|k] [|m]]|]|];
    simpl; now rewrite IH.
Qed.

Lemma length_maskComments (text : string) (keep : bool) :
  String.length (util.maskComments text keep) = String.length text.
Proof. unfold util.maskComments. now rewrite !length_maskWith. Qed.

Lemma length_maskQuotes (text : string) (keep : bool) :
  String.length (util.maskQuotes text keep) = String.length text.
Proof. apply length_maskWith. Qed.

Lemma length_maskBalanced (text : string) (l r : ascii) (keep : bool) :
  String.length (util.maskBalanced text l r keep) = String.length text.
Proof. apply length_maskWith. Qed.

End StringFacts.

(** ** Positions and documents *)

Section DocumentFacts.

Lemma isBefore_lt (a b : Position) : Position.isBefore a b = true <-> Position.lt a b.
Proof.
  unfold Position.isBefore, Position.lt.
  rewrite orb_true_iff, andb_true_iff, !Nat.ltb_lt, Nat.eqb_eq. tauto.
Qed.

Lemma le_refl (a : Position) : Position.le a a.
Proof. now right. Qed.

Lemma le_trans (a b c : Position) : Position.le a b -> Position.le b c -> Position.le a c.
Proof.
  unfold Position.le, Position.lt; intros [H1 | ->] [H2 | ->]; auto.
  left; lia.
Qed.

Lemma lt_le_trans (a b c : Position) : Position.lt a b -> Position.le b c -> Position.lt a c.
Proof.
  unfold Position.le, Position.lt; intros H1 [H2 | ->]; auto. lia.
Qed.

Lemma le_coords (a b : Position) :
  Position.le a b <-> line a < line b \/ (line a = line b /\ character a <= character b).
Proof.
  unfold Position.le, Position.lt. destruct a as [la ca], b as [lb cb]; simpl. split.
  - intros [H|H]; [lia|]. injection H; lia.
  - intros [H | [-> H]]; [lia|].
    destruct (Nat.eq_dec ca cb) as [-> | ]; [now right | left; lia].
Qed.

Lemma new_ordered (a b : Position) : Position.le a b -> Range.new a b = mkRange a b.
Proof.
  intros H. unfold Range.new.
  destruct (Position.isBefore b a) eqn:E; [|reflexivity].
  apply isBefore_lt in E. apply le_coords in H. unfold Position.lt in E. lia.
Qed.

Lemma validatePosition_le (d : TextDocument) (p : Position) :
  Position.le (TextDocument.validatePosition d p) p.
Proof.
  apply le_coords. unfold TextDocument.validatePosition.
  destruct (Nat.leb_spec (TextDocument.lineCount d) (line p)) as [H|H];
    cbn [line character]; unfold TextDocument.lineCount in *; lia.
Qed.

Lemma lineStartIn_mono (eol : nat) (ls : list string) (i j : nat) :
  i <= j -> TextDocument.lineStartIn eol ls i <= TextDocument.lineStartIn eol ls j.
Proof.
  revert i j; induction ls as [|l ls IH]; intros [|i] [|j] H; simpl; try lia.
  specialize (IH i j). lia.
Qed.

Lemma lineStartIn_next (eol : nat) (ls : list string) (i : nat) :
  i < List.length ls ->
  TextDocument.lineStartIn eol ls (S i)
  = TextDocument.lineStartIn eol ls i + String.length (nth i ls "") + eol.
Proof.
  revert i; induction ls as [|l ls IH]; intros i H; simpl in H; [lia|].
  destruct i as [|i]; [simpl; lia|].
  change (TextDocument.lineStartIn eol (l :: ls) (S (S i)))
    with (String.length l + eol + TextDocument.lineStartIn eol ls (S i)).
  rewrite IH by lia. simpl. lia.
Qed.

(** The text of line [l], read in the full text. *)
Lemma substring_line (sep : string) (ls : list string) (l c n : nat) :
  l < List.length ls -> c + n <= String.length (nth l ls "") ->
  String.substring (TextDocument.lineStartIn (String.length sep) ls l + c) n (JS.join sep ls)
  = String.substring c n (nth l ls "").
Proof.
  revert l; induction ls as [|x ls IH]; intros l Hl Hc; simpl in Hl; [lia|].
  destruct l as [|l].
  - simpl in *. destruct ls; [reflexivity|]. now apply substring_append_left.
  - simpl in Hc. destruct ls as [|y ls]; [simpl in Hl; lia|].
    change (JS.join sep (x :: y :: ls)) with (x +++ sep +++ JS.join sep (y :: ls)).
    change (TextDocument.lineStartIn (String.length sep) (x :: y :: ls) (S l))
      with (String.length x + String.length sep
            + TextDocument.lineStartIn (String.length sep) (y :: ls) l).
    rewrite <- !Nat.add_assoc, substring_append_right, substring_append_right.
    apply IH; [simpl in *; lia | assumption].
Qed.

End DocumentFacts.

Section DocumentFacts2.

Variable d : TextDocument.

Lemma length_endOfLine : 1 <= String.length (TextDocument.endOfLine d).
Proof. unfold TextDocument.endOfLine. destruct (TextDocument.eol d); simpl; lia. Qed.

Lemma lineCount_pos : 1 <= TextDocument.lineCount d.
Proof. unfold TextDocument.lineCount. lia. Qed.

Lemma lineText_outside (l : nat) :
  List.length (TextDocument.lines d) <= l -> TextDocument.lineText d l = "".
Proof. intros H. unfold TextDocument.lineText. now apply nth_overflow. Qed.

Lemma validatePosition_valid (p : Position) :
  line p < TextDocument.lineCount d ->
  character p <= String.length (TextDocument.lineText d (line p)) ->
  TextDocument.validatePosition d p = p.
Proof.
  intros Hl Hc. unfold TextDocument.validatePosition.
  destruct (Nat.leb_spec (TextDocument.lineCount d) (line p)); [lia|].
  destruct p as [l c]; simpl in *. f_equal. lia.
Qed.

Lemma validatePosition_line (p : Position) :
  line (TextDocument.validatePosition d p) < TextDocument.lineCount d.
Proof.
  unfold TextDocument.validatePosition. pose proof lineCount_pos.
  destruct (Nat.leb_spec (TextDocument.lineCount d) (line p)); simpl; lia.
Qed.

Lemma validatePosition_character (p : Position) :
  character (TextDocument.validatePosition d p)
  <= String.length (TextDocument.lineText d (line (TextDocument.validatePosition d p))).
Proof.
  unfold TextDocument.validatePosition.
  destruct (Nat.leb_spec (TextDocument.lineCount d) (line p)); simpl; lia.
Qed.

Lemma offsetAt_inside (l c : nat) :
  l < TextDocument.lineCount d ->
  TextDocument.offsetAt d (mkPosition l c)
  = TextDocument.lineStart d l + Nat.min c (String.length (TextDocument.lineText d l)).
Proof.
  intros H. unfold TextDocument.offsetAt, TextDocument.validatePosition. simpl.
  destruct (Nat.leb_spec (TextDocument.lineCount d) l); [lia | reflexivity].
Qed.

Lemma offsetAt_validate (p : Position) :
  TextDocument.offsetAt d (TextDocument.validatePosition d p) = TextDocument.offsetAt d p.
Proof.
  unfold TextDocument.offsetAt. f_equal; [f_equal|];
    f_equal; apply validatePosition_valid;
    auto using validatePosition_line, validatePosition_character.
Qed.

(** The end of a line is not past the start of the next one. *)
Lemma lineStart_step (l l' : nat) (c : nat) :
  l < l' -> l' < TextDocument.lineCount d ->
  c <= String.length (TextDocument.lineText d l) ->
  TextDocument.lineStart d l + c < TextDocument.lineStart d l'.
Proof.
  intros Hl Hl' Hc. unfold TextDocument.lineStart, TextDocument.lineCount in *.
  assert (Hlen : l < List.length (TextDocument.lines d)) by lia.
  pose proof (lineStartIn_next (String.length (TextDocument.endOfLine d)) _ _ Hlen) as Hn.
  pose proof (lineStartIn_mono (String.length (TextDocument.endOfLine d))
                (TextDocument.lines d) (S l) l' ltac:(lia)) as Hm.
  pose proof length_endOfLine. unfold TextDocument.lineText in Hc. lia.
Qed.

Lemma offsetAt_mono (p q : Position) :
  Position.le p q -> TextDocument.offsetAt d p <= TextDocument.offsetAt d q.
Proof.
  intros H. apply le_coords in H.
  unfold TextDocument.offsetAt, TextDocument.validatePosition.
  pose proof lineCount_pos as Hpos.
  destruct (Nat.leb_spec (TextDocument.lineCount d) (line p)) as [Hp|Hp];
    destruct (Nat.leb_spec (TextDocument.lineCount d) (line q)) as [Hq|Hq];
    cbn [line character]; try lia.
  - destruct (Nat.eq_dec (line p) (TextDocument.lineCount d - 1)) as [->|Hne]; [lia|].
    pose proof (lineStart_step (line p) (TextDocument.lineCount d - 1)
                  (Nat.min (character p) (String.length (TextDocument.lineText d (line p))))
                  ltac:(lia) ltac:(lia) ltac:(lia)).
    lia.
  - destruct H as [H|[H H']].
    + pose proof (lineStart_step (line p) (line q)
                    (Nat.min (character p) (String.length (TextDocument.lineText d (line p))))
                    ltac:(lia) ltac:(lia) ltac:(lia)).
      lia.
    + rewrite H. lia.
Qed.

Lemma positionAtIn_lt (eol : nat) (ls : list string) (ln off l c : nat) :
  c <= String.length (nth l ls "") ->
  off < TextDocument.lineStartIn eol ls l + c ->
  Position.lt (TextDocument.positionAtIn eol ls ln off) (mkPosition (ln + l) c).
Proof.
  revert ln off l; induction ls as [|x ls IH]; intros ln off l Hc Hoff.
  - destruct l; simpl in *; lia.
  - destruct ls as [|y ls].
    + destruct l as [|l]; simpl in *.
      * unfold Position.lt; simpl. right. lia.
      * unfold Position.lt; simpl. lia.
    + change (TextDocument.positionAtIn eol (x :: y :: ls) ln off)
        with (if off <? String.length x + eol
              then mkPosition ln (Nat.min off (String.length x))
              else TextDocument.positionAtIn eol (y :: ls) (S ln) (off - (String.length x + eol))).
      destruct (Nat.ltb_spec off (String.length x + eol)) as [Hlt|Hge].
      * unfold Position.lt; simpl. destruct l as [|l]; simpl in *; lia.
      * destruct l as [|l]; [simpl in *; lia|].
        replace (ln + S l) with (S ln + l) by lia.
        apply IH; [exact Hc|].
        change (TextDocument.lineStartIn eol (x :: y :: ls) (S l))
          with (String.length x + eol + TextDocument.lineStartIn eol (y :: ls) l) in Hoff.
        lia.
Qed.

(** An offset before the offset of a position is at a position before it. *)
Lemma positionAt_lt (off : nat) (p : Position) :
  off < TextDocument.offsetAt d p -> Position.lt (TextDocument.positionAt d off) p.
Proof.
  intros H. apply lt_le_trans with (b := TextDocument.validatePosition d p);
    [|apply validatePosition_le].
  pose proof (validatePosition_character p) as Hc.
  unfold TextDocument.offsetAt, TextDocument.lineStart in H.
  destruct (TextDocument.validatePosition d p) as [l c]; simpl in *.
  apply (positionAtIn_lt _ _ 0 off l c); assumption.
Qed.

(** The character after a position, read through [getText]. *)
Lemma getText_next (p : Position) :
  TextDocument.getText d (Range.new p (Position.translate p 0 1))
  = if line p <? TextDocument.lineCount d
    then String.substring (character p) 1 (TextDocument.lineText d (line p))
    else "".
Proof.
  destruct p as [l c]. unfold Position.translate; simpl.
  rewrite Nat.add_0_r.
  rewrite new_ordered by (apply le_coords; simpl; lia).
  unfold TextDocument.getText; simpl.
  destruct (Nat.ltb_spec l (TextDocument.lineCount d)) as [Hl|Hl].
  - rewrite !offsetAt_inside by assumption.
    destruct (Nat.le_gt_cases (String.length (TextDocument.lineText d l)) c) as [Hc|Hc].
    + rewrite !Nat.min_r by lia. rewrite Nat.sub_diag, substring_zero_length.
      symmetry. now apply substring_past_end.
    + rewrite !Nat.min_l by lia.
      replace (TextDocument.lineStart d l + (c + 1) - (TextDocument.lineStart d l + c)) with 1 by lia.
      unfold TextDocument.lineStart, TextDocument.getFullText, TextDocument.lineText.
      apply substring_line; [|fold (TextDocument.lineText d l); lia].
      destruct (Nat.le_gt_cases (List.length (TextDocument.lines d)) l) as [Ho|Ho]; [|assumption].
      rewrite lineText_outside in Hc by assumption. simpl in Hc. lia.
  - unfold TextDocument.offsetAt, TextDocument.validatePosition; simpl.
    destruct (Nat.leb_spec (TextDocument.lineCount d) l); [|lia].
    simpl. now rewrite Nat.sub_diag, substring_zero_length.
Qed.

End DocumentFacts2.

(** ** getEndOfStatement *)

Section EndOfStatement.

Variable d : TextDocument.

Lemma countSemicolons_le (s : string) : countSemicolons s <= String.length s.
Proof. induction s as [|c s IH]; simpl; [lia|]. destruct (Ascii.eqb c ";"); lia. Qed.




(** The loop stops after the semicolons that follow [position]. *)
Lemma getEndOfStatement_loop_spec (fuel l c : nat) :
  l < TextDocument.lineCount d ->
  countSemicolons (JS.skipn c (TextDocument.lineText d l)) < fuel ->
  getEndOfStatement_loop fuel d (mkPosition l c)
  = mkPosition l (c + countSemicolons (JS.skipn c (TextDocument.lineText d l))).
Proof.
  intros Hl. revert c; induction fuel as [|fuel IH]; intros c Hfuel; [lia|].
  cbn [getEndOfStatement_loop]. rewrite getText_next. cbn [line character].
  destruct (Nat.ltb_spec l (TextDocument.lineCount d)); [|lia].
  rewrite substring_one_skipn.
  destruct (JS.skipn c (TextDocument.lineText d l)) as [|ch rest] eqn:E.
  - simpl. now rewrite Nat.add_0_r.
  - assert (Hrest : JS.skipn (c + 1) (TextDocument.lineText d l) = rest).
    { rewrite <- skipn_skipn, E. reflexivity. }
    simpl in Hfuel |- *.
    destruct (Ascii.eqb_spec ch ";") as [->|Hne].
    + simpl. unfold Position.translate; simpl. rewrite Nat.add_0_r.
      rewrite IH by (rewrite Hrest; lia). rewrite Hrest. f_equal. lia.
    + replace (String.eqb (String ch "") ";") with false.
      * now rewrite Nat.add_0_r.
      * symmetry. apply String.eqb_neq. congruence.
Qed.

Lemma getEndOfStatement_spec (p : Position) :
  getEndOfStatement d p = mkPosition (line p) (character p + trailingSemicolons d p).
Proof.
  destruct p as [l c]. unfold getEndOfStatement, trailingSemicolons. cbn [line character].
  destruct (Nat.ltb_spec l (TextDocument.lineCount d)) as [Hl|Hl].
  - apply getEndOfStatement_loop_spec; [assumption|].
    unfold TextDocument.validatePosition; simpl.
    destruct (Nat.leb_spec (TextDocument.lineCount d) l); [lia|]. simpl.
    pose proof (countSemicolons_le (JS.skipn c (TextDocument.lineText d l))) as H1.
    rewrite length_skipn in H1. lia.
  - cbn [getEndOfStatement_loop]. rewrite getText_next. cbn [line].
    destruct (Nat.ltb_spec l (TextDocument.lineCount d)); [lia|]. simpl.
    now rewrite Nat.add_0_r.
Qed.

(** More fuel does not change what the loop returns. *)
Lemma getEndOfStatement_fuel (fuel : nat) (p : Position) :
  String.length (TextDocument.lineText d (line (TextDocument.validatePosition d p))) < fuel ->
  getEndOfStatement_loop fuel d p = getEndOfStatement d p.
Proof.
  intros Hfuel. rewrite getEndOfStatement_spec. destruct p as [l c].
  unfold trailingSemicolons. cbn [line character].
  destruct (Nat.ltb_spec l (TextDocument.lineCount d)) as [Hl|Hl].
  - apply getEndOfStatement_loop_spec; [assumption|].
    unfold TextDocument.validatePosition in Hfuel; simpl in Hfuel.
    destruct (Nat.leb_spec (TextDocument.lineCount d) l); [lia|]. simpl in Hfuel.
    pose proof (countSemicolons_le (JS.skipn c (TextDocument.lineText d l))) as H1.
    rewrite length_skipn in H1. lia.
  - destruct fuel; [lia|]. cbn [getEndOfStatement_loop]. rewrite getText_next. cbn [line].
    destruct (Nat.ltb_spec l (TextDocument.lineCount d)); [lia|]. simpl.
    now rewrite Nat.add_0_r.
Qed.


Lemma trailingSemicolons_inside (p : Position) :
  0 < trailingSemicolons d p ->
  line p < TextDocument.lineCount d
  /\ character p + trailingSemicolons d p <= String.length (TextDocument.lineText d (line p)).
Proof.
  unfold trailingSemicolons.
  destruct (Nat.ltb_spec (line p) (TextDocument.lineCount d)) as [Hl|Hl]; [|lia].
  intros Hpos. split; [assumption|].
  pose proof (countSemicolons_le (JS.skipn (character p) (TextDocument.lineText d (line p)))) as H.
  rewrite length_skipn in H. lia.
Qed.


Lemma getEndOfStatement_le (p : Position) : Position.le p (getEndOfStatement d p).
Proof. rewrite getEndOfStatement_spec. apply le_coords. simpl. lia. Qed.


End EndOfStatement.

(** ** getTrueStart *)

Section TrueStart.

Lemma lt_irrefl (a : Position) : ~ Position.lt a a.
Proof. unfold Position.lt. lia. Qed.

Lemma lastTemplateMatchFrom_bound (s : string) :
  forall (pos : nat) (prevWord : bool) (skip : nat) (last : option nat) (i : nat),
    (forall j, last = Some j -> j < pos + String.length s) ->
    Re.lastTemplateMatchFrom s pos prevWord skip last = Some i ->
    i < pos + String.length s.
Proof.
  induction s as [|c s IH]; intros pos prevWord skip last i Hlast H; simpl in H.
  - now apply Hlast.
  - simpl. replace (pos + S (String.length s)) with (S pos + String.length s) by lia.
    destruct skip as [|k].
    + destruct (Re.templateAt prevWord (String c s)).
      * eapply IH; [|exact H]. intros j [= <-]. lia.
      * eapply IH; [|exact H]. intros j Hj. apply Hlast in Hj. simpl in Hj. lia.
    + eapply IH; [|exact H]. intros j Hj. apply Hlast in Hj. simpl in Hj. lia.
Qed.

Lemma lastTemplateMatch_bound (s : string) (i : nat) :
  Re.lastTemplateMatch s = Some i -> i < String.length s.
Proof.
  intros H. apply (lastTemplateMatchFrom_bound s 0 false 0 None i); [discriminate | exact H].
Qed.

Lemma offsetAt_origin (d : TextDocument) : TextDocument.offsetAt d (mkPosition 0 0) = 0.
Proof.
  rewrite offsetAt_inside by apply lineCount_pos. reflexivity.
Qed.

Lemma length_maskedTextBefore (this : CSymbol) :
  String.length (CSymbol.maskedTextBefore this)
  <= TextDocument.offsetAt (CSymbol.document this) (start (CSymbol.range this)).
Proof.
  unfold CSymbol.maskedTextBefore.
  eapply Nat.le_trans; [apply length_trimEnd|].
  unfold util.maskAngleBrackets.
  rewrite length_maskBalanced, length_maskQuotes, length_maskComments.
  rewrite new_ordered by (apply le_coords; simpl; lia).
  unfold TextDocument.getText. cbn [start end_].
  rewrite length_substring, offsetAt_origin. lia.
Qed.

(** The two ways [getTrueStart] returns. *)
Lemma getTrueStart_cases (this : CSymbol) :
  CSymbol.getTrueStart this = start (CSymbol.range this)
  \/ exists index,
       JS.endsWith (CSymbol.maskedTextBefore this) ">" = true
       /\ Re.lastTemplateMatch (CSymbol.maskedTextBefore this) = Some (S index)
       /\ CSymbol.getTrueStart this
          = TextDocument.positionAt (CSymbol.document this) (S index).
Proof.
  unfold CSymbol.getTrueStart.
  destruct (JS.endsWith (CSymbol.maskedTextBefore this) ">") eqn:E; simpl; [|now left].
  destruct (Re.lastTemplateMatch (CSymbol.maskedTextBefore this)) as [[|index]|] eqn:M;
    [now left | right; now exists index | now left].
Qed.

Lemma positionAt_match_lt (this : CSymbol) (index : nat) :
  Re.lastTemplateMatch (CSymbol.maskedTextBefore this) = Some index ->
  Position.lt (TextDocument.positionAt (CSymbol.document this) index) (start (CSymbol.range this)).
Proof.
  intros M. apply positionAt_lt.
  apply lastTemplateMatch_bound in M. pose proof (length_maskedTextBefore this). lia.
Qed.

Lemma getTrueStart_le (this : CSymbol) :
  Position.le (CSymbol.getTrueStart this) (start (CSymbol.range this)).
Proof.
  destruct (getTrueStart_cases this) as [->|(index & _ & M & ->)]; [apply le_refl|].
  left. now apply positionAt_match_lt.
Qed.

End TrueStart.

(** C3 (as amended): getTrueStart returns a position that is not after
    range.start.  It is strictly before range.start only if the text before
    the symbol, its comments, quotes and angle-bracket contents masked and
    its trailing white space dropped, ends with [>] and holds a match of the
    template regex; the position is then that of the last such match.
    Conversely, when that text ends with [>] and its last match is not at
    offset 0, the result is the position of that match, strictly before
    range.start. *)
Theorem C3_getTrueStart_amended (this : CSymbol) :
  Position.le (CSymbol.getTrueStart this) (start (CSymbol.range this))
  /\ (Position.lt (CSymbol.getTrueStart this) (start (CSymbol.range this)) ->
      JS.endsWith (CSymbol.maskedTextBefore this) ">" = true
      /\ exists index,
           Re.lastTemplateMatch (CSymbol.maskedTextBefore this) = Some index
           /\ CSymbol.getTrueStart this
              = TextDocument.positionAt (CSymbol.document this) index)
  /\ (forall index,
        JS.endsWith (CSymbol.maskedTextBefore this) ">" = true ->
        Re.lastTemplateMatch (CSymbol.maskedTextBefore this) = Some index ->
        index <> 0 ->
        CSymbol.getTrueStart this = TextDocument.positionAt (CSymbol.document this) index
        /\ Position.lt (CSymbol.getTrueStart this) (start (CSymbol.range this))).
Proof.
  split; [apply getTrueStart_le|]. split.
  - intros Hlt. destruct (getTrueStart_cases this) as [E|(index & E1 & E2 & E3)].
    + rewrite E in Hlt. now apply lt_irrefl in Hlt.
    + split; [exact E1|]. now exists (S index).
  - intros index E M Hne. unfold CSymbol.getTrueStart at 1 2. rewrite E, M. simpl.
    destruct index as [|index]; [congruence|].
    split; [reflexivity|]. now apply positionAt_match_lt.
Qed.

(** Witness of C3: the function template [h], whose template clause starts
    at offset 7 of its file. *)
Lemma C3_getTrueStart_amended_witness :
  CSymbol.getTrueStart Examples.h = mkPosition 1 0
  /\ Position.lt (CSymbol.getTrueStart Examples.h) (start (CSymbol.range Examples.h)).
Proof.
  assert (E : JS.endsWith (CSymbol.maskedTextBefore Examples.h) ">" = true) by reflexivity.
  assert (M : Re.lastTemplateMatch (CSymbol.maskedTextBefore Examples.h) = Some 7) by reflexivity.
  destruct (proj2 (proj2 (C3_getTrueStart_amended Examples.h)) 7 E M ltac:(discriminate))
    as [H1 H2].
  split; [rewrite H1; reflexivity | exact H2].
Defined.

(** The notion of a preceding template clause holds of the function
    template [h] and not of [g]. *)
Lemma templateClausePrecedes_examples :
  templateClausePrecedes Examples.h = true /\ templateClausePrecedes Examples.g = false.
Proof. split; reflexivity. Qed.

(** C3 as stated fails: [g] follows an include line, no template clause
    precedes it, and yet [getTrueStart] is strictly before its range: the
    position of the template class two lines above. *)
Lemma C3_counterexample :
  templateClausePrecedes Examples.g = false
  /\ CSymbol.getTrueStart Examples.g = mkPosition 1 0
  /\ Position.lt (CSymbol.getTrueStart Examples.g) (start (CSymbol.range Examples.g)).
Proof.
  split; [reflexivity|]. split; [reflexivity|]. left. simpl. lia.
Qed.

(** ** The CSymbol constructor *)

Section Constructor.

Lemma new_is_build (symbol : SourceSymbol) (document : TextDocument) (parent : option CSymbol) :
  exists parent', CSymbol.new symbol document parent = CSymbol.build symbol document parent'.
Proof.
  unfold CSymbol.new. destruct (SourceSymbol.parent symbol), parent; eauto.
Qed.

Lemma ofSourceSymbol_is_build (symbol : SourceSymbol) (document : TextDocument) :
  exists parent', CSymbol.ofSourceSymbol document symbol = CSymbol.build symbol document parent'.
Proof. destruct symbol; simpl; eauto. Qed.

Lemma build_range (symbol : SourceSymbol) (document : TextDocument) (parent : option CSymbol) :
  wellFormedRange (SourceSymbol.range symbol) ->
  CSymbol.range (CSymbol.build symbol document parent)
  = mkRange (start (SourceSymbol.range symbol))
      (getEndOfStatement document (end_ (SourceSymbol.range symbol))).
Proof.
  intros Hwf. simpl. unfold Range.with_. apply new_ordered.
  eapply le_trans; [exact Hwf | apply getEndOfStatement_le].
Qed.

End Constructor.

(** *** Semicolons at the end of a text and the masks of comments *)

Section TrailingSemicolons.


Lemma startsWith_semicolons (needle u : string) (k : nat) :
  Re.containsChar (fun c => Ascii.eqb c ";") needle = false ->
  JS.startsWith needle (u +++ JS.repeat ";" k) = JS.startsWith needle u.
Proof.
  revert u; induction needle as [|a needle IH]; intros u H; [now destruct u, k|].
  cbn [Re.containsChar] in H. apply orb_false_iff in H as [Ha H].
  destruct u as [|b u]; cbn [String.append JS.startsWith].
  - destruct k as [|k]; [reflexivity|]. cbn [JS.repeat JS.startsWith]. now rewrite Ha.
  - now rewrite IH.
Qed.

Lemma indexOfNat_in_semicolons (needle : string) (k pos : nat) :
  Re.containsChar (fun c => Ascii.eqb c ";") needle = false -> needle <> "" ->
  JS.indexOfNat needle (JS.repeat ";" k) pos = None.
Proof.
  intros H Hne. revert pos; induction k as [|k IH]; intros pos.
  - cbn [JS.repeat JS.indexOfNat]. destruct needle; [congruence | reflexivity].
  - cbn [JS.repeat JS.indexOfNat].
    pose proof (startsWith_semicolons needle "" (S k) H) as Hs. cbn [String.append JS.repeat] in Hs.
    rewrite Hs. destruct needle; [congruence|]. cbn [JS.startsWith]. apply IH.
Qed.

Lemma indexOfNat_semicolons (needle u : string) (k : nat) :
  Re.containsChar (fun c => Ascii.eqb c ";") needle = false -> needle <> "" ->
  forall pos,
    JS.indexOfNat needle (u +++ JS.repeat ";" k) pos = JS.indexOfNat needle u pos.
Proof.
  intros H Hne. induction u as [|c u IH]; intros pos.
  - cbn [String.append]. rewrite indexOfNat_in_semicolons by assumption.
    destruct needle; [congruence | reflexivity].
  - cbn [String.append JS.indexOfNat].
    pose proof (startsWith_semicolons needle (String c u) k H) as Hs.
    cbn [String.append] in Hs. now rewrite Hs, IH.
Qed.



Lemma includes_indexOfNat (s needle : string) :
  JS.includes s needle = false <-> JS.indexOfNat needle s 0 = None.
Proof.
  unfold JS.includes, JS.indexOf, JS.indexOfFrom.
  change (Nat.min (Z.to_nat (Z.max 0 0)) (String.length s)) with 0. cbn [JS.skipn].
  destruct (JS.indexOfNat needle s 0) as [i|]; split; try reflexivity; try discriminate.
  intros H. apply negb_false_iff, Z.eqb_eq in H. lia.
Qed.

Lemma includes_semicolons (needle u : string) (k : nat) :
  Re.containsChar (fun c => Ascii.eqb c ";") needle = false -> needle <> "" ->
  JS.includes (u +++ JS.repeat ";" k) needle = false <-> JS.includes u needle = false.
Proof.
  intros H Hne. now rewrite !includes_indexOfNat, indexOfNat_semicolons.
Qed.







End TrailingSemicolons.




(** ** The symbol tree *)

Section SymbolTree.

Variable getNormalizedSymbolName : string -> string.
Variable compareRanges : Range -> Range -> Z.

Let new := SourceSymbol.new getNormalizedSymbolName compareRanges.
Let compareSymbols (a b : SourceSymbol) : Z :=
  compareRanges (SourceSymbol.range a) (SourceSymbol.range b).
Let compareRaw (a b : DocumentSymbol) : Z :=
  compareRanges (DocumentSymbol.range a) (DocumentSymbol.range b).

(** Induction on raw symbols, with the hypothesis for every child. *)
Lemma DocumentSymbol_induction (P : DocumentSymbol -> Prop) :
  (forall name detail kind range selectionRange children,
      Forall P children ->
      P (DocumentSymbol.mk name detail kind range selectionRange children)) ->
  forall s, P s.
Proof.
  intros step. fix IH 1. intros [name detail kind range selectionRange children].
  apply step. induction children as [|c cs IHcs]; constructor; [apply IH | exact IHcs].
Qed.

Lemma new_range (symbol : DocumentSymbol) (uri : string) (parent : option SourceSymbol) :
  SourceSymbol.range (new symbol uri parent) = DocumentSymbol.range symbol.
Proof. destruct symbol; reflexivity. Qed.

Lemma new_children (symbol : DocumentSymbol) (uri : string) (parent : option SourceSymbol) :
  SourceSymbol.children (new symbol uri parent)
  = JSArray.sort compareSymbols
      (map (fun child =>
              new child uri
                (Some (SourceSymbol.header getNormalizedSymbolName symbol uri parent)))
         (DocumentSymbol.children symbol)).
Proof. destruct symbol; reflexivity. Qed.

Lemma insert_map {A B : Type} (f : A -> B) (cmpA : A -> A -> Z) (cmpB : B -> B -> Z) :
  (forall a b, cmpB (f a) (f b) = cmpA a b) ->
  forall x l, JSArray.insert cmpB (f x) (map f l) = map f (JSArray.insert cmpA x l).
Proof.
  intros H x l. induction l as [|y l IH]; simpl; [reflexivity|].
  rewrite H. destruct (cmpA x y <=? 0)%Z; simpl; [reflexivity | now rewrite IH].
Qed.

Lemma sort_map {A B : Type} (f : A -> B) (cmpA : A -> A -> Z) (cmpB : B -> B -> Z) :
  (forall a b, cmpB (f a) (f b) = cmpA a b) ->
  forall l, JSArray.sort cmpB (map f l) = map f (JSArray.sort cmpA l).
Proof.
  intros H l. induction l as [|x l IH]; simpl; [reflexivity|].
  rewrite IH. now apply insert_map.
Qed.

(** The constructor in the order of the source: the children of the raw
    symbol are sorted, then each one is wrapped. *)
Lemma new_unfold (symbol : DocumentSymbol) (uri : string) (parent : option SourceSymbol) :
  new symbol uri parent
  = let this := SourceSymbol.header getNormalizedSymbolName symbol uri parent in
    SourceSymbol.withChildren this
      (map (fun child => new child uri (Some this))
         (JSArray.sort compareRaw (DocumentSymbol.children symbol))).
Proof.
  destruct symbol as [name detail kind range selectionRange children]. cbn zeta.
  rewrite <- (sort_map _ compareRaw compareSymbols).
  - reflexivity.
  - intros a b. unfold compareSymbols, compareRaw. now rewrite !new_range.
Qed.

Lemma forallb_insert {A : Type} (P : A -> bool) (cmp : A -> A -> Z) (x : A) (l : list A) :
  forallb P (JSArray.insert cmp x l) = P x && forallb P l.
Proof.
  induction l as [|y l IH]; simpl; [reflexivity|].
  destruct (cmp x y <=? 0)%Z; simpl; [reflexivity|].
  rewrite IH. now rewrite !andb_assoc, (andb_comm (P y)).
Qed.

Lemma forallb_sort {A : Type} (P : A -> bool) (cmp : A -> A -> Z) (l : list A) :
  forallb P (JSArray.sort cmp l) = forallb P l.
Proof.
  induction l as [|x l IH]; simpl; [reflexivity|]. now rewrite forallb_insert, IH.
Qed.

Lemma forallb_map {A B : Type} (P : B -> bool) (f : A -> B) (l : list A) :
  forallb P (map f l) = forallb (fun a => P (f a)) l.
Proof. induction l as [|x l IH]; simpl; [reflexivity | now rewrite IH]. Qed.

Lemma forallb_ext_Forall {A : Type} (P Q : A -> bool) (l : list A) :
  Forall (fun a => P a = Q a) l -> forallb P l = forallb Q l.
Proof. induction 1 as [|x l H _ IH]; simpl; [reflexivity | now rewrite H, IH]. Qed.

(** Wrapping keeps the ranges, so containment in the tree is containment in
    the raw output. *)
Lemma everyNode_contained (symbol : DocumentSymbol) :
  forall uri parent,
    everyNode childrenContained (new symbol uri parent)
    = everyRawNode rawChildrenContained symbol.
Proof.
  induction symbol as [name detail kind range selectionRange children IH]
    using DocumentSymbol_induction.
  intros uri parent.
  set (symbol := DocumentSymbol.mk name detail kind range selectionRange children).
  change (everyNode childrenContained (new symbol uri parent))
    with (childrenContained (new symbol uri parent)
          && forallb (everyNode childrenContained) (SourceSymbol.children (new symbol uri parent))).
  change (everyRawNode rawChildrenContained symbol)
    with (rawChildrenContained symbol
          && forallb (everyRawNode rawChildrenContained) children).
  unfold childrenContained at 1. rewrite new_children, new_range.
  rewrite !forallb_sort, !forallb_map. f_equal.
  - unfold rawChildrenContained. simpl. apply forallb_ext_Forall.
    apply Forall_forall. intros child _. now rewrite new_range.
  - apply forallb_ext_Forall. simpl. eapply Forall_impl; [|exact IH].
    intros child H. apply H.
Qed.

Hypothesis compare_le :
  forall a b, (compareRanges a b <= 0)%Z -> Position.isBeforeOrEqual (start a) (start b) = true.
Hypothesis compare_gt :
  forall a b, (0 < compareRanges a b)%Z -> Position.isBeforeOrEqual (start b) (start a) = true.

Lemma insert_sorted (x : SourceSymbol) (l : list SourceSymbol) :
  sortedByStart l = true -> sortedByStart (JSArray.insert compareSymbols x l) = true.
Proof.
  induction l as [|y l IH]; intros Hs; [reflexivity|].
  cbn [JSArray.insert].
  destruct (Z.leb_spec (compareSymbols x y) 0) as [Hle|Hgt].
  - change (Position.isBeforeOrEqual (start (SourceSymbol.range x)) (start (SourceSymbol.range y))
            && sortedByStart (y :: l) = true).
    rewrite Hs, andb_true_r. now apply compare_le.
  - assert (Hyx := compare_gt _ _ Hgt).
    assert (Htail : sortedByStart l = true).
    { destruct l; [reflexivity|]. cbn in Hs. now apply andb_true_iff in Hs. }
    specialize (IH Htail).
    destruct l as [|z l]; cbn [JSArray.insert] in *.
    + cbn. now rewrite Hyx.
    + destruct (compareSymbols x z <=? 0)%Z.
      * change (Position.isBeforeOrEqual (start (SourceSymbol.range y))
                  (start (SourceSymbol.range x))
                && sortedByStart (x :: z :: l) = true).
        now rewrite Hyx, IH.
      * cbn in Hs. apply andb_true_iff in Hs as [Hyz _].
        change (Position.isBeforeOrEqual (start (SourceSymbol.range y))
                  (start (SourceSymbol.range z))
                && sortedByStart (z :: JSArray.insert compareSymbols x l) = true).
        now rewrite Hyz, IH.
Qed.

Lemma sort_sorted (l : list SourceSymbol) :
  sortedByStart (JSArray.sort compareSymbols l) = true.
Proof.
  induction l as [|x l IH]; [reflexivity|]. simpl. now apply insert_sorted.
Qed.

Lemma everyNode_sorted (symbol : DocumentSymbol) :
  forall uri parent, everyNode childrenSorted (new symbol uri parent) = true.
Proof.
  induction symbol as [name detail kind range selectionRange children IH]
    using DocumentSymbol_induction.
  intros uri parent.
  set (symbol := DocumentSymbol.mk name detail kind range selectionRange children).
  change (everyNode childrenSorted (new symbol uri parent))
    with (childrenSorted (new symbol uri parent)
          && forallb (everyNode childrenSorted) (SourceSymbol.children (new symbol uri parent))).
  unfold childrenSorted at 1. rewrite new_children, sort_sorted, forallb_sort, forallb_map.
  simpl. apply forallb_forall. intros child Hin.
  rewrite Forall_forall in IH. now apply IH.
Qed.

End SymbolTree.

Lemma isBeforeOrEqual_total (a b : Position) :
  Position.isBefore a b = false -> Position.isBeforeOrEqual b a = true.
Proof.
  unfold Position.isBeforeOrEqual, Position.isBefore, Position.isEqual.
  rewrite orb_false_iff, andb_false_iff, !Nat.ltb_ge, Nat.eqb_neq.
  intros [H1 H2]. rewrite orb_true_iff, orb_true_iff, !andb_true_iff, !Nat.ltb_lt, !Nat.eqb_eq.
  lia.
Qed.

Lemma sortByRange_le (a b : Range) :
  (sortByRange a b <= 0)%Z -> Position.isBeforeOrEqual (start a) (start b) = true.
Proof.
  unfold sortByRange.
  destruct (Position.isBefore (start a) (start b)) eqn:E1.
  - intros _. unfold Position.isBeforeOrEqual. now rewrite E1.
  - destruct (Position.isBefore (start b) (start a)) eqn:E2; [lia|].
    intros _. now apply isBeforeOrEqual_total.
Qed.

Lemma sortByRange_gt (a b : Range) :
  (0 < sortByRange a b)%Z -> Position.isBeforeOrEqual (start b) (start a) = true.
Proof.
  unfold sortByRange.
  destruct (Position.isBefore (start a) (start b)) eqn:E1; [lia|].
  intros _. now apply isBeforeOrEqual_total.
Qed.

(** C2 (as amended): in the tree that the SourceSymbol constructor builds
    from a raw DocumentSymbol, with a comparator that orders ranges by
    their start, the children of every node are in non-decreasing order of
    range start.  The constructor keeps the ranges of the provider: the
    range of every child is contained in the range of its parent exactly
    when that holds in the raw output. *)
Theorem C2_children_sorted_ranges_kept
  (getNormalizedSymbolName : string -> string) (compareRanges : Range -> Range -> Z)
  (symbol : DocumentSymbol) (uri : string) (parent : option SourceSymbol) :
  (forall a b, (compareRanges a b <= 0)%Z ->
               Position.isBeforeOrEqual (start a) (start b) = true) ->
  (forall a b, (0 < compareRanges a b)%Z ->
               Position.isBeforeOrEqual (start b) (start a) = true) ->
  let tree := SourceSymbol.new getNormalizedSymbolName compareRanges symbol uri parent in
  everyNode childrenSorted tree = true
  /\ everyNode childrenContained tree = everyRawNode rawChildrenContained symbol.
Proof.
  intros Hle Hgt tree. split.
  - now apply everyNode_sorted.
  - apply everyNode_contained.
Qed.

(** Witness of C2: a class whose two methods are reported in the wrong
    order. *)
Lemma C2_children_sorted_ranges_kept_witness :
  let tree := SourceSymbol.new (fun name => name) sortByRange TreeExamples.rawClass "a.h" None in
  map SourceSymbol.name (SourceSymbol.children tree) = ["f"; "g"]
  /\ everyNode childrenSorted tree = true
  /\ everyNode childrenContained tree = true.
Proof.
  destruct (C2_children_sorted_ranges_kept (fun name => name) sortByRange
              TreeExamples.rawClass "a.h" None sortByRange_le sortByRange_gt) as [H1 H2].
  split; [reflexivity|]. split; [exact H1 | rewrite H2; reflexivity].
Defined.

(** C2 as stated fails: the provider reports a child outside the range of
    its parent, and the tree keeps it there. *)
Lemma C2_counterexample :
  let tree := SourceSymbol.new (fun name => name) sortByRange TreeExamples.rawStray "n.h" None in
  everyNode childrenContained tree = false.
Proof. reflexivity. Qed.

(** ** findPositionForFunctionDefinition *)

Section SiblingSearchFacts.

Variable executeSourceSymbolProvider : string -> list SourceSymbol.
Variable findDefinition : SourceSymbol -> option Location.
Variable getSourceSymbol : string -> Position -> option SourceSymbol.
Variable findMatchingSourceSymbol : string -> SourceSymbol -> option SourceSymbol.

Let definitionIn := SiblingSearch.definitionIn findDefinition getSourceSymbol.
Let firstHit := SiblingSearch.firstHit findDefinition getSourceSymbol.
Let upToHit := SiblingSearch.upToHit findDefinition getSourceSymbol.
Let searchBefore := SourceDocument.searchBefore findDefinition getSourceSymbol.
Let searchAfter := SourceDocument.searchAfter findDefinition getSourceSymbol.
Let searchNamespaces := SourceDocument.searchNamespaces findMatchingSourceSymbol.

Lemma fst_bind {A B : Type} (m : Async A) (k : A -> Async B) :
  fst (bind m k) = fst (k (fst m)).
Proof. unfold bind. destruct m as [a l1]. simpl. now destruct (k a). Qed.

Lemma snd_bind {A B : Type} (m : Async A) (k : A -> Async B) :
  snd (bind m k) = snd m ++ snd (k (fst m)).
Proof. unfold bind. destruct m as [a l1]. simpl. now destruct (k a). Qed.

Lemma probed_app (l1 l2 : list Request) : probed (l1 ++ l2) = probed l1 ++ probed l2.
Proof.
  induction l1 as [|r l1 IH]; simpl; [reflexivity|]. destruct r; simpl; now rewrite IH.
Qed.

Ltac async_step :=
  repeat (progress (rewrite ?fst_bind, ?snd_bind;
                    cbn [await ret fst snd app probed negb option_map])).

Lemma searchBefore_spec (targetDoc : SourceDocument) (l : list SourceSymbol) :
  fst (searchBefore targetDoc l) = option_map (positionAfter targetDoc) (firstHit targetDoc l)
  /\ probed (snd (searchBefore targetDoc l)) = upToHit targetDoc l.
Proof.
  induction l as [|symbol rest [IH1 IH2]]; [split; reflexivity|].
  unfold searchBefore, firstHit, upToHit in *.
  cbn [SourceDocument.searchBefore SiblingSearch.firstHit SiblingSearch.upToHit].
  unfold SiblingSearch.definitionIn, SourceDocument.getSymbol. async_step.
  destruct (findDefinition symbol) as [location|]; async_step;
    [|split; [exact IH1 | now rewrite IH2]].
  destruct (String.eqb (loc_uri location) (SourceDocument.uri targetDoc)); async_step;
    [|split; [exact IH1 | now rewrite IH2]].
  destruct (getSourceSymbol (SourceDocument.uri targetDoc) (start (loc_range location)));
    async_step; [split; reflexivity|].
  split; [exact IH1 | now rewrite IH2].
Qed.

Lemma searchAfter_spec (targetDoc : SourceDocument) (l : list SourceSymbol) :
  fst (searchAfter targetDoc l) = option_map positionBefore (firstHit targetDoc l)
  /\ probed (snd (searchAfter targetDoc l)) = upToHit targetDoc l.
Proof.
  induction l as [|symbol rest [IH1 IH2]]; [split; reflexivity|].
  unfold searchAfter, firstHit, upToHit in *.
  cbn [SourceDocument.searchAfter SiblingSearch.firstHit SiblingSearch.upToHit].
  unfold SiblingSearch.definitionIn, SourceDocument.getSymbol. async_step.
  destruct (findDefinition symbol) as [location|]; async_step;
    [|split; [exact IH1 | now rewrite IH2]].
  destruct (String.eqb (loc_uri location) (SourceDocument.uri targetDoc)); async_step;
    [|split; [exact IH1 | now rewrite IH2]].
  destruct (getSourceSymbol (SourceDocument.uri targetDoc) (start (loc_range location)));
    async_step; [split; reflexivity|].
  split; [exact IH1 | now rewrite IH2].
Qed.

(** The search of the namespaces asks nothing of the navigation oracle. *)
Lemma searchNamespaces_probed (targetDoc : SourceDocument) (l : list SourceSymbol) :
  probed (snd (searchNamespaces targetDoc l)) = [].
Proof.
  induction l as [|scope rest IH]; [reflexivity|].
  unfold searchNamespaces in *. cbn [SourceDocument.searchNamespaces].
  destruct (SymbolKind.eqb (SourceSymbol.kind scope) Namespace); [|exact IH].
  unfold SourceDocument.findMatchingSymbol. async_step.
  destruct (findMatchingSourceSymbol (SourceDocument.uri targetDoc) scope);
    async_step; [|exact IH].
  now destruct (rev (CSymbol.children _)).
Qed.

Lemma upToHit_app (targetDoc : SourceDocument) (l1 l2 : list SourceSymbol) :
  upToHit targetDoc (l1 ++ l2)
  = match firstHit targetDoc l1 with
    | Some _ => upToHit targetDoc l1
    | None => l1 ++ upToHit targetDoc l2
    end.
Proof.
  unfold upToHit, firstHit.
  induction l1 as [|s l1 IH]; simpl; [reflexivity|].
  destruct (SiblingSearch.definitionIn findDefinition getSourceSymbol targetDoc s);
    [reflexivity|].
  rewrite IH. now destruct (SiblingSearch.firstHit findDefinition getSourceSymbol targetDoc l1).
Qed.

Lemma upToHit_none (targetDoc : SourceDocument) (l : list SourceSymbol) :
  firstHit targetDoc l = None -> upToHit targetDoc l = l.
Proof.
  unfold upToHit, firstHit. induction l as [|s l IH]; simpl; [reflexivity|].
  destruct (SiblingSearch.definitionIn findDefinition getSourceSymbol targetDoc s);
    [discriminate|]. intros H. now rewrite IH.
Qed.

(** The siblings looked at are the five before and the five after. *)
Lemma siblingsBefore_spec (siblingSymbols : list SourceSymbol) (declaration : SourceSymbol) :
  let index := SourceDocument.findIndexByRange (SourceSymbol.range declaration) siblingSymbols in
  rev (SourceDocument.siblingsBefore siblingSymbols declaration)
  = skipn (index - 5) (firstn index siblingSymbols)
  /\ List.length (SourceDocument.siblingsBefore siblingSymbols declaration) <= 5.
Proof.
  intros index. unfold SourceDocument.siblingsBefore, JSArray.slice. fold index.
  rewrite Nat.max_0_r, rev_involutive. split.
  - now rewrite skipn_firstn_comm.
  - rewrite length_rev, length_firstn. lia.
Qed.

Lemma siblingsAfter_spec (siblingSymbols : list SourceSymbol) (declaration : SourceSymbol) :
  let index := SourceDocument.findIndexByRange (SourceSymbol.range declaration) siblingSymbols in
  SourceDocument.siblingsAfter siblingSymbols declaration
  = firstn 5 (skipn (S index) siblingSymbols)
  /\ List.length (SourceDocument.siblingsAfter siblingSymbols declaration) <= 5.
Proof.
  intros index. unfold SourceDocument.siblingsAfter, JSArray.slice. fold index.
  rewrite Nat.add_1_r.
  assert (E : firstn (Nat.min (index + 6) (List.length siblingSymbols) - S index)
                (skipn (S index) siblingSymbols)
              = firstn 5 (skipn (S index) siblingSymbols)).
  { destruct (Nat.le_gt_cases (index + 6) (List.length siblingSymbols)) as [H|H].
    - f_equal. lia.
    - rewrite Nat.min_r by lia.
      rewrite !firstn_all2; [reflexivity | | ]; rewrite List.length_skipn; lia. }
  rewrite E. split; [reflexivity|]. rewrite length_firstn. lia.
Qed.

End SiblingSearchFacts.

Section SearchForPosition.

Variable findDefinition : SourceSymbol -> option Location.
Variable getSourceSymbol : string -> Position -> option SourceSymbol.
Variable findMatchingSourceSymbol : string -> SourceSymbol -> option SourceSymbol.

Lemma searchForPosition_spec
  (targetDoc : SourceDocument) (targetSymbols thisSymbols : list SourceSymbol)
  (declaration : SourceSymbol) :
  let run :=
    SourceDocument.searchForPosition findDefinition getSourceSymbol findMatchingSourceSymbol
      targetDoc targetSymbols thisSymbols declaration in
  let siblings := SourceDocument.siblingsOf thisSymbols declaration in
  let before := SourceDocument.siblingsBefore siblings declaration in
  let after := SourceDocument.siblingsAfter siblings declaration in
  let firstHit := SiblingSearch.firstHit findDefinition getSourceSymbol targetDoc in
  probed (snd run)
  = SiblingSearch.upToHit findDefinition getSourceSymbol targetDoc (before ++ after)
  /\ (forall definition,
        firstHit before = Some definition ->
        fst run = Returns (positionAfter targetDoc definition))
  /\ (forall definition,
        firstHit before = None -> firstHit after = Some definition ->
        fst run = Returns (positionBefore definition)).
Proof.
  intros run siblings before after firstHit.
  subst run firstHit. unfold SourceDocument.searchForPosition. fold siblings before after.
  destruct (searchBefore_spec findDefinition getSourceSymbol targetDoc before) as [B1 B2].
  destruct (searchAfter_spec findDefinition getSourceSymbol targetDoc after) as [A1 A2].
  pose proof (searchNamespaces_probed findMatchingSourceSymbol targetDoc
                (SourceSymbol.ancestors declaration)) as N.
  rewrite upToHit_app.
  rewrite fst_bind, snd_bind, probed_app, B1, B2.
  destruct (SiblingSearch.firstHit findDefinition getSourceSymbol targetDoc before)
    as [definition|] eqn:Hb; cbn [option_map].
  - cbn [ret fst snd probed]. rewrite app_nil_r.
    split; [reflexivity|]. split; [now intros ? [= <-] | discriminate].
  - rewrite fst_bind, snd_bind, probed_app, A1, A2.
    rewrite (upToHit_none _ _ _ _ Hb).
    split; [|split; [discriminate|]].
    + f_equal.
      destruct (SiblingSearch.firstHit findDefinition getSourceSymbol targetDoc after)
        as [definition|] eqn:Ha; cbn [option_map].
      * cbn [ret fst snd probed]. now rewrite app_nil_r.
      * rewrite snd_bind, probed_app, N.
        rewrite (upToHit_none _ _ _ _ Ha). cbn [app].
        destruct (fst (SourceDocument.searchNamespaces _ _ _)); [now rewrite app_nil_r|].
        destruct (rev targetSymbols); now rewrite app_nil_r.
    + intros definition _ Ha. now rewrite Ha.
Qed.

End SearchForPosition.

(** The search as the code runs it, around the index that the loop over
    the siblings finds.  When the symbols of the target document are loaded
    by this call and found empty, no sibling is asked about, and the result
    is the end of the last line of the target that is not blank, marked
    [after], or the start of the file without a mark when every line is
    blank. *)
Lemma sibling_search_by_index
  (executeSourceSymbolProvider : string -> list SourceSymbol)
  (findDefinition : SourceSymbol -> option Location)
  (getSourceSymbol : string -> Position -> option SourceSymbol)
  (findMatchingSourceSymbol : string -> SourceSymbol -> option SourceSymbol)
  (this : SourceDocument) (declaration : SourceSymbol) (targetDoc : option SourceDocument) :
  let thisSymbols :=
    match SourceDocument.symbols this with
    | Some l => l
    | None => executeSourceSymbolProvider (SourceDocument.uri this)
    end in
  let target :=
    match targetDoc with
    | Some d => d
    | None => SourceDocument.mk (SourceDocument.document this) (Some thisSymbols)
    end in
  let run :=
    SourceDocument.findPositionForFunctionDefinition executeSourceSymbolProvider
      findDefinition getSourceSymbol findMatchingSourceSymbol this declaration targetDoc in
  let siblings := SourceDocument.siblingsOf thisSymbols declaration in
  let before := SourceDocument.siblingsBefore siblings declaration in
  let after := SourceDocument.siblingsAfter siblings declaration in
  let firstHit := SiblingSearch.firstHit findDefinition getSourceSymbol target in
  String.eqb (SourceSymbol.uri declaration) (SourceDocument.uri this) = true ->
  thisSymbols <> [] ->
  ((SourceDocument.symbols target = None ->
    executeSourceSymbolProvider (SourceDocument.uri target) <> []) ->
   probed (snd run)
   = SiblingSearch.upToHit findDefinition getSourceSymbol target (before ++ after)
   /\ (forall definition,
         firstHit before = Some definition ->
         fst run = Returns (positionAfter target definition))
   /\ (forall definition,
         firstHit before = None -> firstHit after = Some definition ->
         fst run = Returns (positionBefore definition)))
  /\ (SourceDocument.symbols target = None ->
      executeSourceSymbolProvider (SourceDocument.uri target) = [] ->
      probed (snd run) = []
      /\ fst run = Returns (positionAfterLastLine target)).
Proof.
  intros thisSymbols target run siblings before after firstHit Huri Hsymbols.
  assert (Hlen : (List.length thisSymbols =? 0) = false)
    by (apply Nat.eqb_neq; destruct thisSymbols; [congruence | discriminate]).
  split; [intros Htarget|].
  2:{ intros Hnone Hempty. clear Hsymbols.
      subst run firstHit before after siblings target thisSymbols.
      unfold SourceDocument.findPositionForFunctionDefinition, positionAfterLastLine.
      rewrite fst_bind, snd_bind, probed_app.
      destruct (SourceDocument.symbols this) as [l|]; cbn [ret await fst snd probed app] in *;
        rewrite Huri, Hlen, andb_false_r; cbn [negb orb];
        rewrite Hnone, fst_bind, snd_bind, probed_app; cbn [await fst snd probed app];
        rewrite Hempty; cbn [List.length Nat.eqb];
        now destruct (SourceDocument.lastNonEmptyLineBelow _ _). }
  set (targetSymbols :=
         match SourceDocument.symbols target with
         | Some l => l
         | None => executeSourceSymbolProvider (SourceDocument.uri target)
         end).
  set (search :=
         SourceDocument.searchForPosition findDefinition getSourceSymbol
           findMatchingSourceSymbol target targetSymbols thisSymbols declaration).
  assert (Hrun : fst run = fst search /\ probed (snd run) = probed (snd search)).
  { assert (Hlen' : SourceDocument.symbols target = None ->
                    (List.length (executeSourceSymbolProvider (SourceDocument.uri target)) =? 0)
                    = false).
    { intros Ht. apply Nat.eqb_neq. specialize (Htarget Ht).
      destruct (executeSourceSymbolProvider (SourceDocument.uri target));
        [congruence | discriminate]. }
    clear Hsymbols Htarget.
    subst run search targetSymbols. unfold SourceDocument.findPositionForFunctionDefinition.
    rewrite fst_bind, snd_bind, probed_app.
    subst target thisSymbols.
    destruct (SourceDocument.symbols this) as [l|]; cbn [ret await fst snd probed app] in *;
      rewrite Huri, Hlen, andb_false_r; cbn [negb orb];
      (destruct (SourceDocument.symbols _) as [l'|]; [split; reflexivity|];
       rewrite fst_bind, snd_bind, probed_app; cbn [await fst snd probed app];
       rewrite (Hlen' eq_refl); split; reflexivity). }
  destruct Hrun as [Hfst Hsnd].
  destruct (searchForPosition_spec findDefinition getSourceSymbol findMatchingSourceSymbol
              target targetSymbols thisSymbols declaration) as (S1 & S2 & S3).
  rewrite Hfst, Hsnd. auto.
Qed.

(** The index that the loop over the siblings finds is the place of the
    first sibling that has the range of the declaration. *)
Lemma findIndexByRange_place (r : Range) (pre post : list SourceSymbol) (sibling : SourceSymbol) :
  Range.isEqual (SourceSymbol.range sibling) r = true ->
  forallb (fun s => negb (Range.isEqual (SourceSymbol.range s) r)) pre = true ->
  SourceDocument.findIndexByRange r (pre ++ sibling :: post) = List.length pre.
Proof.
  intros Hsibling. induction pre as [|s pre IH]; intros Hpre; cbn.
  - now rewrite Hsibling.
  - cbn in Hpre. apply andb_true_iff in Hpre as [Hs Hpre].
    apply negb_true_iff in Hs. now rewrite Hs, IH.
Qed.

(** The siblings that the search looks at, when the declaration has the
    range of one of its siblings: the five nearest before it, nearest
    first, and the five nearest after it. *)
Lemma siblings_around
  (declaration : SourceSymbol) (pre post : list SourceSymbol) (sibling : SourceSymbol) :
  Range.isEqual (SourceSymbol.range sibling) (SourceSymbol.range declaration) = true ->
  forallb (fun s => negb (Range.isEqual (SourceSymbol.range s) (SourceSymbol.range declaration)))
    pre = true ->
  SourceDocument.siblingsBefore (pre ++ sibling :: post) declaration = firstn 5 (rev pre)
  /\ SourceDocument.siblingsAfter (pre ++ sibling :: post) declaration = firstn 5 post.
Proof.
  intros Hsibling Hpre.
  pose proof (findIndexByRange_place _ pre post sibling Hsibling Hpre) as Hindex.
  destruct (siblingsBefore_spec (pre ++ sibling :: post) declaration) as [Hbefore _].
  destruct (siblingsAfter_spec (pre ++ sibling :: post) declaration) as [Hafter _].
  cbn zeta in Hbefore, Hafter. rewrite Hindex in Hbefore, Hafter. split.
  - rewrite firstn_app, firstn_all, Nat.sub_diag in Hbefore. cbn [firstn] in Hbefore.
    rewrite app_nil_r in Hbefore.
    now rewrite firstn_rev, <- Hbefore, rev_involutive.
  - rewrite Hafter. f_equal.
    rewrite skipn_app, skipn_all2 by lia.
    replace (S (List.length pre) - List.length pre) with 1 by lia. reflexivity.
Qed.

(** C1 (as amended): take a declaration of a document that has a symbol,
    and let the declaration have the range of one of its siblings (the
    children of its parent, or the top-level symbols of the document):
    [pre] are the siblings before the first sibling with that range, [post]
    the siblings after it.  Unless the symbols of the target document are
    loaded by this call and found empty, findPositionForFunctionDefinition
    asks the navigation oracle about the five siblings nearest before the
    declaration, nearest first, then about the five nearest after it,
    nearest first, about no other symbol, and stops at the first sibling
    that has a definition in the target document, that is whose location
    the oracle gives in the target document and at whose start the target
    document has a symbol.  A sibling before gives the position after the
    end of that definition, past the semicolons that follow, marked
    [after]; a sibling after gives the start of that definition, marked
    [before].  When the symbols of the target document are loaded by this
    call and found empty, no sibling is asked about, and the result is the
    end of the last line of the target that is not blank, marked [after],
    or the start of the file without a mark when every line is blank. *)
Theorem C1_sibling_search
  (executeSourceSymbolProvider : string -> list SourceSymbol)
  (findDefinition : SourceSymbol -> option Location)
  (getSourceSymbol : string -> Position -> option SourceSymbol)
  (findMatchingSourceSymbol : string -> SourceSymbol -> option SourceSymbol)
  (this : SourceDocument) (declaration : SourceSymbol) (targetDoc : option SourceDocument)
  (pre post : list SourceSymbol) (sibling : SourceSymbol) :
  let thisSymbols :=
    match SourceDocument.symbols this with
    | Some l => l
    | None => executeSourceSymbolProvider (SourceDocument.uri this)
    end in
  let target :=
    match targetDoc with
    | Some d => d
    | None => SourceDocument.mk (SourceDocument.document this) (Some thisSymbols)
    end in
  let run :=
    SourceDocument.findPositionForFunctionDefinition executeSourceSymbolProvider
      findDefinition getSourceSymbol findMatchingSourceSymbol this declaration targetDoc in
  let before := firstn 5 (rev pre) in
  let after := firstn 5 post in
  let firstHit := SiblingSearch.firstHit findDefinition getSourceSymbol target in
  String.eqb (SourceSymbol.uri declaration) (SourceDocument.uri this) = true ->
  thisSymbols <> [] ->
  SourceDocument.siblingsOf thisSymbols declaration = pre ++ sibling :: post ->
  Range.isEqual (SourceSymbol.range sibling) (SourceSymbol.range declaration) = true ->
  forallb (fun s => negb (Range.isEqual (SourceSymbol.range s) (SourceSymbol.range declaration)))
    pre = true ->
  (List.length before <= 5 /\ List.length after <= 5)
  /\ ((SourceDocument.symbols target = None ->
       executeSourceSymbolProvider (SourceDocument.uri target) <> []) ->
      probed (snd run)
      = SiblingSearch.upToHit findDefinition getSourceSymbol target (before ++ after)
      /\ (forall definition,
            firstHit before = Some definition ->
            fst run = Returns (positionAfter target definition))
      /\ (forall definition,
            firstHit before = None -> firstHit after = Some definition ->
            fst run = Returns (positionBefore definition)))
  /\ (SourceDocument.symbols target = None ->
      executeSourceSymbolProvider (SourceDocument.uri target) = [] ->
      probed (snd run) = []
      /\ fst run = Returns (positionAfterLastLine target)).
Proof.
  intros thisSymbols target run before after firstHit Huri Hsymbols Hsiblings Hsibling Hpre.
  split; [subst before after; rewrite !length_firstn; lia|].
  destruct (sibling_search_by_index executeSourceSymbolProvider findDefinition getSourceSymbol
              findMatchingSourceSymbol this declaration targetDoc Huri Hsymbols)
    as [Hsearch Hempty].
  fold thisSymbols target run in Hsearch, Hempty. rewrite Hsiblings in Hsearch.
  destruct (siblings_around declaration pre post sibling Hsibling Hpre) as [-> ->] in Hsearch.
  split; [exact Hsearch | exact Hempty].
Qed.

(** Witness of C1: the definition of [c] goes after the definition of [b],
    its nearest sibling, and [a] is not asked about. *)
Lemma C1_sibling_search_witness :
  let run :=
    SourceDocument.findPositionForFunctionDefinition SiblingExamples.provider
      SiblingExamples.findDefinition SiblingExamples.getSourceSymbol SiblingExamples.findMatchingSourceSymbol
      SiblingExamples.headerDoc SiblingExamples.c (Some SiblingExamples.sourceDoc) in
  fst run = Returns (mkProposedPosition (mkPosition 1 11) false true false false)
  /\ probed (snd run) = [SiblingExamples.b].
Proof.
  destruct (C1_sibling_search SiblingExamples.provider
              SiblingExamples.findDefinition SiblingExamples.getSourceSymbol
              SiblingExamples.findMatchingSourceSymbol
              SiblingExamples.headerDoc SiblingExamples.c (Some SiblingExamples.sourceDoc)
              [SiblingExamples.a; SiblingExamples.b] [] SiblingExamples.c
              eq_refl ltac:(discriminate) eq_refl eq_refl eq_refl)
    as (_ & Hsearch & _).
  destruct (Hsearch ltac:(discriminate)) as (Hprobed & Hbefore & _).
  split.
  - exact (Hbefore _ eq_refl).
  - exact Hprobed.
Defined.

(** C1 as stated fails, three times.

    The declaration of [a], the first of the three declarations, is handed
    over as a CSymbol: the end of its range is past its semicolon, so no
    sibling has its range, and the loop over the siblings takes all three
    of them for siblings before it.  [c] and [b], which come after [a], are
    asked about as siblings before, and the result is the position after
    the definition of [b], marked [after], not a position before it.

    The navigation oracle locates the definition of [b], the nearest
    sibling before [c], in the target document, but the target document has
    no symbol there: the search goes on to [a], and [a] gives the result.

    When the symbols of the target document are loaded by the call and
    found empty, [b] is located in the target document all the same, no
    sibling is asked about, and the result is the end of the last line that
    is not blank. *)
Lemma C1_counterexample :
  let asCSymbol :=
    SourceDocument.findPositionForFunctionDefinition SiblingExamples.provider
      SiblingExamples.findDefinition SiblingExamples.getSourceSymbol
      SiblingExamples.findMatchingSourceSymbol
      SiblingExamples.headerDoc SiblingCounterexamples.aAsCSymbol
      (Some SiblingExamples.sourceDoc) in
  let noSymbolThere :=
    SourceDocument.findPositionForFunctionDefinition SiblingExamples.provider
      SiblingExamples.findDefinition SiblingExamples.getSourceSymbolWithoutB
      SiblingExamples.findMatchingSourceSymbol
      SiblingExamples.headerDoc SiblingExamples.c
      (Some SiblingCounterexamples.sourceDocWithoutB) in
  let unloaded :=
    SourceDocument.findPositionForFunctionDefinition SiblingExamples.provider
      SiblingExamples.findDefinition SiblingCounterexamples.noSymbol
      SiblingExamples.findMatchingSourceSymbol
      SiblingExamples.headerDoc SiblingExamples.c
      (Some SiblingCounterexamples.unloadedSourceDoc) in
  (SourceSymbol.range SiblingExamples.a = Examples.range 0 0 0 8
   /\ SourceSymbol.range SiblingCounterexamples.aAsCSymbol = Examples.range 0 0 0 9
   /\ probed (snd asCSymbol) = [SiblingExamples.c; SiblingExamples.b]
   /\ fst asCSymbol = Returns (mkProposedPosition (mkPosition 1 11) false true false false))
  /\ (SiblingSearch.locatedIn SiblingExamples.findDefinition
        SiblingCounterexamples.sourceDocWithoutB SiblingExamples.b = true
      /\ probed (snd noSymbolThere) = [SiblingExamples.b; SiblingExamples.a]
      /\ fst noSymbolThere
         = Returns (mkProposedPosition (mkPosition 0 11) false true false false))
  /\ (SiblingSearch.locatedIn SiblingExamples.findDefinition
        SiblingCounterexamples.unloadedSourceDoc SiblingExamples.b = true
      /\ probed (snd unloaded) = []
      /\ fst unloaded = Returns (mkProposedPosition (mkPosition 2 6) false true false false)).
Proof. repeat split; reflexivity. Qed.

(** ** Text transforms *)

(** C6: stripDefaultValues turns the parameters [int a = 1,
    std::vector<int> b = {1,2}, int c] into [int a, std::vector<int> b,
    int c]: the default values are dropped, the comma between the braces
    does not separate parameters (the masked text has three pieces), and
    the parameter without default value is kept as it is. *)
Theorem C6_stripDefaultValues_example :
  let parameters := "int a = 1, std::vector<int> b = {1,2}, int c" in
  CSymbol.stripDefaultValues parameters = "int a, std::vector<int> b, int c"
  /\ JS.split "," (CSymbol.maskedParametersOf parameters)
     = ["int a = 1"; " std::vector<   > b = {   }"; " int c"].
Proof. split; reflexivity. Qed.

(** C5: the declaration [void foo(int x = 5);] becomes the definition
    [void foo(int x)], and newFunctionDeclaration on that definition, given
    an empty body in either brace style, gives [void foo(int x);]: the
    parameter keeps its type and its name and has lost its default
    value. *)
Theorem C5_round_trip_drops_default_value (newLineCurlyBrace : bool) :
  CSymbol.formatDeclarationForNewDefinition FooExample.fooDeclaration
    (TextExamples.definitionDoc "" newLineCurlyBrace) ""
  = Returns "void foo(int x)"
  /\ CSymbol.newFunctionDeclaration (TextExamples.fooDefinition "void foo(int x)" newLineCurlyBrace)
     = "void foo(int x);"
  /\ parameterList
       (CSymbol.newFunctionDeclaration
          (TextExamples.fooDefinition "void foo(int x)" newLineCurlyBrace))
     = "int x"
  /\ parameterList (CSymbol.text FooExample.fooDeclaration) = "int x = 5".
Proof. destruct newLineCurlyBrace; repeat split; reflexivity. Qed.

(** C4 (the code departs from it): the declaration [decltype(bar) foo;] has
    no parameter list after its name, and formatDeclarationForNewDefinition
    does not return the empty string for it: the index of the missing
    parenthesis is incremented before it is compared with -1, so the text
    before the closing parenthesis of [decltype(bar)] is taken for the
    parameters. *)
Theorem C4_missing_parameter_list_not_detected :
  CSymbol.isFunctionDeclaration TextExamples.decltypeFoo = true
  /\ hasParameterSpan TextExamples.decltypeFoo = false
  /\ JS.indexOfFrom (CSymbol.maskedDeclarationText TextExamples.decltypeFoo) "("
       (CSymbol.nameEndIndexOf TextExamples.decltypeFoo) = (-1)%Z
  /\ CSymbol.formatDeclarationForNewDefinition TextExamples.decltypeFoo TextExamples.decltypeDoc ""
     = Returns "decltype(bar) foo(decltype(bar) foo".
Proof. repeat split; reflexivity. Qed.

(** The part of the check that works: a declaration without any closing
    parenthesis gives the empty string. *)
Lemma formatDeclaration_without_closing_parenthesis
  (this : CSymbol) (targetDoc : TextDocument) (scopeString : string) :
  JS.indexOf (CSymbol.maskedDeclarationText this) ")" = (-1)%Z ->
  CSymbol.formatDeclarationForNewDefinition this targetDoc scopeString = Returns "".
Proof.
  intros H. unfold CSymbol.formatDeclarationForNewDefinition.
  rewrite H. now rewrite orb_true_r.
Qed.

(** The index of the opening parenthesis is never -1 once it is
    incremented, whatever the text. *)
Lemma paramStartIndex_never_minus_one (text : string) (from : Z) :
  ((JS.indexOfFrom text "(" from + 1 =? -1) = false)%Z.
Proof.
  apply Z.eqb_neq. unfold JS.indexOfFrom.
  destruct (JS.indexOfNat _ _ _); lia.
Qed.


(** ** Includes *)

(** largestBlock keeps the block it already has, whatever the new one. *)
Lemma largestBlock_keeps_first (lineStart start : Position) (largest : Range) :
  SourceDocument.largestBlock lineStart start (Some largest) = largest.
Proof. reflexivity. Qed.

(** C7 (the code departs from it): in a file with a block of one system
    include, a blank line and a block of two system includes,
    findPositionForNewInclude returns the end of the first block, not the
    end of the larger one: the comparison of the two Range objects in
    largestBlock is never true, so the first block that closes stays. *)
Theorem C7_first_block_not_largest :
  map (fun text => SourceDocument.isIncludeLine (JS.trim text))
    (TextDocument.lines TextExamples.includesDoc)
  = [true; false; true; true; false]
  /\ SourceDocument.findPositionForNewInclude SiblingExamples.provider
       (SourceDocument.mk TextExamples.includesDoc None)
     = (Returns (SourceDocument.mkIncludePositions (mkPosition 1 0) (mkPosition 1 0)), []).
Proof. split; reflexivity. Qed.

(** ** Accessors *)

(** C8: the parameter of the setter that Setter.create builds.  When the
    member is primitive or a pointer it is the type of the member, that is
    its leading text without [static] and [mutable], followed by the
    parameter name; otherwise it is [const], the type, [&] and the
    parameter name. *)
Theorem C8_setter_parameter
  (setterName : CSymbol -> string) (resolveTypes : bool) (resolveThisType : nat -> bool)
  (memberVariable : CSymbol) :
  let setter := Setter.create setterName resolveTypes resolveThisType memberVariable in
  let type := Re.removeKeywords ["static"; "mutable"] (CSymbol.leadingText memberVariable) in
  (CSymbol.isPrimitive resolveTypes resolveThisType memberVariable = true
   \/ CSymbol.isPointer memberVariable = true ->
   Setter.parameter setter = type +++ "value")
  /\ (CSymbol.isPrimitive resolveTypes resolveThisType memberVariable = false ->
      CSymbol.isPointer memberVariable = false ->
      Setter.parameter setter = ("const " +++ type +++ "&") +++ "value").
Proof.
  intros setter type. subst setter. unfold Setter.create. cbn [Setter.parameter]. fold type.
  split.
  - intros [H|H]; rewrite H; [reflexivity | now rewrite andb_false_r].
  - intros H1 H2. now rewrite H1, H2.
Qed.

(** Witness of C8: a member of type [int], a member of type
    [std::string] and a static pointer member. *)
Lemma C8_setter_parameter_witness :
  let create := Setter.create TextExamples.setterName false (fun _ => false) in
  Setter.parameter (create TextExamples.count) = "int value"
  /\ Setter.parameter (create TextExamples.name) = "const std::string &value"
  /\ Setter.parameter (create TextExamples.link) = "Foo* value".
Proof.
  pose proof (C8_setter_parameter TextExamples.setterName false (fun _ => false)) as H.
  split; [|split].
  - exact (proj1 (H TextExamples.count) (or_introl eq_refl)).
  - exact (proj2 (H TextExamples.name) eq_refl eq_refl).
  - exact (proj1 (H TextExamples.link) (or_intror eq_refl)).
Defined.

(** ** updateSignature *)

(** C9: when the symbol at the linked location is absent, does not have the
    role that complements the role of the current function, or has another
    name, updateSignature alerts the user and returns undefined: its last
    effect is the alert, it alerts once, and it applies no edit.  Without
    such a mismatch it applies an edit and returns its result, without an
    alert. *)
Theorem C9_mismatch_alerts
  (openTextDocument : string -> TextDocument)
  (getSourceSymbol : string -> Position -> option SourceSymbol)
  (normalizedReturnType : CSymbol -> string) (returnTypeRange : CSymbol -> Range)
  (returnType : CSymbol -> string) (applyEdit : list Command.TextEdit -> bool)
  (currentFunction : CSymbol) (sourceDoc : SourceDocument) (linkedLocation : Location) :
  let linkedFunction :=
    Command.linkedFunctionOf openTextDocument getSourceSymbol sourceDoc linkedLocation in
  let run :=
    Command.updateSignature openTextDocument getSourceSymbol normalizedReturnType
      returnTypeRange returnType applyEdit currentFunction sourceDoc linkedLocation in
  (mismatch currentFunction linkedFunction = true ->
   fst run = None
   /\ (exists message, List.last (snd run) (Command.OpenDocument "") = Command.AlertError message)
   /\ List.length (filter isAlert (snd run)) = 1
   /\ filter isApplyEdit (snd run) = [])
  /\ (mismatch currentFunction linkedFunction = false ->
      (exists applied, fst run = Some applied)
      /\ filter isAlert (snd run) = []
      /\ List.length (filter isApplyEdit (snd run)) = 1).
Proof.
  intros linkedFunction run. subst run. unfold Command.updateSignature.
  fold linkedFunction. unfold mismatch, complementaryRole.
  set (opened := if String.eqb (loc_uri linkedLocation) (SourceDocument.uri sourceDoc)
                 then [] else [Command.OpenDocument (loc_uri linkedLocation)]).
  assert (Ho1 : filter isAlert opened = [])
    by (subst opened; now destruct (String.eqb _ _)).
  assert (Ho2 : filter isApplyEdit opened = [])
    by (subst opened; now destruct (String.eqb _ _)).
  destruct (CSymbol.isFunctionDeclaration currentFunction);
    destruct linkedFunction as [linked|]; cbn [fst snd];
    rewrite ?filter_app, ?Ho1, ?Ho2, ?last_last; cbn [filter isAlert isApplyEdit app];
    try (destruct (negb _ || negb _)); cbn [fst snd];
    rewrite ?filter_app, ?Ho1, ?Ho2, ?last_last; cbn [filter isAlert isApplyEdit app List.length];
    (split; [intros H | intros H]); try discriminate; eauto 10.
Qed.

(** Witness of C9: the linked file has no symbol at the linked location. *)
Lemma C9_mismatch_alerts_witness :
  let run :=
    Command.updateSignature TextExamples.openTextDocument TextExamples.noSymbol
      TextExamples.signatureText TextExamples.signatureRange TextExamples.signatureText
      TextExamples.applyEdit FooExample.fooDeclaration TextExamples.fooHeader TextExamples.linkedLocation in
  fst run = None /\ filter isApplyEdit (snd run) = [].
Proof.
  destruct (proj1 (C9_mismatch_alerts TextExamples.openTextDocument TextExamples.noSymbol
                     TextExamples.signatureText TextExamples.signatureRange TextExamples.signatureText
                     TextExamples.applyEdit FooExample.fooDeclaration TextExamples.fooHeader
                     TextExamples.linkedLocation) eq_refl) as (H1 & _ & _ & H4).
  split; [exact H1 | exact H4].
Defined.

(* ====================================================================== *)
(** * Further properties of the code *)
(* ====================================================================== *)

(** ** getEndOfStatement, once more *)

Lemma countSemicolons_after (s : string) :
  countSemicolons (JS.skipn (countSemicolons s) s) = 0.
Proof.
  induction s as [|c s IH]; simpl; [reflexivity|].
  destruct (Ascii.eqb c ";") eqn:E; simpl; [exact IH | now rewrite E].
Qed.

Lemma trailingSemicolons_at_end (d : TextDocument) (p : Position) :
  trailingSemicolons d (getEndOfStatement d p) = 0.
Proof.
  rewrite getEndOfStatement_spec. unfold trailingSemicolons. cbn [line character].
  destruct (line p <? TextDocument.lineCount d); [|reflexivity].
  rewrite <- skipn_skipn. apply countSemicolons_after.
Qed.

Lemma getEndOfStatement_idempotent (d : TextDocument) (p : Position) :
  getEndOfStatement d (getEndOfStatement d p) = getEndOfStatement d p.
Proof.
  rewrite (getEndOfStatement_spec d (getEndOfStatement d p)), trailingSemicolons_at_end.
  rewrite Nat.add_0_r. now destruct (getEndOfStatement d p).
Qed.

(** X1: getEndOfStatement is idempotent, stays on the line of its argument,
    never moves backwards, and never moves past the end of the line a
    position that lies within the line. *)
Theorem X1_getEndOfStatement_idempotent (d : TextDocument) (p : Position) :
  let e := getEndOfStatement d p in
  getEndOfStatement d e = e
  /\ line e = line p
  /\ character p <= character e
  /\ character e <= Nat.max (character p) (String.length (TextDocument.lineText d (line p))).
Proof.
  intros e. subst e. split; [|split; [|split]].
  - apply getEndOfStatement_idempotent.
  - now rewrite getEndOfStatement_spec.
  - rewrite getEndOfStatement_spec. simpl. lia.
  - rewrite getEndOfStatement_spec. cbn [character].
    destruct (Nat.eq_dec (trailingSemicolons d p) 0) as [E|E]; [lia|].
    destruct (trailingSemicolons_inside d p ltac:(lia)). lia.
Qed.

(** ** The position after a sibling's definition *)

Lemma new_range_extended (symbol : SourceSymbol) (document : TextDocument) (parent : option CSymbol) :
  wellFormedRange (SourceSymbol.range symbol) ->
  end_ (CSymbol.range (CSymbol.new symbol document parent))
  = getEndOfStatement document (end_ (SourceSymbol.range symbol))
  /\ CSymbol.document (CSymbol.new symbol document parent) = document.
Proof.
  intros Hwf. destruct (new_is_build symbol document parent) as [parent' ->].
  rewrite build_range by exact Hwf. split; reflexivity.
Qed.

Lemma firstHit_origin
  (findDefinition : SourceSymbol -> option Location)
  (getSourceSymbol : string -> Position -> option SourceSymbol)
  (targetDoc : SourceDocument) (l : list SourceSymbol) (definition : CSymbol) :
  SiblingSearch.firstHit findDefinition getSourceSymbol targetDoc l = Some definition ->
  exists uri position sourceSymbol,
    getSourceSymbol uri position = Some sourceSymbol
    /\ definition = CSymbol.new sourceSymbol (SourceDocument.document targetDoc) None.
Proof.
  induction l as [|s l IH]; simpl; [discriminate|].
  unfold SiblingSearch.definitionIn at 1.
  destruct (findDefinition s) as [location|]; [|exact IH].
  destruct (String.eqb _ _); [|exact IH].
  destruct (getSourceSymbol _ _) as [sourceSymbol|] eqn:E; [|exact IH].
  intros [= <-]. eauto.
Qed.

(** X2: when a sibling before the declaration has its definition in the
    target document, the position proposed is the end of the range of that
    definition as the CSymbol holds it: the constructor has already moved
    the end past the semicolons, and the second call of getEndOfStatement
    in the search changes nothing. *)
Theorem X2_after_position_is_range_end
  (findDefinition : SourceSymbol -> option Location)
  (getSourceSymbol : string -> Position -> option SourceSymbol)
  (targetDoc : SourceDocument) (symbols : list SourceSymbol) (definition : CSymbol) :
  (forall uri position sourceSymbol,
      getSourceSymbol uri position = Some sourceSymbol ->
      wellFormedRange (SourceSymbol.range sourceSymbol)) ->
  SiblingSearch.firstHit findDefinition getSourceSymbol targetDoc symbols = Some definition ->
  fst (SourceDocument.searchBefore findDefinition getSourceSymbol targetDoc symbols)
  = Some (mkProposedPosition (end_ (CSymbol.range definition)) false true false false).
Proof.
  intros Hwf Hhit.
  destruct (searchBefore_spec findDefinition getSourceSymbol targetDoc symbols) as [H _].
  rewrite H, Hhit. cbn [option_map]. unfold positionAfter. do 2 f_equal.
  destruct (firstHit_origin _ _ _ _ _ Hhit) as (uri & position & sourceSymbol & Hs & ->).
  destruct (new_range_extended sourceSymbol (SourceDocument.document targetDoc) None
              (Hwf _ _ _ Hs)) as [-> _].
  apply getEndOfStatement_idempotent.
Qed.

Lemma SiblingExamples_wellFormed (uri : string) (position : Position) (sourceSymbol : SourceSymbol) :
  SiblingExamples.getSourceSymbol uri position = Some sourceSymbol ->
  wellFormedRange (SourceSymbol.range sourceSymbol).
Proof.
  unfold SiblingExamples.getSourceSymbol.
  destruct (String.eqb uri "a.cpp"); [|discriminate].
  destruct (line position) as [|[|n]]; [| |discriminate];
    intros [= <-]; left; right; simpl; lia.
Qed.

(** Witness of X2: the definition of [c] goes to the end of the definition
    of [b]. *)
Lemma X2_after_position_is_range_end_witness :
  fst (SourceDocument.searchBefore SiblingExamples.findDefinition SiblingExamples.getSourceSymbol
         SiblingExamples.sourceDoc [SiblingExamples.b; SiblingExamples.a])
  = Some (mkProposedPosition (mkPosition 1 11) false true false false).
Proof.
  exact (X2_after_position_is_range_end SiblingExamples.findDefinition
           SiblingExamples.getSourceSymbol SiblingExamples.sourceDoc
           [SiblingExamples.b; SiblingExamples.a] _ SiblingExamples_wellFormed eq_refl).
Defined.

(** ** The scan of the include lines *)

Section IncludeScan.

Lemma scanLine_keeps_system (i : nat) (text : string) (st : SourceDocument.IncludeScan) (r : Range) :
  SourceDocument.largestSystemIncludeBlock st = Some r ->
  SourceDocument.largestSystemIncludeBlock (SourceDocument.scanLine i text st) = Some r.
Proof.
  intros H. unfold SourceDocument.scanLine.
  destruct (negb _);
    [|destruct (SourceDocument.hasAngleGroup text); [|destruct (SourceDocument.hasQuoteGroup text)]];
    destruct (SourceDocument.systemIncludeStart st), (SourceDocument.projectIncludeStart st);
    cbn [SourceDocument.largestSystemIncludeBlock]; rewrite ?H; auto.
Qed.

Lemma scanLine_keeps_project (i : nat) (text : string) (st : SourceDocument.IncludeScan) (r : Range) :
  SourceDocument.largestProjectIncludeBlock st = Some r ->
  SourceDocument.largestProjectIncludeBlock (SourceDocument.scanLine i text st) = Some r.
Proof.
  intros H. unfold SourceDocument.scanLine.
  destruct (negb _);
    [|destruct (SourceDocument.hasAngleGroup text); [|destruct (SourceDocument.hasQuoteGroup text)]];
    destruct (SourceDocument.systemIncludeStart st), (SourceDocument.projectIncludeStart st);
    cbn [SourceDocument.largestProjectIncludeBlock]; rewrite ?H; auto.
Qed.

Lemma scanLines_keeps_system (lines : list string) :
  forall (i : nat) (st : SourceDocument.IncludeScan) (r : Range),
    SourceDocument.largestSystemIncludeBlock st = Some r ->
    SourceDocument.largestSystemIncludeBlock (SourceDocument.scanLines i lines st) = Some r.
Proof.
  induction lines as [|text lines IH]; intros i st r H; simpl; [exact H|].
  apply IH. now apply scanLine_keeps_system.
Qed.

Lemma scanLines_keeps_project (lines : list string) :
  forall (i : nat) (st : SourceDocument.IncludeScan) (r : Range),
    SourceDocument.largestProjectIncludeBlock st = Some r ->
    SourceDocument.largestProjectIncludeBlock (SourceDocument.scanLines i lines st) = Some r.
Proof.
  induction lines as [|text lines IH]; intros i st r H; simpl; [exact H|].
  apply IH. now apply scanLine_keeps_project.
Qed.

Lemma scanLines_app (l1 l2 : list string) :
  forall (i : nat) (st : SourceDocument.IncludeScan),
    SourceDocument.scanLines i (l1 ++ l2) st
    = SourceDocument.scanLines (i + List.length l1) l2 (SourceDocument.scanLines i l1 st).
Proof.
  induction l1 as [|text l1 IH]; intros i st; simpl.
  - now rewrite Nat.add_0_r.
  - rewrite IH. f_equal. lia.
Qed.

End IncludeScan.

(** X3: once the scan of the lines has closed a block of system includes,
    the end of that block is the position for system includes, whatever the
    lines that follow hold; the same for project includes.  No later block
    replaces the first one. *)
Theorem X3_first_closed_block_stays
  (executeSourceSymbolProvider : string -> list SourceSymbol) (this : SourceDocument)
  (pre post : list string) (r : Range) :
  SourceDocument.linesOf (SourceDocument.document this) = pre ++ post ->
  (SourceDocument.largestSystemIncludeBlock (SourceDocument.scanLines 0 pre emptyScan) = Some r ->
   exists p,
     SourceDocument.findPositionForNewInclude executeSourceSymbolProvider this
     = (Returns (SourceDocument.mkIncludePositions (end_ r) p), []))
  /\ (SourceDocument.largestProjectIncludeBlock (SourceDocument.scanLines 0 pre emptyScan) = Some r ->
      exists s,
        SourceDocument.findPositionForNewInclude executeSourceSymbolProvider this
        = (Returns (SourceDocument.mkIncludePositions s (end_ r)), [])).
Proof.
  intros Hlines. unfold SourceDocument.findPositionForNewInclude.
  rewrite Hlines. fold emptyScan. rewrite scanLines_app. split; intros H.
  - rewrite (scanLines_keeps_system post _ _ r H).
    destruct (SourceDocument.largestProjectIncludeBlock _); eexists; reflexivity.
  - rewrite (scanLines_keeps_project post _ _ r H).
    destruct (SourceDocument.largestSystemIncludeBlock _); eexists; reflexivity.
Qed.

(** Witness of X3: the first block of the file with two blocks. *)
Lemma X3_first_closed_block_stays_witness :
  exists p,
    SourceDocument.findPositionForNewInclude SiblingExamples.provider
      (SourceDocument.mk TextExamples.includesDoc None)
    = (Returns (SourceDocument.mkIncludePositions (mkPosition 1 0) p), []).
Proof.
  exact (proj1 (X3_first_closed_block_stays SiblingExamples.provider
                  (SourceDocument.mk TextExamples.includesDoc None)
                  ["#include <a>"; ""] ["#include <b>"; "#include <c>"; "int x;"]
                  (Examples.range 0 0 1 0) eq_refl) eq_refl).
Defined.

Section IncludeInvariant.

Lemma openBefore_mono (i j : nat) (start : option Position) :
  i <= j -> openBefore i start -> openBefore j start.
Proof. destruct start; simpl; [|auto]. lia. Qed.

Lemma closedBefore_mono (i j : nat) (block : option Range) :
  i <= j -> closedBefore i block -> closedBefore j block.
Proof. destruct block; simpl; [|auto]. lia. Qed.

Lemma largestBlock_closed (i : nat) (p : Position) (largest : option Range) :
  openBefore i (Some p) -> closedBefore i largest ->
  closedBefore (S i)
    (Some (SourceDocument.largestBlock (TextDocument.lineRangeStart i) p largest)).
Proof.
  intros [Hc Hl] Hlargest. unfold SourceDocument.largestBlock.
  destruct largest as [r|].
  - cbn [SourceDocument.rangeGreaterThan]. now apply closedBefore_mono with (i := i); [lia|].
  - unfold Range.new, TextDocument.lineRangeStart.
    destruct (Position.isBefore (mkPosition i 0) p) eqn:E.
    + apply isBefore_lt in E. unfold Position.lt in E. simpl in E. lia.
    + simpl. lia.
Qed.

Lemma scanLine_invariant (i : nat) (text : string) (st : SourceDocument.IncludeScan) :
  scanInvariant i st -> scanInvariant (S i) (SourceDocument.scanLine i text st).
Proof.
  intros (H1 & H2 & H3 & H4).
  assert (Hnew : openBefore (S i) (Some (TextDocument.lineRangeStart i)))
    by (simpl; lia).
  pose proof (openBefore_mono i (S i) _ ltac:(lia) H1) as H1'.
  pose proof (openBefore_mono i (S i) _ ltac:(lia) H2) as H2'.
  pose proof (closedBefore_mono i (S i) _ ltac:(lia) H3) as H3'.
  pose proof (closedBefore_mono i (S i) _ ltac:(lia) H4) as H4'.
  unfold SourceDocument.scanLine.
  destruct (negb _);
    [|destruct (SourceDocument.hasAngleGroup text); [|destruct (SourceDocument.hasQuoteGroup text)]];
    destruct (SourceDocument.systemIncludeStart st) as [s|] eqn:Es;
    destruct (SourceDocument.projectIncludeStart st) as [p|] eqn:Ep;
    unfold scanInvariant;
    cbn [SourceDocument.systemIncludeStart SourceDocument.projectIncludeStart
         SourceDocument.largestSystemIncludeBlock SourceDocument.largestProjectIncludeBlock];
    rewrite ?Es, ?Ep;
    refine (conj _ (conj _ (conj _ _)));
    try exact H1'; try exact H2'; try exact H3'; try exact H4'; try exact Hnew; try exact I;
    try (apply largestBlock_closed; assumption).
Qed.

Lemma scanLines_invariant (lines : list string) :
  forall (i : nat) (st : SourceDocument.IncludeScan),
    scanInvariant i st ->
    scanInvariant (i + List.length lines) (SourceDocument.scanLines i lines st).
Proof.
  induction lines as [|text lines IH]; intros i st H; simpl.
  - now rewrite Nat.add_0_r.
  - replace (i + S (List.length lines)) with (S i + List.length lines) by lia.
    apply IH. now apply scanLine_invariant.
Qed.

Lemma linesOf_length (d : TextDocument) :
  List.length (SourceDocument.linesOf d) = TextDocument.lineCount d.
Proof.
  unfold SourceDocument.linesOf, TextDocument.lineCount.
  destruct (TextDocument.lines d); simpl; lia.
Qed.

End IncludeInvariant.

(** X4: when the scan has closed a block of includes, of either kind, both
    positions that findPositionForNewInclude returns are at the start of a
    line of the document other than the first line (the line that closed
    the block), and no collaborator is asked. *)
Theorem X4_include_positions_at_line_start
  (executeSourceSymbolProvider : string -> list SourceSymbol) (this : SourceDocument) :
  let st := SourceDocument.scanLines 0 (SourceDocument.linesOf (SourceDocument.document this))
              emptyScan in
  SourceDocument.largestSystemIncludeBlock st <> None
  \/ SourceDocument.largestProjectIncludeBlock st <> None ->
  exists s p,
    SourceDocument.findPositionForNewInclude executeSourceSymbolProvider this
    = (Returns (SourceDocument.mkIncludePositions s p), [])
    /\ character s = 0 /\ character p = 0
    /\ 1 <= line s < TextDocument.lineCount (SourceDocument.document this)
    /\ 1 <= line p < TextDocument.lineCount (SourceDocument.document this).
Proof.
  intros st Hsome.
  assert (H0 : scanInvariant 0 emptyScan) by (repeat split).
  pose proof (scanLines_invariant (SourceDocument.linesOf (SourceDocument.document this))
                0 emptyScan H0) as Hinv.
  rewrite linesOf_length in Hinv. simpl in Hinv. fold st in Hinv.
  destruct Hinv as (_ & _ & H3 & H4).
  unfold SourceDocument.findPositionForNewInclude. fold emptyScan. fold st.
  destruct (SourceDocument.largestSystemIncludeBlock st) as [s|];
    destruct (SourceDocument.largestProjectIncludeBlock st) as [p|];
    simpl in H3, H4.
  - exists (end_ s), (end_ p). repeat split; lia.
  - exists (end_ s), (end_ s). repeat split; lia.
  - exists (end_ p), (end_ p). repeat split; lia.
  - destruct Hsome; congruence.
Qed.

(** Witness of X4: the file with two blocks of system includes. *)
Lemma X4_include_positions_at_line_start_witness :
  exists s p,
    SourceDocument.findPositionForNewInclude SiblingExamples.provider
      (SourceDocument.mk TextExamples.includesDoc None)
    = (Returns (SourceDocument.mkIncludePositions s p), [])
    /\ character s = 0 /\ character p = 0.
Proof.
  assert (H : SourceDocument.largestSystemIncludeBlock
                (SourceDocument.scanLines 0
                   (SourceDocument.linesOf TextExamples.includesDoc) emptyScan)
              <> None)
    by (vm_compute; discriminate).
  destruct (X4_include_positions_at_line_start SiblingExamples.provider
              (SourceDocument.mk TextExamples.includesDoc None) (or_introl H))
    as (s & p & H1 & H2 & H3 & _).
  exists s, p. auto.
Defined.

Section UnclosedBlock.

Lemma include_line_not_blank (text : string) :
  SourceDocument.isIncludeLine (JS.trim text) = true ->
  TextDocument.isEmptyOrWhitespace text = false.
Proof.
  intros H. unfold TextDocument.isEmptyOrWhitespace.
  destruct (JS.trimStart text) eqn:E; [|reflexivity].
  unfold JS.trim in H. rewrite E in H. discriminate.
Qed.

Lemma scanLine_system_only (i : nat) (text : string) (st : SourceDocument.IncludeScan) :
  isSystemIncludeLine text = true ->
  SourceDocument.projectIncludeStart st = None ->
  SourceDocument.largestSystemIncludeBlock st = None ->
  SourceDocument.largestProjectIncludeBlock st = None ->
  let st' := SourceDocument.scanLine i text st in
  SourceDocument.projectIncludeStart st' = None
  /\ SourceDocument.largestSystemIncludeBlock st' = None
  /\ SourceDocument.largestProjectIncludeBlock st' = None.
Proof.
  unfold isSystemIncludeLine. intros H Hp Hs Hl. apply andb_true_iff in H as [H1 H2].
  unfold SourceDocument.scanLine. rewrite H1, H2, Hp. cbn [negb]. auto.
Qed.

Lemma scanLines_system_only (lines : list string) :
  forall (i : nat) (st : SourceDocument.IncludeScan),
    forallb isSystemIncludeLine lines = true ->
    SourceDocument.projectIncludeStart st = None ->
    SourceDocument.largestSystemIncludeBlock st = None ->
    SourceDocument.largestProjectIncludeBlock st = None ->
    SourceDocument.largestSystemIncludeBlock (SourceDocument.scanLines i lines st) = None
    /\ SourceDocument.largestProjectIncludeBlock (SourceDocument.scanLines i lines st) = None.
Proof.
  induction lines as [|text lines IH]; intros i st H Hp Hs Hl; simpl; [auto|].
  simpl in H. apply andb_true_iff in H as [H1 H2].
  destruct (scanLine_system_only i text st H1 Hp Hs Hl) as (Hp' & Hs' & Hl').
  now apply IH.
Qed.

Lemma lastNonEmptyLineBelow_last (d : TextDocument) (n : nat) :
  TextDocument.isEmptyOrWhitespace (TextDocument.lineText d n) = false ->
  SourceDocument.lastNonEmptyLineBelow d (S n) = Some n.
Proof. intros H. simpl. now rewrite H. Qed.

End UnclosedBlock.

(** X5: a block of includes that runs to the last line of the document is
    never closed, so for a document all of whose lines are system includes
    the scan finds no block at all: with no symbol in the document, both
    positions are the end of the last line. *)
Theorem X5_only_includes_found_no_block
  (executeSourceSymbolProvider : string -> list SourceSymbol) (this : SourceDocument) :
  let d := SourceDocument.document this in
  TextDocument.lines d <> [] ->
  forallb isSystemIncludeLine (TextDocument.lines d) = true ->
  match SourceDocument.symbols this with
  | Some l => l
  | None => executeSourceSymbolProvider (SourceDocument.uri this)
  end = [] ->
  let lastLineEnd := TextDocument.lineRangeEnd d (TextDocument.lineCount d - 1) in
  fst (SourceDocument.findPositionForNewInclude executeSourceSymbolProvider this)
  = Returns (SourceDocument.mkIncludePositions lastLineEnd lastLineEnd).
Proof.
  intros d Hne Hall Hsymbols lastLineEnd.
  unfold SourceDocument.findPositionForNewInclude. fold d.
  assert (Hlines : SourceDocument.linesOf d = TextDocument.lines d)
    by (unfold SourceDocument.linesOf; destruct (TextDocument.lines d); congruence).
  rewrite Hlines.
  destruct (scanLines_system_only (TextDocument.lines d) 0
              (SourceDocument.mkIncludeScan None None None None) Hall eq_refl eq_refl eq_refl)
    as [-> ->].
  rewrite fst_bind.
  assert (Hlast : TextDocument.isEmptyOrWhitespace
                    (TextDocument.lineText d (TextDocument.lineCount d - 1)) = false).
  { apply include_line_not_blank. rewrite forallb_forall in Hall.
    assert (Hin : In (TextDocument.lineText d (TextDocument.lineCount d - 1))
                    (TextDocument.lines d))
      by (apply nth_In; unfold TextDocument.lineCount;
          destruct (TextDocument.lines d); [congruence | simpl; lia]).
    specialize (Hall _ Hin). unfold isSystemIncludeLine in Hall.
    now apply andb_true_iff in Hall as [? _]. }
  pose proof (lineCount_pos d) as Hpos.
  destruct (SourceDocument.symbols this); cbn [ret await fst] in *; rewrite Hsymbols;
    (destruct (Nat.leb_spec (TextDocument.lineCount d) (TextDocument.lineCount d - 1)) as [H|H];
     [lia|]; now rewrite lastNonEmptyLineBelow_last).
Qed.

(** Witness of X5: the file with two system includes and no symbol. *)
Lemma X5_only_includes_found_no_block_witness :
  fst (SourceDocument.findPositionForNewInclude SiblingExamples.provider
         (SourceDocument.mk IncludeExamples.onlyIncludesDoc (Some [])))
  = Returns (SourceDocument.mkIncludePositions (mkPosition 1 12) (mkPosition 1 12)).
Proof.
  exact (X5_only_includes_found_no_block SiblingExamples.provider
           (SourceDocument.mk IncludeExamples.onlyIncludesDoc (Some []))
           ltac:(discriminate) eq_refl eq_refl).
Defined.

(** ** bodyStart *)

Section BodyStart.

Lemma positionAtIn_line (eol : nat) (ls : list string) :
  forall ln off, ln <= line (TextDocument.positionAtIn eol ls ln off).
Proof.
  induction ls as [|x ls IH]; intros ln off; [simpl; lia|].
  destruct ls as [|y ls]; [simpl; lia|].
  change (TextDocument.positionAtIn eol (x :: y :: ls) ln off)
    with (if off <? String.length x + eol
          then mkPosition ln (Nat.min off (String.length x))
          else TextDocument.positionAtIn eol (y :: ls) (S ln) (off - (String.length x + eol))).
  destruct (off <? String.length x + eol); [simpl; lia|].
  specialize (IH (S ln) (off - (String.length x + eol))). lia.
Qed.

Lemma positionAtIn_ge (eol : nat) (ls : list string) :
  forall ln off l c,
    l < Nat.max 1 (List.length ls) ->
    c <= String.length (nth l ls "") ->
    TextDocument.lineStartIn eol ls l + c <= off ->
    Position.le (mkPosition (ln + l) c) (TextDocument.positionAtIn eol ls ln off).
Proof.
  induction ls as [|x ls IH]; intros ln off l c Hl Hc Hoff; apply le_coords.
  - simpl in *. destruct l; simpl in *; lia.
  - destruct ls as [|y ls].
    + simpl in Hl. assert (l = 0) by lia. subst l. simpl in *. lia.
    + change (TextDocument.positionAtIn eol (x :: y :: ls) ln off)
        with (if off <? String.length x + eol
              then mkPosition ln (Nat.min off (String.length x))
              else TextDocument.positionAtIn eol (y :: ls) (S ln) (off - (String.length x + eol))).
      destruct l as [|l].
      * simpl in Hc, Hoff. destruct (Nat.ltb_spec off (String.length x + eol)).
        -- simpl. lia.
        -- pose proof (positionAtIn_line eol (y :: ls) (S ln) (off - (String.length x + eol))).
           cbn [line character]. lia.
      * change (TextDocument.lineStartIn eol (x :: y :: ls) (S l))
          with (String.length x + eol + TextDocument.lineStartIn eol (y :: ls) l) in Hoff.
        destruct (Nat.ltb_spec off (String.length x + eol)); [lia|].
        assert (Hl' : l < Nat.max 1 (List.length (y :: ls))) by (simpl in *; lia).
        specialize (IH (S ln) (off - (String.length x + eol)) l c Hl' Hc ltac:(lia)).
        apply le_coords in IH. cbn [line character] in *. lia.
Qed.

(** An offset at or after the offset of a position is at or after the
    position, once validated. *)
Lemma positionAt_ge (d : TextDocument) (off : nat) (p : Position) :
  TextDocument.offsetAt d p <= off ->
  Position.le (TextDocument.validatePosition d p) (TextDocument.positionAt d off).
Proof.
  intros H. pose proof (validatePosition_character d p) as Hc.
  pose proof (validatePosition_line d p) as Hl.
  unfold TextDocument.offsetAt, TextDocument.lineStart in H.
  destruct (TextDocument.validatePosition d p) as [l c]; simpl in *.
  apply (positionAtIn_ge _ _ 0 off l c); assumption.
Qed.

Lemma search_bound (p : string -> bool) (s : string) :
  p "" = false ->
  forall pos i, Re.search p s pos = Some i -> pos <= i < pos + String.length s.
Proof.
  intros Hp. induction s as [|c s IH]; intros pos i H; simpl in H.
  - rewrite Hp in H. discriminate.
  - destruct (p (String c s)).
    + injection H as <-. simpl. lia.
    + apply IH in H. simpl. lia.
Qed.

Lemma length_substringFrom (s : string) (a : Z) :
  (0 <= a)%Z ->
  String.length (JS.substringFrom s a) <= String.length s - Z.to_nat a.
Proof.
  intros Ha. unfold JS.substringFrom, JS.substring, JS.length. rewrite length_substring.
  rewrite !Z.max_r by lia. rewrite Nat2Z.id. lia.
Qed.

Lemma length_js_substring (s : string) (a b : Z) :
  (0 <= a <= b)%Z ->
  String.length (JS.substring s a b) <= Z.to_nat b - Z.to_nat a.
Proof.
  intros Hab. unfold JS.substring. rewrite length_substring.
  rewrite !Z.max_r by lia. lia.
Qed.

Lemma length_text (this : CSymbol) :
  String.length (CSymbol.text this)
  <= TextDocument.offsetAt (CSymbol.document this) (end_ (CSymbol.range this))
     - TextDocument.offsetAt (CSymbol.document this) (start (CSymbol.range this)).
Proof. unfold CSymbol.text, TextDocument.getText. rewrite length_substring. lia. Qed.

End BodyStart.

Lemma getText_split (d : TextDocument) (a b c : Position) :
  Position.le a b -> Position.le b c ->
  TextDocument.getText d (Range.new a c)
  = TextDocument.getText d (Range.new a b) +++ TextDocument.getText d (Range.new b c).
Proof.
  intros Hab Hbc.
  rewrite !new_ordered by (try assumption; eapply le_trans; eassumption).
  unfold TextDocument.getText. cbn [start end_].
  pose proof (offsetAt_mono d a b Hab). pose proof (offsetAt_mono d b c Hbc).
  replace (TextDocument.offsetAt d c - TextDocument.offsetAt d a)
    with ((TextDocument.offsetAt d b - TextDocument.offsetAt d a)
          + (TextDocument.offsetAt d c - TextDocument.offsetAt d b)) by lia.
  rewrite substring_split.
  replace (TextDocument.offsetAt d a + (TextDocument.offsetAt d b - TextDocument.offsetAt d a))
    with (TextDocument.offsetAt d b) by lia.
  reflexivity.
Qed.


(** Where [bodyStart] lies, for a symbol whose name ends within its range. *)
Lemma bodyStart_between (this : CSymbol) (declaration : option CSymbol) :
  Position.le (start (CSymbol.range this)) (end_ (CSymbol.selectionRange this)) ->
  Position.le (end_ (CSymbol.selectionRange this)) (end_ (CSymbol.range this)) ->
  Position.le
    (TextDocument.validatePosition (CSymbol.document this) (end_ (CSymbol.selectionRange this)))
    (CSymbol.bodyStart this declaration)
  /\ Position.le (CSymbol.bodyStart this declaration) (end_ (CSymbol.range this)).
Proof.
  intros Hstart Hend.
  set (d := CSymbol.document this).
  set (so := TextDocument.offsetAt d (start (CSymbol.range this))).
  set (osel := TextDocument.offsetAt d (end_ (CSymbol.selectionRange this))).
  set (oe := TextDocument.offsetAt d (end_ (CSymbol.range this))).
  assert (Hso : so <= osel) by (apply offsetAt_mono; exact Hstart).
  assert (Hatend :
    Position.le (TextDocument.validatePosition d (end_ (CSymbol.selectionRange this)))
      (end_ (CSymbol.range this))
    /\ Position.le (end_ (CSymbol.range this)) (end_ (CSymbol.range this))).
  { split; [|apply le_refl]. eapply le_trans; [apply validatePosition_le | exact Hend]. }
  unfold CSymbol.bodyStart. fold d so osel.
  set (maskedText := util.maskParentheses (util.maskQuotes (CSymbol.parsableText this) true) true).
  set (nameEndIndex := (Z.of_nat osel - Z.of_nat so)%Z).
  assert (Hname : (0 <= nameEndIndex)%Z) by (subst nameEndIndex; lia).
  assert (Hlen : String.length maskedText <= oe - so).
  { subst maskedText. unfold util.maskParentheses.
    rewrite length_maskBalanced, length_maskQuotes. unfold CSymbol.parsableText.
    rewrite length_maskComments. apply length_text. }
  assert (Hat : forall i,
             i < String.length (JS.substringFrom maskedText nameEndIndex) ->
             let p := TextDocument.positionAt d
                        (Z.to_nat (Z.of_nat so + nameEndIndex + Z.of_nat i)) in
             Position.le
               (TextDocument.validatePosition d (end_ (CSymbol.selectionRange this))) p
             /\ Position.le p (end_ (CSymbol.range this))).
  { intros i Hi p. subst p.
    replace (Z.to_nat (Z.of_nat so + nameEndIndex + Z.of_nat i)) with (osel + i)
      by (subst nameEndIndex; lia).
    pose proof (length_substringFrom maskedText nameEndIndex Hname) as Hsub.
    split; [apply positionAt_ge; fold osel; lia|].
    left. apply positionAt_lt. fold oe. subst nameEndIndex. lia. }
  destruct (Re.search Re.spacesThenBrace (JS.substringFrom maskedText nameEndIndex) 0)
    as [[|b]|] eqn:Hb; [exact Hatend | | exact Hatend].
  apply search_bound in Hb; [|reflexivity].
  destruct (negb (CSymbol.isConstructor this) && negb _); [apply Hat; lia|].
  destruct (Re.search Re.spacesThenColon _ 0) as [[|i]|] eqn:Hi; [apply Hat; lia | | apply Hat; lia].
  apply search_bound in Hi; [|reflexivity].
  pose proof (length_js_substring maskedText nameEndIndex (Z.of_nat (S b) + nameEndIndex)
                ltac:(lia)) as Hsub.
  apply Hat. lia.
Qed.

(** X6: for a symbol whose name ends within its range, bodyStart returns a
    position that is not before the end of the name and not after the end
    of the range: the declaration part that newFunctionDeclaration and
    formatDeclarationForNewDefinition read ends inside the symbol. *)
Theorem X6_bodyStart_between (this : CSymbol) (declaration : option CSymbol) :
  Position.le (start (CSymbol.range this)) (end_ (CSymbol.selectionRange this)) ->
  Position.le (end_ (CSymbol.selectionRange this)) (end_ (CSymbol.range this)) ->
  Position.le
    (TextDocument.validatePosition (CSymbol.document this) (end_ (CSymbol.selectionRange this)))
    (CSymbol.bodyStart this declaration)
  /\ Position.le (CSymbol.bodyStart this declaration) (end_ (CSymbol.range this)).
Proof. apply bodyStart_between. Qed.

(** Witness of X6: the definition of [foo], whose body starts after its
    parameters. *)
Lemma X6_bodyStart_between_witness :
  Position.le (mkPosition 0 8)
    (CSymbol.bodyStart (TextExamples.fooDefinition "void foo(int x)" false) None)
  /\ Position.le (CSymbol.bodyStart (TextExamples.fooDefinition "void foo(int x)" false) None)
       (mkPosition 1 1).
Proof.
  exact (X6_bodyStart_between (TextExamples.fooDefinition "void foo(int x)" false) None
           ltac:(left; right; simpl; lia) ltac:(left; left; simpl; lia)).
Defined.

(** ** newFunctionDeclaration *)

Lemma trimEnd_idempotent (s : string) : JS.trimEnd (JS.trimEnd s) = JS.trimEnd s.
Proof.
  induction s as [|c s IH]; [reflexivity|]. cbn [JS.trimEnd].
  destruct (JS.trimEnd s) as [|c' t] eqn:E.
  - destruct (JS.isSpace c) eqn:Hc; [reflexivity|]. simpl. now rewrite Hc.
  - change (JS.trimEnd (String c (String c' t)))
      with (match JS.trimEnd (String c' t) with
            | EmptyString => if JS.isSpace c then EmptyString else String c EmptyString
            | String a u => String c (String a u)
            end).
    now rewrite IH.
Qed.

Lemma append_not_empty (s t : string) : t <> "" -> s +++ t <> "".
Proof. destruct s; simpl; [auto | discriminate]. Qed.

(** X7: newFunctionDeclaration returns the empty string exactly for the
    symbols that are not function definitions.  For a function definition
    whose name lies within its range, at a position of the document, the
    declaration is made of the definition's own text: the full text is a
    declaration part followed by the rest, and newFunctionDeclaration is
    the declaration part without the white space at its end, followed by a
    semicolon. *)
Theorem X7_newFunctionDeclaration_shape (this : CSymbol) :
  (CSymbol.newFunctionDeclaration this = "" <-> CSymbol.isFunctionDefinition this = false)
  /\ (CSymbol.isFunctionDefinition this = true ->
      Position.le (start (CSymbol.range this)) (end_ (CSymbol.selectionRange this)) ->
      Position.le (end_ (CSymbol.selectionRange this)) (end_ (CSymbol.range this)) ->
      TextDocument.validatePosition (CSymbol.document this) (end_ (CSymbol.selectionRange this))
      = end_ (CSymbol.selectionRange this) ->
      exists declarationPart rest,
        CSymbol.getFullText this = declarationPart +++ rest
        /\ CSymbol.newFunctionDeclaration this = JS.trimEnd declarationPart +++ ";").
Proof.
  unfold CSymbol.newFunctionDeclaration.
  destruct (CSymbol.isFunctionDefinition this); cbn [negb]; split.
  - split; [intros H | discriminate]. now apply append_not_empty in H.
  - intros _ Hstart Hend Hvalid.
    destruct (bodyStart_between this None Hstart Hend) as [Hbody1 Hbody2].
    rewrite Hvalid in Hbody1.
    assert (Htrue : Position.le (CSymbol.getTrueStart this) (CSymbol.bodyStart this None)).
    { eapply le_trans; [apply getTrueStart_le|]. eapply le_trans; eassumption. }
    exists (TextDocument.getText (CSymbol.document this)
              (Range.new (CSymbol.getTrueStart this) (CSymbol.bodyStart this None))),
           (TextDocument.getText (CSymbol.document this)
              (Range.new (CSymbol.bodyStart this None) (end_ (CSymbol.range this)))).
    split; [|reflexivity].
    unfold CSymbol.getFullText, CSymbol.getFullRange. now apply getText_split.
  - split; reflexivity.
  - discriminate.
Qed.

(** Witness of X7: the definition of [foo]. *)
Lemma X7_newFunctionDeclaration_shape_witness :
  exists declarationPart rest,
    CSymbol.getFullText (TextExamples.fooDefinition "void foo(int x)" true)
    = declarationPart +++ rest
    /\ CSymbol.newFunctionDeclaration (TextExamples.fooDefinition "void foo(int x)" true)
       = JS.trimEnd declarationPart +++ ";".
Proof.
  assert (H1 : Position.le
                 (start (CSymbol.range (TextExamples.fooDefinition "void foo(int x)" true)))
                 (end_ (CSymbol.selectionRange (TextExamples.fooDefinition "void foo(int x)" true))))
    by (apply le_coords; vm_compute; lia).
  assert (H2 : Position.le
                 (end_ (CSymbol.selectionRange (TextExamples.fooDefinition "void foo(int x)" true)))
                 (end_ (CSymbol.range (TextExamples.fooDefinition "void foo(int x)" true))))
    by (apply le_coords; vm_compute; lia).
  exact (proj2 (X7_newFunctionDeclaration_shape
                  (TextExamples.fooDefinition "void foo(int x)" true))
           eq_refl H1 H2 eq_refl).
Defined.

(** ** stripDefaultValues *)

Section StripDefaultValues.

Lemma isMaskOf_refl (s : string) : isMaskOf s s = true.
Proof. induction s as [|c s IH]; simpl; [reflexivity|]. now rewrite Ascii.eqb_refl, IH. Qed.

Lemma isMaskOf_trans (a b c : string) :
  isMaskOf a b = true -> isMaskOf b c = true -> isMaskOf a c = true.
Proof.
  revert b c; induction a as [|x a IH]; intros [|y b] [|z c]; simpl; try discriminate; auto.
  rewrite !andb_true_iff, !orb_true_iff. intros [H1 H2] [H3 H4]. split; [|eauto].
  destruct H3 as [H3|H3]; [|now right].
  apply Ascii.eqb_eq in H3. subst z. exact H1.
Qed.

Lemma isMaskOf_maskWith (spanAt : string -> nat * nat) (s : string) :
  forall keep mask, isMaskOf s (util.maskWith spanAt keep mask s) = true.
Proof.
  induction s as [|c s IH]; intros keep mask; [reflexivity|].
  cbn [util.maskWith].
  destruct keep; [destruct mask; [destruct (spanAt (String c s)) as [[|k] [|m]]|]|];
    cbn [isMaskOf]; rewrite IH, ?Ascii.eqb_refl, ?orb_true_r; reflexivity.
Qed.

Lemma isMaskOf_maskedParameters (parameters : string) :
  isMaskOf parameters (CSymbol.maskedParametersOf parameters) = true.
Proof.
  unfold CSymbol.maskedParametersOf, util.maskComparisonOperators, util.maskBrackets,
    util.maskBraces, util.maskAngleBrackets, util.maskParentheses, util.maskBalanced,
    util.maskQuotes, util.maskComments.
  repeat (eapply isMaskOf_trans; [|apply isMaskOf_maskWith]).
  apply isMaskOf_refl.
Qed.

Lemma split_cons (sep : ascii) (s : string) :
  exists piece rest, JS.split sep s = piece :: rest.
Proof.
  induction s as [|c s (piece & rest & IH)]; simpl; [eauto|].
  destruct (Ascii.eqb c sep); [eauto|]. rewrite IH. eauto.
Qed.

Lemma indexOfNat_equals_step (c : ascii) (s : string) (pos : nat) :
  JS.indexOfNat "=" (String c s) pos
  = if isEquals c then Some pos else JS.indexOfNat "=" s (S pos).
Proof.
  cbn [JS.indexOfNat JS.startsWith]. unfold isEquals. rewrite (Ascii.eqb_sym c "=").
  destruct (Ascii.eqb "=" c); reflexivity.
Qed.

Lemma indexOfNat_equals (s : string) :
  forall pos,
    JS.indexOfNat "=" s pos = None <-> Re.containsChar isEquals s = false.
Proof.
  induction s as [|c s IH]; intros pos; [split; reflexivity|].
  rewrite indexOfNat_equals_step. cbn [Re.containsChar].
  destruct (isEquals c); cbn [orb]; [split; discriminate | apply IH].
Qed.

Lemma includes_equals (s : string) :
  JS.includes s "=" = Re.containsChar isEquals s.
Proof.
  unfold JS.includes, JS.indexOf, JS.indexOfFrom. simpl.
  pose proof (indexOfNat_equals s 0) as H.
  destruct (JS.indexOfNat "=" s 0) as [i|]; destruct (Re.containsChar isEquals s).
  - apply negb_true_iff, Z.eqb_neq. lia.
  - discriminate (proj2 H eq_refl).
  - discriminate (proj1 H eq_refl).
  - reflexivity.
Qed.

Lemma containsChar_app (p : ascii -> bool) (s t : string) :
  Re.containsChar p (s +++ t) = Re.containsChar p s || Re.containsChar p t.
Proof. induction s as [|c s IH]; simpl; [reflexivity|]. now rewrite IH, orb_assoc. Qed.

Lemma append_assoc (a b c : string) : (a +++ b) +++ c = a +++ b +++ c.
Proof. induction a as [|x a IH]; simpl; [reflexivity | now rewrite IH]. Qed.

Lemma append_empty_r (a : string) : a +++ "" = a.
Proof. induction a as [|x a IH]; simpl; [reflexivity | now rewrite IH]. Qed.

Lemma substring_all (s : string) : String.substring 0 (String.length s) s = s.
Proof. induction s as [|c s IH]; simpl; [reflexivity | now rewrite IH]. Qed.

Lemma substring_middle (pre cur rest : string) :
  String.substring (String.length pre) (String.length cur) (pre +++ cur +++ rest) = cur.
Proof.
  rewrite <- (Nat.add_0_r (String.length pre)), substring_append_right.
  rewrite substring_append_left by lia. apply substring_all.
Qed.

Lemma js_substring_middle (pre cur rest : string) (n : nat) :
  n = String.length cur ->
  JS.substring (pre +++ cur +++ rest) (Z.of_nat (String.length pre))
    (Z.of_nat (String.length pre) + Z.of_nat n)
  = cur.
Proof.
  intros ->. unfold JS.substring.
  rewrite !Z.max_r by lia. rewrite Nat2Z.id.
  replace (Z.to_nat (Z.of_nat (String.length pre) + Z.of_nat (String.length cur)))
    with (String.length pre + String.length cur) by lia.
  rewrite Nat.min_l, Nat.max_r by lia.
  replace (String.length pre + String.length cur - String.length pre)
    with (String.length cur) by lia.
  apply substring_middle.
Qed.

Lemma stripDefaultValues_loop_step
  (parameters parameter : string) (rest : list string) (charPos : Z) (acc : string) :
  Re.containsChar isEquals parameter = false ->
  CSymbol.stripDefaultValues_loop parameters (parameter :: rest) charPos acc
  = CSymbol.stripDefaultValues_loop parameters rest (charPos + JS.length parameter + 1)
      (acc +++ JS.substring parameters charPos (charPos + JS.length parameter) +++ ",").
Proof. intros H. cbn [CSymbol.stripDefaultValues_loop]. now rewrite includes_equals, H. Qed.

(** The loop over the pieces gives back the parameters, piece by piece,
    when no piece holds an equals sign.  [cur] is the part of the current
    piece that lies before [p], [curm] its masked text. *)
Lemma stripDefaultValues_loop_identity (p : string) :
  forall (m pre cur curm acc piece : string) (rest : list string),
    isMaskOf p m = true ->
    Re.containsChar isEquals m = false ->
    Re.containsChar isEquals curm = false ->
    String.length curm = String.length cur ->
    JS.split "," m = piece :: rest ->
    CSymbol.stripDefaultValues_loop (pre +++ cur +++ p) ((curm +++ piece) :: rest)
      (Z.of_nat (String.length pre)) acc
    = acc +++ cur +++ p +++ ",".
Proof.
  induction p as [|c p IH]; intros m pre cur curm acc piece rest Hmask Hm Hcurm Hlen Hsplit.
  - destruct m; [|discriminate]. simpl in Hsplit. injection Hsplit as <- <-.
    rewrite (append_empty_r curm), stripDefaultValues_loop_step by exact Hcurm.
    cbn [CSymbol.stripDefaultValues_loop]. unfold JS.length. rewrite Hlen.
    now rewrite (js_substring_middle pre cur "" (String.length cur) eq_refl).
  - destruct m as [|c' m]; [discriminate|].
    cbn [isMaskOf Re.containsChar JS.split] in Hmask, Hm, Hsplit.
    apply andb_true_iff in Hmask as [Hc Hmask]. apply orb_false_iff in Hm as [Hc' Hm].
    destruct (split_cons "," m) as (piece' & rest' & Hs). rewrite Hs in Hsplit.
    destruct (Ascii.eqb_spec c' ",") as [->|Hne].
    + injection Hsplit as <- <-.
      assert (c = ","%char) as ->.
      { apply orb_true_iff in Hc as [Hc|Hc]; [now apply Ascii.eqb_eq in Hc | discriminate]. }
      rewrite (append_empty_r curm), stripDefaultValues_loop_step by exact Hcurm.
      unfold JS.length at 1 2. rewrite Hlen.
      rewrite (js_substring_middle pre cur (String "," p) (String.length cur) eq_refl).
      specialize (IH m (pre +++ cur +++ ",") "" "" (acc +++ cur +++ ",") piece' rest'
                    Hmask Hm eq_refl eq_refl Hs).
      cbn [String.append] in IH.
      replace (Z.of_nat (String.length pre) + Z.of_nat (String.length cur) + 1)%Z
        with (Z.of_nat (String.length (pre +++ cur +++ ",")))
        by (rewrite !length_append; simpl; lia).
      replace (pre +++ cur +++ String "," p) with ((pre +++ cur +++ ",") +++ p)
        by (rewrite !append_assoc; reflexivity).
      rewrite IH, !append_assoc. reflexivity.
    + injection Hsplit as <- <-.
      specialize (IH m pre (cur +++ String c "") (curm +++ String c' "") acc piece' rest'
                    Hmask Hm).
      rewrite containsChar_app in IH. cbn [Re.containsChar] in IH.
      rewrite Hcurm, Hc' in IH.
      rewrite !length_append in IH. simpl in IH.
      specialize (IH eq_refl ltac:(lia) Hs).
      rewrite !append_assoc in IH. simpl in IH. exact IH.
Qed.

End StripDefaultValues.

(** X8: stripDefaultValues gives back, character for character, a parameter
    list whose masked text holds no equals sign: parameters without default
    values are left as they are, whatever commas, brackets, comments or
    quotes they hold. *)
Theorem X8_stripDefaultValues_identity (parameters : string) :
  JS.includes (CSymbol.maskedParametersOf parameters) "=" = false ->
  CSymbol.stripDefaultValues parameters = parameters.
Proof.
  intros H. rewrite includes_equals in H. unfold CSymbol.stripDefaultValues.
  destruct (split_cons "," (CSymbol.maskedParametersOf parameters)) as (piece & rest & Hs).
  rewrite Hs.
  pose proof (stripDefaultValues_loop_identity parameters
                (CSymbol.maskedParametersOf parameters) "" "" "" "" piece rest
                (isMaskOf_maskedParameters parameters) H eq_refl eq_refl Hs) as Hloop.
  cbn [String.append String.length Z.of_nat] in Hloop. rewrite Hloop.
  unfold JS.substring, JS.length. rewrite length_append. simpl.
  replace (Z.to_nat (Z.max 0 (Z.of_nat (String.length parameters + 1) - 1)))
    with (String.length parameters) by lia.
  rewrite Nat.sub_0_r.
  rewrite substring_append_left by lia. apply substring_all.
Qed.

(** Witness of X8: two parameters, one of a template type with a comma. *)
Lemma X8_stripDefaultValues_identity_witness :
  CSymbol.stripDefaultValues "int a, std::map<int, int> b" = "int a, std::map<int, int> b".
Proof. exact (X8_stripDefaultValues_identity "int a, std::map<int, int> b" eq_refl). Defined.

(** ** What makes findPositionForFunctionDefinition fail *)

Section NeverThrows.

Variable executeSourceSymbolProvider : string -> list SourceSymbol.
Variable findDefinition : SourceSymbol -> option Location.
Variable getSourceSymbol : string -> Position -> option SourceSymbol.
Variable findMatchingSourceSymbol : string -> SourceSymbol -> option SourceSymbol.

(** The searches and the last resort fail only for a target without
    symbols. *)
Lemma searchForPosition_throws
  (targetDoc : SourceDocument) (targetSymbols thisSymbols : list SourceSymbol)
  (declaration : SourceSymbol) :
  fst (SourceDocument.searchForPosition findDefinition getSourceSymbol findMatchingSourceSymbol
         targetDoc targetSymbols thisSymbols declaration) = Throws ->
  targetSymbols = [].
Proof.
  unfold SourceDocument.searchForPosition. rewrite fst_bind.
  destruct (fst (SourceDocument.searchBefore _ _ _ _)); [discriminate|].
  rewrite fst_bind.
  destruct (fst (SourceDocument.searchAfter _ _ _ _)); [discriminate|].
  rewrite fst_bind.
  destruct (fst (SourceDocument.searchNamespaces _ _ _)); [discriminate|].
  destruct (List.rev targetSymbols) eqn:E; [|discriminate].
  intros _. apply (f_equal (@List.rev _)) in E. now rewrite rev_involutive in E.
Qed.

End NeverThrows.

(** X9: findPositionForFunctionDefinition fails (on the last symbol of a
    target that has none) only when the target document is handed over with
    a symbol list that is loaded and empty, or when the target is this
    document, this document has no symbol and the declaration has a parent.
    A target whose symbols the function fetches itself never makes it
    fail. *)
Theorem X9_throws_only_for_empty_loaded_target
  (executeSourceSymbolProvider : string -> list SourceSymbol)
  (findDefinition : SourceSymbol -> option Location)
  (getSourceSymbol : string -> Position -> option SourceSymbol)
  (findMatchingSourceSymbol : string -> SourceSymbol -> option SourceSymbol)
  (this : SourceDocument) (declaration : SourceSymbol) (targetDoc : option SourceDocument) :
  fst (SourceDocument.findPositionForFunctionDefinition executeSourceSymbolProvider
         findDefinition getSourceSymbol findMatchingSourceSymbol this declaration targetDoc)
  = Throws ->
  match targetDoc with
  | Some target => SourceDocument.symbols target = Some []
  | None =>
      match SourceDocument.symbols this with
      | Some l => l
      | None => executeSourceSymbolProvider (SourceDocument.uri this)
      end = []
      /\ SourceSymbol.parent declaration <> None
  end.
Proof.
  unfold SourceDocument.findPositionForFunctionDefinition. rewrite fst_bind.
  set (thisSymbols := fst (match SourceDocument.symbols this with
                           | Some l => ret l
                           | None => await (ExecuteSourceSymbolProvider (SourceDocument.uri this))
                                       (executeSourceSymbolProvider (SourceDocument.uri this))
                           end)).
  assert (Hthis : thisSymbols = match SourceDocument.symbols this with
                                | Some l => l
                                | None => executeSourceSymbolProvider (SourceDocument.uri this)
                                end)
    by (subst thisSymbols; now destruct (SourceDocument.symbols this)).
  destruct (negb _ || _) eqn:Hearly; [discriminate|].
  destruct targetDoc as [target|].
  - destruct (SourceDocument.symbols target) as [targetSymbols|] eqn:Ht.
    + intros H. apply searchForPosition_throws in H. now subst.
    + rewrite fst_bind. cbn [await fst].
      destruct (List.length (executeSourceSymbolProvider (SourceDocument.uri target)) =? 0)
        eqn:Hlen.
      * destruct (SourceDocument.lastNonEmptyLineBelow _ _); discriminate.
      * intros H. apply searchForPosition_throws in H. rewrite H in Hlen. discriminate.
  - cbn [SourceDocument.symbols]. intros H. apply searchForPosition_throws in H.
    rewrite <- Hthis. split; [exact H|].
    apply orb_false_iff in Hearly as [_ Hearly]. rewrite H in Hearly.
    destruct (SourceSymbol.parent declaration); [discriminate | discriminate].
Qed.

(** Witness of X9: the declaration of [c], a target that is loaded without
    symbols, and no definition known. *)
Lemma X9_throws_only_for_empty_loaded_target_witness :
  SourceDocument.symbols ThrowExamples.emptyLoadedSourceDoc = Some [].
Proof.
  exact (X9_throws_only_for_empty_loaded_target SiblingExamples.provider
           ThrowExamples.findNoDefinition SiblingExamples.getSourceSymbol
           SiblingExamples.findMatchingSourceSymbol
           SiblingExamples.headerDoc SiblingExamples.c
           (Some ThrowExamples.emptyLoadedSourceDoc) eq_refl).
Defined.

(** ** How the texts of a symbol fit together *)

(** X10: for a symbol whose name starts within its range, the full text is
    the text from the true start to the start of the range (the template
    clause, if there is one) followed by the text of the symbol, and the
    text of the symbol is its leading text followed by the text from the
    start of the name to the end of the range. *)
Theorem X10_texts_fit_together (this : CSymbol) :
  Position.le (start (CSymbol.range this)) (start (CSymbol.selectionRange this)) ->
  Position.le (start (CSymbol.selectionRange this)) (end_ (CSymbol.range this)) ->
  CSymbol.getFullText this
  = TextDocument.getText (CSymbol.document this)
      (Range.new (CSymbol.getTrueStart this) (start (CSymbol.range this)))
    +++ CSymbol.text this
  /\ CSymbol.text this
     = CSymbol.leadingText this
       +++ TextDocument.getText (CSymbol.document this)
             (Range.new (start (CSymbol.selectionRange this)) (end_ (CSymbol.range this))).
Proof.
  intros Hsel Hend.
  assert (Hrange : Position.le (start (CSymbol.range this)) (end_ (CSymbol.range this)))
    by (eapply le_trans; eassumption).
  unfold CSymbol.getFullText, CSymbol.getFullRange, CSymbol.text, CSymbol.leadingText.
  split.
  - rewrite (getText_split _ _ (start (CSymbol.range this)) _ (getTrueStart_le this) Hrange).
    rewrite (new_ordered _ _ Hrange). now destruct (CSymbol.range this).
  - rewrite <- (getText_split _ _ _ _ Hsel Hend).
    rewrite (new_ordered _ _ Hrange). now destruct (CSymbol.range this).
Qed.

(** Witness of X10: the function template [h]. *)
Lemma X10_texts_fit_together_witness :
  CSymbol.getFullText Examples.h
  = TextDocument.getText (CSymbol.document Examples.h)
      (Range.new (CSymbol.getTrueStart Examples.h) (start (CSymbol.range Examples.h)))
    +++ CSymbol.text Examples.h.
Proof.
  assert (H1 : Position.le (start (CSymbol.range Examples.h))
                 (start (CSymbol.selectionRange Examples.h)))
    by (apply le_coords; vm_compute; lia).
  assert (H2 : Position.le (start (CSymbol.selectionRange Examples.h))
                 (end_ (CSymbol.range Examples.h)))
    by (apply le_coords; vm_compute; lia).
  exact (proj1 (X10_texts_fit_together Examples.h H1 H2)).
Defined.

(** ** getLeadingCommentStart *)

Section LeadingComment.

Lemma origin_le (p : Position) : Position.le (mkPosition 0 0) p.
Proof. apply le_coords. destruct p as [l c]; simpl. lia. Qed.

Lemma length_maskedTextBeforeTrueStart (this : CSymbol) :
  String.length (CSymbol.maskedTextBeforeTrueStart this)
  <= TextDocument.offsetAt (CSymbol.document this) (CSymbol.getTrueStart this).
Proof.
  unfold CSymbol.maskedTextBeforeTrueStart.
  eapply Nat.le_trans; [apply length_trimEnd|].
  rewrite length_maskComments, (new_ordered _ _ (origin_le _)).
  unfold TextDocument.getText. cbn [start end_]. rewrite length_substring, offsetAt_origin. lia.
Qed.

Lemma lastIndexOfNat_bound (needle s : string) :
  forall pos i, JS.lastIndexOfNat needle s pos = Some i -> pos <= i < pos + String.length s.
Proof.
  induction s as [|c s IH]; intros pos i H; [discriminate|].
  cbn [JS.lastIndexOfNat] in H.
  destruct (JS.lastIndexOfNat needle s (S pos)) as [j|] eqn:E.
  - injection H as <-. apply IH in E. simpl. lia.
  - destruct (JS.startsWith needle (String c s)); [|discriminate].
    injection H as <-. simpl. lia.
Qed.

Lemma getLeadingCommentStart_loop_line (d : TextDocument) (trueStart : Position) (n : nat) :
  n < TextDocument.lineCount d ->
  exists p,
    CSymbol.getLeadingCommentStart_loop d n trueStart = Returns p
    /\ (p = trueStart \/ line p <= n).
Proof.
  induction n as [|i IH]; intros Hn; [eexists; split; [reflexivity | now left]|].
  cbn [CSymbol.getLeadingCommentStart_loop].
  destruct (Nat.leb_spec (TextDocument.lineCount d) i); [lia|].
  destruct (negb _).
  - destruct (Nat.leb_spec (TextDocument.lineCount d) (S i)); [lia|].
    destruct (JS.indexOfNat _ _ 0); eexists; (split; [reflexivity|]); [right | left]; simpl; auto.
  - destruct (IH ltac:(lia)) as (p & Hp & [Heq | Hl]); exists p; (split; [exact Hp|]); auto.
Qed.

Lemma getLeadingCommentStart_loop_top (d : TextDocument) (trueStart : Position) (n : nat) :
  n <= TextDocument.lineCount d ->
  (forall i, i < n -> JS.startsWith "//" (JS.trimStart (TextDocument.lineText d i)) = true) ->
  CSymbol.getLeadingCommentStart_loop d n trueStart = Returns trueStart.
Proof.
  induction n as [|i IH]; intros Hn Hall; [reflexivity|].
  cbn [CSymbol.getLeadingCommentStart_loop].
  destruct (Nat.leb_spec (TextDocument.lineCount d) i); [lia|].
  rewrite (Hall i) by lia. cbn [negb]. apply IH; [lia|]. intros j Hj. apply Hall. lia.
Qed.

Lemma isEqual_refl (p : Position) : Position.isEqual p p = true.
Proof. unfold Position.isEqual. now rewrite !Nat.eqb_refl. Qed.

End LeadingComment.

(** X11: for a symbol whose true start is on a line of the document,
    getLeadingCommentStart returns a position, and that position is never
    on a line below the line of the true start. *)
Theorem X11_leading_comment_not_below (this : CSymbol) :
  line (CSymbol.getTrueStart this) < TextDocument.lineCount (CSymbol.document this) ->
  exists p,
    CSymbol.getLeadingCommentStart this = Returns p
    /\ line p <= line (CSymbol.getTrueStart this).
Proof.
  intros Hline. unfold CSymbol.getLeadingCommentStart.
  destruct (negb _ && negb _); [eexists; split; [reflexivity | lia]|].
  destruct (JS.endsWith (CSymbol.maskedTextBeforeTrueStart this) "*/").
  - destruct (JS.lastIndexOfNat "/*" _ 0) as [i|] eqn:E; [|eexists; split; [reflexivity | lia]].
    eexists; split; [reflexivity|].
    apply lastIndexOfNat_bound in E.
    pose proof (length_maskedTextBeforeTrueStart this) as Hlen.
    assert (Hlt : Position.lt (TextDocument.positionAt (CSymbol.document this) i)
                    (CSymbol.getTrueStart this))
      by (apply positionAt_lt; lia).
    unfold Position.lt in Hlt. lia.
  - destruct (getLeadingCommentStart_loop_line (CSymbol.document this)
                (CSymbol.getTrueStart this) _ Hline) as (p & Hp & [Heq | Hl]);
      exists p; (split; [exact Hp|]); [rewrite Heq|]; lia.
Qed.

(** Witness of X11: the declaration under a block comment; the comment
    starts on line 1. *)
Lemma X11_leading_comment_not_below_witness :
  exists p,
    CSymbol.getLeadingCommentStart CommentExamples.blockFoo = Returns p
    /\ line p <= line (CSymbol.getTrueStart CommentExamples.blockFoo).
Proof.
  assert (H : line (CSymbol.getTrueStart CommentExamples.blockFoo)
              < TextDocument.lineCount (CSymbol.document CommentExamples.blockFoo))
    by (vm_compute; lia).
  exact (X11_leading_comment_not_below CommentExamples.blockFoo H).
Defined.

(** X12: a leading comment made of line comments that reaches the first
    line of the file is not found.  When the text before the true start
    does not end with a block comment and every line above the line of the
    true start starts with [//], getLeadingCommentStart returns the true
    start itself, and hasLeadingComment answers false. *)
Theorem X12_line_comment_from_first_line_not_found (this : CSymbol) :
  JS.endsWith (CSymbol.maskedTextBeforeTrueStart this) "*/" = false ->
  line (CSymbol.getTrueStart this) <= TextDocument.lineCount (CSymbol.document this) ->
  (forall i, i < line (CSymbol.getTrueStart this) ->
     JS.startsWith "//" (JS.trimStart (TextDocument.lineText (CSymbol.document this) i)) = true) ->
  CSymbol.getLeadingCommentStart this = Returns (CSymbol.getTrueStart this)
  /\ CSymbol.hasLeadingComment this = Returns false.
Proof.
  intros Hblock Hline Hall.
  assert (H : CSymbol.getLeadingCommentStart this = Returns (CSymbol.getTrueStart this)).
  { unfold CSymbol.getLeadingCommentStart. rewrite Hblock.
    cbn [negb]. rewrite andb_true_r.
    destruct (negb (JS.endsWith (CSymbol.maskedTextBeforeTrueStart this) "//")); [reflexivity|].
    now apply getLeadingCommentStart_loop_top. }
  split; [exact H|].
  unfold CSymbol.hasLeadingComment. now rewrite H, isEqual_refl.
Qed.

(** Witness of X12: the declaration under two lines of comment, the first
    of them the first line of the file. *)
Lemma X12_line_comment_from_first_line_not_found_witness :
  CSymbol.getLeadingCommentStart CommentExamples.foo = Returns (mkPosition 2 0)
  /\ CSymbol.hasLeadingComment CommentExamples.foo = Returns false.
Proof.
  assert (H1 : JS.endsWith (CSymbol.maskedTextBeforeTrueStart CommentExamples.foo) "*/" = false)
    by (vm_compute; reflexivity).
  assert (H2 : line (CSymbol.getTrueStart CommentExamples.foo)
               <= TextDocument.lineCount (CSymbol.document CommentExamples.foo))
    by (vm_compute; lia).
  assert (H3 : forall i, i < line (CSymbol.getTrueStart CommentExamples.foo) ->
                 JS.startsWith "//"
                   (JS.trimStart (TextDocument.lineText (CSymbol.document CommentExamples.foo) i))
                 = true).
  { intros i Hi. change (line (CSymbol.getTrueStart CommentExamples.foo)) with 2 in Hi.
    destruct i as [|[|i]]; [reflexivity | reflexivity | lia]. }
  exact (X12_line_comment_from_first_line_not_found CommentExamples.foo H1 H2 H3).
Defined.

(** ** findPositionForNewMemberFunction *)

Section NewMemberFunction.

Lemma rev_nil_iff {A : Type} (l : list A) : List.rev l = [] <-> l = [].
Proof.
  split; [|now intros ->]. intros H.
  apply (f_equal (@List.rev A)) in H. now rewrite rev_involutive in H.
Qed.

Lemma positionAfterLastChildOrUndefined_none (this : CSymbol) :
  CSymbol.positionAfterLastChildOrUndefined this = None <-> CSymbol.children this = [].
Proof.
  unfold CSymbol.positionAfterLastChildOrUndefined. rewrite <- rev_nil_iff.
  destruct (List.rev (CSymbol.children this)); split; congruence.
Qed.

(** The options of the position after the last child. *)
Lemma positionAfterLastChildOrUndefined_options
  (this : CSymbol) (p : Proposed.ProposedPosition) :
  CSymbol.positionAfterLastChildOrUndefined this = Some p ->
  Proposed.before (Proposed.options p) = false
  /\ Proposed.after (Proposed.options p) = true
  /\ Proposed.indent (Proposed.options p) = false
  /\ Proposed.relativeTo (Proposed.options p) <> None.
Proof.
  unfold CSymbol.positionAfterLastChildOrUndefined.
  destruct (List.rev (CSymbol.children this)); [discriminate|].
  intros [= <-]. cbn. repeat split. discriminate.
Qed.

End NewMemberFunction.

(** X13: findPositionForNewMemberFunction returns no position exactly when
    the symbol has no children, whether or not it is a class or a struct.
    For a symbol that is not a class or a struct and has children it
    returns the position after the last child: the end of the range of
    that child as its CSymbol holds it, marked [after], relative to the
    range of the child as the symbol tree holds it.  (The comment above the
    function says that it returns undefined for a symbol that is not a
    class or a struct.) *)
Theorem X13_no_member_position_iff_no_children
  (setterName : SourceSymbol -> string) (this : CSymbol)
  (relativeName : option string) (memberVariable : option SourceSymbol) :
  (CSymbol.findPositionForNewMemberFunction setterName this relativeName memberVariable
   = Returns None
   <-> CSymbol.children this = [])
  /\ (forall (rest : list SourceSymbol) (last : SourceSymbol),
        CSymbol.isClassOrStruct this = false ->
        CSymbol.children this = rest ++ [last] ->
        CSymbol.findPositionForNewMemberFunction setterName this relativeName memberVariable
        = Returns
            (Some (Proposed.new
                     (end_ (CSymbol.range (CSymbol.new last (CSymbol.document this) None)))
                     (Proposed.mkOptions (Some (SourceSymbol.range last))
                        false true false false)))).
Proof.
  split.
  2:{ intros rest last Hclass Hchildren.
      unfold CSymbol.findPositionForNewMemberFunction. rewrite Hclass. cbn [negb].
      unfold CSymbol.positionAfterLastChildOrUndefined.
      now rewrite Hchildren, rev_unit. }
  pose proof (positionAfterLastChildOrUndefined_none this) as Hlast.
  assert (Hiff : Returns (CSymbol.positionAfterLastChildOrUndefined this)
                 = Returns (@None Proposed.ProposedPosition)
                 <-> CSymbol.children this = []).
  { rewrite <- Hlast. split; [now intros [= ->] | now intros ->]. }
  unfold CSymbol.findPositionForNewMemberFunction.
  destruct (negb (CSymbol.isClassOrStruct this)); [exact Hiff|].
  destruct (Re.publicSpecifier (CSymbol.parsableText this)) as [[|index]|];
    [exact Hiff | | exact Hiff].
  destruct (CSymbol.dropUntil _ _) as [|fallback candidates] eqn:Hcandidates; [exact Hiff|].
  assert (Hchildren : CSymbol.children this <> []).
  { intros Hnil. rewrite Hnil in Hcandidates. discriminate. }
  assert (Hno : forall r : outcome (option Proposed.ProposedPosition),
            (exists p, r = Returns (Some p)) \/ r = Throws ->
            r = Returns None <-> CSymbol.children this = []).
  { intros r [[p ->] | ->]; split; congruence. }
  apply Hno.
  destruct relativeName as [relativeName|]; [|eauto].
  destruct (String.length relativeName =? 0); [eauto|].
  destruct (find _ (fallback :: candidates)) as [symbol|]; [|eauto].
  destruct (match memberVariable with Some _ => _ | None => _ end); [|eauto].
  destruct (CSymbol.getLeadingCommentStart symbol); eauto.
Qed.

(** Witness of X13: a function, which has no children, and the namespace
    [N], which is not a class and has one: the position is the end of the
    declaration of [f], past its semicolon. *)
Lemma X13_no_member_position_iff_no_children_witness :
  CSymbol.findPositionForNewMemberFunction MemberExamples.setterName Examples.h None None
  = Returns None
  /\ CSymbol.findPositionForNewMemberFunction MemberExamples.setterName
       NamespaceExamples.namespaceN None None
     = Returns
         (Some (Proposed.new (mkPosition 1 9)
                  (Proposed.mkOptions (Some (Examples.range 1 0 1 8)) false true false false))).
Proof.
  split.
  - exact (proj2 (proj1 (X13_no_member_position_iff_no_children MemberExamples.setterName
                           Examples.h None None)) eq_refl).
  - exact (proj2 (X13_no_member_position_iff_no_children MemberExamples.setterName
                    NamespaceExamples.namespaceN None None)
             [] NamespaceExamples.f eq_refl eq_refl).
Defined.

(** X14: every position that findPositionForNewMemberFunction proposes
    carries a [relativeTo] range and sets exactly one of [before] and
    [after]; [indent] is never set. *)
Theorem X14_member_position_options
  (setterName : SourceSymbol -> string) (this : CSymbol)
  (relativeName : option string) (memberVariable : option SourceSymbol)
  (p : Proposed.ProposedPosition) :
  CSymbol.findPositionForNewMemberFunction setterName this relativeName memberVariable
  = Returns (Some p) ->
  Proposed.before (Proposed.options p) = negb (Proposed.after (Proposed.options p))
  /\ Proposed.indent (Proposed.options p) = false
  /\ Proposed.relativeTo (Proposed.options p) <> None.
Proof.
  assert (Hlast : Returns (CSymbol.positionAfterLastChildOrUndefined this) = Returns (Some p) ->
                  Proposed.before (Proposed.options p) = negb (Proposed.after (Proposed.options p))
                  /\ Proposed.indent (Proposed.options p) = false
                  /\ Proposed.relativeTo (Proposed.options p) <> None).
  { intros [= H]. apply positionAfterLastChildOrUndefined_options in H.
    destruct H as (-> & -> & -> & H). auto. }
  unfold CSymbol.findPositionForNewMemberFunction.
  destruct (negb (CSymbol.isClassOrStruct this)); [exact Hlast|].
  destruct (Re.publicSpecifier (CSymbol.parsableText this)) as [[|index]|];
    [exact Hlast | | exact Hlast].
  destruct (CSymbol.dropUntil _ _) as [|fallback candidates]; [exact Hlast|].
  assert (Hdone : forall (q : Position) (r : Range) (b n : bool),
            Returns (Some (Proposed.new q (Proposed.mkOptions (Some r) b (negb b) n false)))
            = Returns (Some p) ->
            Proposed.before (Proposed.options p) = negb (Proposed.after (Proposed.options p))
            /\ Proposed.indent (Proposed.options p) = false
            /\ Proposed.relativeTo (Proposed.options p) <> None).
  { intros q r b n [= <-]. cbn. rewrite negb_involutive. repeat split. discriminate. }
  destruct relativeName as [relativeName|]; [|apply (Hdone _ _ false false)].
  destruct (String.length relativeName =? 0); [apply (Hdone _ _ false false)|].
  destruct (find _ (fallback :: candidates)) as [symbol|]; [|apply (Hdone _ _ false false)].
  destruct (match memberVariable with Some _ => _ | None => _ end);
    [|apply (Hdone _ _ false true)].
  destruct (CSymbol.getLeadingCommentStart symbol); [apply (Hdone _ _ true true) | discriminate].
Qed.

(** Witness of X14: the position for a getter next to the setter of the
    class Account. *)
Lemma X14_member_position_options_witness :
  exists p,
    CSymbol.findPositionForNewMemberFunction MemberExamples.setterName MemberExamples.account
      (Some "setBalance") (Some MemberExamples.balanceField)
    = Returns (Some p)
    /\ Proposed.before (Proposed.options p) = negb (Proposed.after (Proposed.options p)).
Proof.
  eexists. split; [vm_compute; reflexivity|].
  refine (proj1 (X14_member_position_options MemberExamples.setterName MemberExamples.account
                   (Some "setBalance") (Some MemberExamples.balanceField) _ _)).
  vm_compute. reflexivity.
Defined.

(** ** findPositionForNewHeaderGuard *)

Section HeaderGuard.

Lemma lastStarInRun_lone_star (a rest : string) (c : ascii) :
  Re.containsChar isStar a = false -> c <> "/"%char ->
  forall pos last,
    Re.lastStarInRun (a +++ String "*" (String c rest)) pos last = last.
Proof.
  intros Ha Hc. induction a as [|x a IH]; intros pos last.
  - cbn [String.append Re.lastStarInRun JS.startsWith]. rewrite Ascii.eqb_refl.
    destruct (Ascii.eqb_spec "/" c) as [<-|_]; [congruence | reflexivity].
  - cbn [Re.containsChar] in Ha. apply orb_false_iff in Ha as [Hx Ha].
    cbn [String.append Re.lastStarInRun]. unfold isStar in Hx. rewrite Hx. now apply IH.
Qed.

Lemma positionAt_zero (d : TextDocument) : TextDocument.positionAt d 0 = mkPosition 0 0.
Proof.
  unfold TextDocument.positionAt.
  destruct (TextDocument.lines d) as [|l [|l' ls]]; [reflexivity | reflexivity |].
  cbn [TextDocument.positionAtIn].
  pose proof (length_endOfLine d) as He.
  destruct (Nat.ltb_spec 0 (String.length l + String.length (TextDocument.endOfLine d)));
    [reflexivity | lia].
Qed.

Lemma get_isMaskOf (p m : string) :
  isMaskOf p m = true ->
  forall index c,
    String.get index m = Some c -> JS.isSpace c = false -> String.get index p = Some c.
Proof.
  revert m; induction p as [|x p IH]; intros [|y m] H index c Hget Hc;
    try discriminate; cbn [isMaskOf] in H.
  apply andb_true_iff in H as [Hxy H].
  destruct index as [|index]; cbn [String.get] in *.
  - injection Hget as ->. apply orb_true_iff in Hxy as [Hxy | Hxy].
    + apply Ascii.eqb_eq in Hxy. now subst.
    + apply Ascii.eqb_eq in Hxy. subst c. discriminate.
  - eapply IH; eassumption.
Qed.

Lemma search_nonSpace (s : string) :
  forall pos index,
    Re.search Re.nonSpaceAt s pos = Some index ->
    exists c, String.get (index - pos) s = Some c /\ JS.isSpace c = false /\ pos <= index.
Proof.
  induction s as [|x s IH]; intros pos index H; cbn [Re.search] in H.
  - cbn in H. discriminate.
  - destruct (Re.nonSpaceAt (String x s)) eqn:E.
    + injection H as <-. rewrite Nat.sub_diag. exists x. cbn in E.
      apply negb_true_iff in E. auto.
    + apply IH in H as (c & Hget & Hc & Hle). exists c.
      replace (index - pos) with (S (index - S pos)) by lia. auto with arith.
Qed.

End HeaderGuard.

(** X15: a comment at the top of the file that holds a star which no slash
    follows (a documentation comment, or a comment whose lines start with a
    star) is not skipped: findPositionForNewHeaderGuard proposes the start
    of the file, before the comment. *)
Theorem X15_comment_with_star_not_skipped (this : SourceDocument) (a rest : string) (c : ascii) :
  SourceDocument.text this = "/*" +++ a +++ String "*" (String c rest) ->
  Re.containsChar isStar a = false ->
  c <> "/"%char ->
  SourceDocument.findPositionForNewHeaderGuard this
  = mkProposedPosition (mkPosition 0 0) true false false false.
Proof.
  intros Htext Ha Hc.
  unfold SourceDocument.findPositionForNewHeaderGuard, SourceDocument.headerGuardMaskedText.
  rewrite Htext.
  assert (Hblock : Re.headerBlockCommentAt ("/*" +++ a +++ String "*" (String c rest)) = (0, 0)).
  { unfold Re.headerBlockCommentAt. cbn [String.append JS.startsWith JS.skipn].
    rewrite !Ascii.eqb_refl. cbn [andb].
    now rewrite (lastStarInRun_lone_star a rest c Ha Hc). }
  change ("/*" +++ a +++ String "*" (String c rest))
    with (String "/" (String "*" (a +++ String "*" (String c rest)))) in *.
  cbn [util.maskWith]. rewrite Hblock.
  set (tail := a +++ String "*" (String c rest)).
  assert (Hstar : Re.headerBlockCommentAt (String "*" tail) = (0, 0)) by reflexivity.
  rewrite Hstar.
  assert (Hline : forall s, util.lineCommentAt false (String "/" (String "*" s)) = (0, 0))
    by reflexivity.
  cbn [util.maskWith]. rewrite Hline. cbn [Re.search Re.nonSpaceAt].
  change (negb (JS.isSpace "/")) with true. cbn iota.
  now rewrite positionAt_zero.
Qed.

(** Witness of X15: the header with a license comment whose lines start
    with a star. *)
Lemma X15_comment_with_star_not_skipped_witness :
  SourceDocument.findPositionForNewHeaderGuard HeaderGuardExamples.licensedDoc
  = mkProposedPosition (mkPosition 0 0) true false false false.
Proof.
  assert (Hc : " "%char <> "/"%char) by discriminate.
  exact (X15_comment_with_star_not_skipped HeaderGuardExamples.licensedDoc
           (String JS.lineFeed " ")
           (String "C" "opyright" +++ String JS.lineFeed " */" +++ String JS.lineFeed "int x;")
           " " eq_refl eq_refl Hc).
Defined.

(** X16: when findPositionForNewHeaderGuard proposes a position to insert
    before, that position is the position of a character of the file that
    is not white space. *)
Theorem X16_header_guard_before_a_character (this : SourceDocument) :
  before (SourceDocument.findPositionForNewHeaderGuard this) = true ->
  exists index c,
    value (SourceDocument.findPositionForNewHeaderGuard this)
    = TextDocument.positionAt (SourceDocument.document this) index
    /\ String.get index (SourceDocument.text this) = Some c
    /\ JS.isSpace c = false.
Proof.
  unfold SourceDocument.findPositionForNewHeaderGuard.
  destruct (Re.search Re.nonSpaceAt (SourceDocument.headerGuardMaskedText this) 0)
    as [index|] eqn:Hsearch; cbn [before value]; [intros _ | discriminate].
  apply search_nonSpace in Hsearch as (c & Hget & Hc & _). rewrite Nat.sub_0_r in Hget.
  exists index, c. split; [reflexivity|]. split; [|exact Hc].
  refine (get_isMaskOf _ _ _ index c Hget Hc).
  unfold SourceDocument.headerGuardMaskedText.
  eapply isMaskOf_trans; apply isMaskOf_maskWith.
Qed.

(** Witness of X16: the header that starts with two plain comments; the
    position is the start of the third line. *)
Lemma X16_header_guard_before_a_character_witness :
  exists index c,
    value (SourceDocument.findPositionForNewHeaderGuard HeaderGuardExamples.commentedDoc)
    = TextDocument.positionAt (SourceDocument.document HeaderGuardExamples.commentedDoc) index
    /\ String.get index (SourceDocument.text HeaderGuardExamples.commentedDoc) = Some c
    /\ JS.isSpace c = false.
Proof.
  assert (H : before (SourceDocument.findPositionForNewHeaderGuard
                        HeaderGuardExamples.commentedDoc) = true)
    by (vm_compute; reflexivity).
  exact (X16_header_guard_before_a_character HeaderGuardExamples.commentedDoc H).
Defined.

(** ** SourceSymbol: baseName and matches *)

Section BaseName.

Lemma dropTrailingUnderscores_empty (s : string) :
  SourceSymbol.dropTrailingUnderscores s = "" <-> onlyUnderscores s = true.
Proof.
  induction s as [|c s IH]; [split; reflexivity|].
  cbn [SourceSymbol.dropTrailingUnderscores onlyUnderscores].
  destruct (SourceSymbol.dropTrailingUnderscores s) as [|c' t].
  - rewrite (proj1 IH eq_refl), andb_true_r.
    destruct (Ascii.eqb c "_"); split; congruence.
  - destruct (onlyUnderscores s); [discriminate (proj2 IH eq_refl)|].
    rewrite andb_false_r. split; discriminate.
Qed.

Lemma onlyUnderscores_dropLeading (s : string) :
  onlyUnderscores (SourceSymbol.dropLeadingUnderscores s) = onlyUnderscores s.
Proof.
  induction s as [|c s IH]; [reflexivity|].
  cbn [SourceSymbol.dropLeadingUnderscores].
  destruct (Ascii.eqb c "_") eqn:E; [|reflexivity].
  cbn [onlyUnderscores]. now rewrite E, IH.
Qed.

Lemma hasPrefix_not_empty (prefix name : string) :
  SourceSymbol.hasPrefix prefix name = true -> JS.skipn 2 name <> "".
Proof.
  unfold SourceSymbol.hasPrefix. intros H.
  apply andb_true_iff in H as [H _]. apply andb_true_iff in H as [_ H].
  destruct (JS.skipn 2 name); [discriminate H | discriminate].
Qed.

End BaseName.

(** X17: the base name of a symbol is empty exactly when its name is made
    of underscores only (or is empty): a name that holds any other
    character keeps at least one character. *)
Theorem X17_baseName_empty_iff (this : SourceSymbol) :
  SourceSymbol.baseName this = "" <-> onlyUnderscores (SourceSymbol.name this) = true.
Proof.
  unfold SourceSymbol.baseName.
  destruct (JS.startsWith "_" (SourceSymbol.name this)) eqn:Hstart; cbn [orb].
  - now rewrite dropTrailingUnderscores_empty, onlyUnderscores_dropLeading.
  - destruct (JS.endsWith (SourceSymbol.name this) "_");
      [now rewrite dropTrailingUnderscores_empty, onlyUnderscores_dropLeading|].
    destruct (SourceSymbol.name this) as [|c s] eqn:Hname; [split; reflexivity|].
    cbn [JS.startsWith] in Hstart. rewrite andb_true_r, Ascii.eqb_sym in Hstart.
    cbn [onlyUnderscores]. rewrite Hstart. cbn [andb].
    destruct (SourceSymbol.hasPrefix "m_" (String c s)) eqn:Hm;
      [apply hasPrefix_not_empty in Hm; split; [contradiction | discriminate]|].
    destruct (SourceSymbol.hasPrefix "s_" (String c s)) eqn:Hs;
      [apply hasPrefix_not_empty in Hs; split; [contradiction | discriminate]|].
    split; discriminate.
Qed.

(** Witness of X17: a name made of underscores, and the name of a member
    that holds other characters. *)
Lemma X17_baseName_empty_iff_witness :
  SourceSymbol.baseName (SiblingExamples.declarationOf "__" 0) = ""
  /\ SourceSymbol.baseName MemberExamples.balanceField <> "".
Proof.
  split.
  - exact (proj2 (X17_baseName_empty_iff (SiblingExamples.declarationOf "__" 0)) eq_refl).
  - intros H. apply (proj1 (X17_baseName_empty_iff MemberExamples.balanceField)) in H.
    discriminate H.
Defined.

Section Matches.

Lemma SymbolKind_eqb_eq (a b : SymbolKind) : SymbolKind.eqb a b = true <-> a = b.
Proof. destruct a, b; split; (reflexivity || discriminate). Qed.

Lemma SymbolKind_eqb_refl (a : SymbolKind) : SymbolKind.eqb a a = true.
Proof. now apply SymbolKind_eqb_eq. Qed.

Lemma SymbolKind_eqb_sym (a b : SymbolKind) : SymbolKind.eqb a b = SymbolKind.eqb b a.
Proof.
  destruct (SymbolKind.eqb a b) eqn:E.
  - apply SymbolKind_eqb_eq in E. subst. now rewrite SymbolKind_eqb_refl.
  - destruct (SymbolKind.eqb b a) eqn:E'; [|reflexivity].
    apply SymbolKind_eqb_eq in E'. subst. now rewrite SymbolKind_eqb_refl in E.
Qed.

End Matches.

(** X18: matches is an equivalence on symbols: every symbol matches itself,
    matching does not depend on the order of the two symbols, and two
    symbols that match a third one match each other. *)
Theorem X18_matches_equivalence :
  (forall a, SourceSymbol.matches a a = true)
  /\ (forall a b, SourceSymbol.matches a b = SourceSymbol.matches b a)
  /\ (forall a b c,
        SourceSymbol.matches a b = true -> SourceSymbol.matches b c = true ->
        SourceSymbol.matches a c = true).
Proof.
  unfold SourceSymbol.matches. repeat split.
  - intros a. now rewrite String.eqb_refl, SymbolKind_eqb_refl.
  - intros a b. rewrite String.eqb_sym, SymbolKind_eqb_sym.
    now rewrite (andb_comm (SourceSymbol.isFunction a)).
  - intros a b c Hab Hbc.
    apply andb_true_iff in Hab as [Hn1 Hk1]. apply andb_true_iff in Hbc as [Hn2 Hk2].
    apply String.eqb_eq in Hn1. apply String.eqb_eq in Hn2.
    rewrite Hn1, Hn2, String.eqb_refl. cbn [andb].
    apply orb_true_iff in Hk1 as [Hk1 | Hk1]; apply orb_true_iff in Hk2 as [Hk2 | Hk2];
      rewrite ?SymbolKind_eqb_eq in *; unfold SourceSymbol.isFunction in *.
    + rewrite Hk1, Hk2, SymbolKind_eqb_refl. reflexivity.
    + rewrite Hk1. rewrite Hk2. apply orb_true_r.
    + rewrite <- Hk2. rewrite Hk1. apply orb_true_r.
    + apply andb_true_iff in Hk1 as [-> _]. apply andb_true_iff in Hk2 as [_ ->].
      apply orb_true_r.
Qed.

(** Witness of X18: a declaration of kind Function and definitions of the
    kinds Method and Constructor with its name. *)
Lemma X18_matches_equivalence_witness :
  SourceSymbol.matches MemberExamples.balance
    (MemberExamples.memberOf "balance" Function (Examples.range 0 0 0 0) (Examples.range 0 0 0 0))
  = true.
Proof.
  exact (proj2 (proj2 X18_matches_equivalence) MemberExamples.balance
           (MemberExamples.memberOf "balance" Constructor
              (Examples.range 0 0 0 0) (Examples.range 0 0 0 0))
           (MemberExamples.memberOf "balance" Function
              (Examples.range 0 0 0 0) (Examples.range 0 0 0 0))
           eq_refl eq_refl).
Defined.

(** ** isPrimitive and the setting resolveTypes *)

(** X19: when the setting resolveTypes is off, isPrimitive does not depend
    on what the resolution of a type in another file would answer: it
    judges by the text of the symbol alone. *)
Theorem X19_isPrimitive_without_resolution
  (resolveThisType resolveThisType' : nat -> bool) (this : CSymbol) :
  CSymbol.isPrimitive false resolveThisType this
  = CSymbol.isPrimitive false resolveThisType' this.
Proof.
  unfold CSymbol.isPrimitive. cbn [negb].
  destruct (CSymbol.isVariable this); [reflexivity|].
  destruct (CSymbol.isTypedef this); [reflexivity|].
  destruct (CSymbol.isTypeAlias this); reflexivity.
Qed.

(** ** The scopes of the symbols that the constructor builds *)

Section Scopes.

Variable getNormalizedSymbolName : string -> string.
Variable compareRanges : Range -> Range -> Z.

Lemma ancestors_eq (this : SourceSymbol) :
  SourceSymbol.ancestors this
  = match SourceSymbol.parent this with
    | Some p => p :: SourceSymbol.ancestors p
    | None => []
    end.
Proof. destruct this as [n d k r s u g [p|] c]; reflexivity. Qed.

Lemma new_parent (symbol : DocumentSymbol) (uri : string) (parent : option SourceSymbol) :
  SourceSymbol.parent (SourceSymbol.new getNormalizedSymbolName compareRanges symbol uri parent)
  = parent.
Proof. destruct symbol; reflexivity. Qed.

Lemma new_scopeOf (symbol : DocumentSymbol) (uri : string) (parent : option SourceSymbol) :
  scopeOf (SourceSymbol.new getNormalizedSymbolName compareRanges symbol uri parent)
  = scopeOf (SourceSymbol.header getNormalizedSymbolName symbol uri parent).
Proof. destruct symbol; reflexivity. Qed.

End Scopes.

(** X20: in a tree built by the SourceSymbol constructor, the scopes of a
    child are the scopes of its parent followed by the parent itself, by
    name, kind and range. *)
Theorem X20_scopes_of_a_child
  (getNormalizedSymbolName : string -> string) (compareRanges : Range -> Range -> Z)
  (symbol : DocumentSymbol) (uri : string) (parent : option SourceSymbol)
  (child : SourceSymbol) :
  let this := SourceSymbol.new getNormalizedSymbolName compareRanges symbol uri parent in
  In child (SourceSymbol.children this) ->
  map scopeOf (SourceSymbol.scopes child) = map scopeOf (SourceSymbol.scopes this) ++ [scopeOf this].
Proof.
  intros this Hin. subst this. rewrite new_unfold in Hin. cbn zeta in Hin.
  set (header := SourceSymbol.header getNormalizedSymbolName symbol uri parent) in *.
  cbn [SourceSymbol.withChildren SourceSymbol.children] in Hin.
  apply in_map_iff in Hin as (raw & <- & _).
  unfold SourceSymbol.scopes.
  rewrite (ancestors_eq (SourceSymbol.new _ _ raw uri (Some header))), new_parent.
  rewrite (ancestors_eq (SourceSymbol.new _ _ symbol uri parent)), new_parent.
  assert (Hheader : SourceSymbol.ancestors header
                    = match parent with
                      | Some p => p :: SourceSymbol.ancestors p
                      | None => []
                      end)
    by (rewrite ancestors_eq; reflexivity).
  rewrite <- Hheader. cbn [List.rev]. rewrite map_app. cbn [map].
  now rewrite new_scopeOf.
Qed.

(** Witness of X20: the member [f] of the class [A]. *)
Lemma X20_scopes_of_a_child_witness :
  map scopeOf
    (SourceSymbol.scopes
       (SourceSymbol.new (fun name => name) sortByRange
          (DocumentSymbol.mk "f" "" Method (Examples.range 1 2 1 11) (Examples.range 1 7 1 8) [])
          "a.h"
          (Some (SourceSymbol.header (fun name => name) TreeExamples.rawClass "a.h" None))))
  = [("A", Class, Examples.range 0 0 3 2)].
Proof.
  refine (X20_scopes_of_a_child (fun name => name) sortByRange TreeExamples.rawClass
            "a.h" None _ _).
  vm_compute. left. reflexivity.
Defined.

(** ** What updateSignature edits *)

(** X21: the only edit that updateSignature ever applies replaces the
    return type of the linked function by the return type of the current
    function, in the linked document, and it is applied only when the
    normalized return types differ; the edit is empty otherwise.  Nothing
    else of the linked signature is touched. *)
Theorem X21_updateSignature_edits_return_type_only
  (openTextDocument : string -> TextDocument)
  (getSourceSymbol : string -> Position -> option SourceSymbol)
  (normalizedReturnType : CSymbol -> string) (returnTypeRange : CSymbol -> Range)
  (returnType : CSymbol -> string) (applyEdit : list Command.TextEdit -> bool)
  (currentFunction : CSymbol) (sourceDoc : SourceDocument) (linkedLocation : Location)
  (workspaceEdit : list Command.TextEdit) :
  In (Command.ApplyEdit workspaceEdit)
    (snd (Command.updateSignature openTextDocument getSourceSymbol normalizedReturnType
            returnTypeRange returnType applyEdit currentFunction sourceDoc linkedLocation)) ->
  exists linkedFunction,
    Command.linkedFunctionOf openTextDocument getSourceSymbol sourceDoc linkedLocation
    = Some linkedFunction
    /\ workspaceEdit
       = if String.eqb (normalizedReturnType currentFunction)
              (normalizedReturnType linkedFunction)
         then []
         else [Command.mkTextEdit
                 (TextDocument.uri (Command.linkedDocOf openTextDocument sourceDoc linkedLocation))
                 (returnTypeRange linkedFunction) (returnType currentFunction)].
Proof.
  unfold Command.updateSignature.
  set (opened := if String.eqb (loc_uri linkedLocation) (SourceDocument.uri sourceDoc)
                 then [] else [Command.OpenDocument (loc_uri linkedLocation)]).
  assert (Hopened : ~ In (Command.ApplyEdit workspaceEdit) opened).
  { subst opened. destruct (String.eqb _ _); cbn; [tauto|]. intros [H | []]. discriminate. }
  assert (Hlog : forall position (last : Command.Effect),
            In (Command.ApplyEdit workspaceEdit)
              ((opened ++ [Command.GetSymbol
                             (TextDocument.uri
                                (Command.linkedDocOf openTextDocument sourceDoc linkedLocation))
                             position]) ++ [last]) ->
            last = Command.ApplyEdit workspaceEdit).
  { intros position last H. apply in_app_or in H as [H | [H | []]]; [|exact H].
    apply in_app_or in H as [H | [H | []]]; [contradiction | discriminate]. }
  destruct (Command.linkedFunctionOf openTextDocument getSourceSymbol sourceDoc linkedLocation)
    as [linked|];
    destruct (CSymbol.isFunctionDeclaration currentFunction);
    try destruct (negb _ || negb _);
    cbn [snd]; intros H; apply Hlog in H; try discriminate;
    injection H as <-; exists linked; (split; [reflexivity|]);
    destruct (String.eqb (normalizedReturnType currentFunction) (normalizedReturnType linked));
    reflexivity.
Qed.

(** Witness of X21: the declaration of [foo] returns [int], its linked
    definition [void]. *)
Lemma X21_updateSignature_edits_return_type_only_witness :
  exists linkedFunction,
    Command.linkedFunctionOf SignatureExamples.openTextDocument SignatureExamples.getSourceSymbol
      TextExamples.fooHeader TextExamples.linkedLocation
    = Some linkedFunction.
Proof.
  assert (H : In (Command.ApplyEdit
                    [Command.mkTextEdit "foo.cpp" (Examples.range 0 0 0 4) "int"])
                (snd (Command.updateSignature SignatureExamples.openTextDocument
                        SignatureExamples.getSourceSymbol SignatureExamples.normalizedReturnType
                        TextExamples.signatureRange SignatureExamples.normalizedReturnType
                        TextExamples.applyEdit FooExample.fooDeclaration TextExamples.fooHeader
                        TextExamples.linkedLocation)))
    by (vm_compute; right; right; left; reflexivity).
  destruct (X21_updateSignature_edits_return_type_only _ _ _ _ _ _ _ _ _ _ H)
    as (linkedFunction & Hlinked & _).
  exists linkedFunction. exact Hlinked.
Defined.

(** ** hasHeaderGuard *)

Lemma pragmaOnceAt_hash (text : string) :
  JS.startsWith "#" (JS.trimStart text) = false -> Re.pragmaOnceAt text = false.
Proof.
  intros H. unfold Re.pragmaOnceAt.
  destruct (JS.trimStart text) as [|c t]; [reflexivity|].
  cbn [JS.startsWith] in *. rewrite andb_true_r in H. now rewrite H.
Qed.

(** X22: hasHeaderGuard looks for [#pragma once] at the start of the file
    only.  When the first character of the file that is not white space is
    not [#] (a comment comes first, say), a [#pragma once] further down is
    not seen: the answer is whether the symbols hold a constant named like
    the header guard. *)
Theorem X22_pragma_once_only_at_the_start
  (executeSourceSymbolProvider : string -> list SourceSymbol) (headerGuardDefine : string)
  (this : SourceDocument) :
  JS.startsWith "#" (JS.trimStart (SourceDocument.text this)) = false ->
  fst (SourceDocument.hasHeaderGuard executeSourceSymbolProvider headerGuardDefine this)
  = existsb (fun symbol => SymbolKind.eqb (SourceSymbol.kind symbol) Constant
                           && String.eqb (SourceSymbol.name symbol) headerGuardDefine)
      match SourceDocument.symbols this with
      | Some l => l
      | None => executeSourceSymbolProvider (SourceDocument.uri this)
      end.
Proof.
  intros H. unfold SourceDocument.hasHeaderGuard.
  rewrite (pragmaOnceAt_hash _ H), fst_bind.
  now destruct (SourceDocument.symbols this).
Qed.

(** Witness of X22: the header whose [#pragma once] comes after a
    comment is taken to have no header guard. *)
Lemma X22_pragma_once_only_at_the_start_witness :
  fst (SourceDocument.hasHeaderGuard SiblingExamples.provider "LIB_H"
         PragmaExamples.pragmaAfterCommentDoc)
  = false.
Proof.
  exact (X22_pragma_once_only_at_the_start SiblingExamples.provider "LIB_H"
           PragmaExamples.pragmaAfterCommentDoc eq_refl).
Defined.
